(** * Geospatial proximity engine of the natural-disaster distance monitor

    A shallow embedding of [disasters/utils.py], [disasters/hurricanes.py]
    and [disasters/wildfires.py].

    Numbers.  The Python code computes on IEEE doubles.  Coordinates and
    distances are embedded as exact rationals [Q]: every comparison,
    sum, product and quotient of the source is kept, rounding is not
    modelled, and a nan is no value of the model.  The transcendental
    functions ([radians], [sin], [cos], [asin], [sqrt]) are taken
    abstractly through the class [MathLib].  An instance reads the five
    functions of one library: [haversine] calls those of [math],
    [haversine_vectorized] the ufuncs of [numpy], lifted elementwise; the
    two libraries are two instances, which need not return the same
    values.  [float('inf')] is the constructor [Infinity] of [miles].

    Arrays.  A numpy array is a list; an elementwise operation is a [map]
    or a [map2]; [a[m]] with a boolean mask is [getitem_mask], and
    [a[m] = v] is [setitem_mask].

    Exceptions.  A function that can raise returns [result]; a
    [try ... except Exception] handler is a [match] on it. *)

From Stdlib Require Import String.
From Stdlib Require Import QArith Qabs Qminmax Qround Lqa List Bool Lia Arith.
From Stdlib Require Import DecimalString ZArith.
From Stdlib Require Import Sorting.Permutation Sorting.Sorted.
Import ListNotations.
Open Scope Q_scope.

(** ** Python values *)

Inductive exn : Set :=
| ValueError   (* numpy reduction of a zero-size array *)
| IndexError.  (* subscript out of range *)

Inductive result (A : Type) : Type :=
| Ok (a : A)
| Raise (e : exn).
Arguments Ok {A} a.
Arguments Raise {A} e.

Definition bind {A B : Type} (r : result A) (k : A -> result B) : result B :=
  match r with
  | Ok a => k a
  | Raise e => Raise e
  end.

Notation "x <- r ;; k" := (bind r (fun x => k))
  (at level 61, r at next level, right associativity).

(** A Python float that may be [float('inf')]; it is never a nan. *)
Inductive miles : Set :=
| Finite (d : Q)
| Infinity.

(** [a > b] on such floats. *)
Definition Qlt_bool (a b : Q) : bool := negb (Qle_bool b a).

Definition miles_gt (a : miles) (b : Q) : bool :=
  match a with
  | Finite d => Qlt_bool b d
  | Infinity => true
  end.

(** [a <= b], the order [list.sort] uses through [<] on the keys. *)
Definition miles_le (a b : miles) : bool :=
  match a, b with
  | Finite x, Finite y => Qle_bool x y
  | Finite _, Infinity => true
  | Infinity, Finite _ => false
  | Infinity, Infinity => true
  end.

Definition miles_lt (a b : miles) : bool := negb (miles_le b a).

(** Python's builtin [min(a, b)]: [b] when [b < a], else [a]. *)
Definition py_min (a b : miles) : miles := if miles_lt b a then b else a.

Definition sq (x : Q) : Q := x * x.   (* [x ** 2] *)

(** ** numpy *)
Module Np.

Fixpoint map2 {A B C : Type} (f : A -> B -> C) (a : list A) (b : list B)
  : list C :=
  match a, b with
  | x :: a', y :: b' => f x y :: map2 f a' b'
  | _, _ => []
  end.

(** [a[m]] for a boolean mask [m]. *)
Fixpoint getitem_mask {A : Type} (a : list A) (m : list bool) : list A :=
  match a, m with
  | x :: a', true :: m' => x :: getitem_mask a' m'
  | _ :: a', false :: m' => getitem_mask a' m'
  | _, _ => []
  end.

(** [a[m] = v]: the entries of [v] go, in order, to the places where [m]
    holds. *)
Fixpoint setitem_mask {A : Type} (a : list A) (m : list bool) (v : list A)
  : list A :=
  match a, m with
  | x :: a', true :: m' =>
      match v with
      | w :: v' => w :: setitem_mask a' m' v'
      | [] => x :: setitem_mask a' m' []
      end
  | x :: a', false :: m' => x :: setitem_mask a' m' v
  | _, _ => a
  end.

Definition zeros_bool (n : nat) : list bool := repeat false n.

(** [np.min(a)] and [np.max(a)] of a one-dimensional array; a zero-size
    array has no minimum and the reduction raises [ValueError]. *)
Definition min (a : list Q) : result Q :=
  match a with
  | [] => Raise ValueError
  | x :: a' => Ok (fold_left Qmin a' x)
  end.

Definition max (a : list Q) : result Q :=
  match a with
  | [] => Raise ValueError
  | x :: a' => Ok (fold_left Qmax a' x)
  end.

(** [np.min(p, axis=0)] and [np.max(p, axis=0)] of an array of rows
    [(x, y)]: the reduction of each column. *)
Definition min_axis0 (p : list (Q * Q)) : result (Q * Q) :=
  x <- min (map fst p) ;;
  y <- min (map snd p) ;;
  Ok (x, y).

Definition max_axis0 (p : list (Q * Q)) : result (Q * Q) :=
  x <- max (map fst p) ;;
  y <- max (map snd p) ;;
  Ok (x, y).

(** [a[i]]. *)
Definition getitem {A : Type} (a : list A) (i : nat) : result A :=
  match nth_error a i with
  | Some x => Ok x
  | None => Raise IndexError
  end.

End Np.

(** ** The functions of [math] and numpy's ufuncs

    One instance is one library: [math.radians], [math.sin], ... or
    [np.radians], [np.sin], ..., [np.arcsin], [np.sqrt]. *)

Class MathLib : Type := {
  radians : Q -> Q;
  sin : Q -> Q;
  cos : Q -> Q;
  asin : Q -> Q;
  sqrt : Q -> Q
}.


(** ** disasters/utils.py *)
Module Utils.

Definition EARTH_RADIUS_MILES : Q := 3956.

(** A polygon is an array of rows [(x, y)] = (longitude, latitude). *)
Definition polygon_t : Type := list (Q * Q).

Section Haversine.
(** [haversine] reads [M] as [math], [haversine_vectorized] reads it as
    [numpy]: each of the two takes its own instance. *)
Context {M : MathLib}.

Definition haversine (lon1 lat1 lon2 lat2 : Q) : Q :=
  let lon1 := radians lon1 in
  let lat1 := radians lat1 in
  let lon2 := radians lon2 in
  let lat2 := radians lat2 in
  let dlon := lon2 - lon1 in
  let dlat := lat2 - lat1 in
  let a := sq (sin (dlat / 2)) + cos lat1 * cos lat2 * sq (sin (dlon / 2)) in
  let c := 2 * asin (sqrt a) in
  EARTH_RADIUS_MILES * c.

(** [haversine_vectorized] as its callers use it: a scalar origin
    [(lon1, lat1)] broadcast against the target arrays [lon2], [lat2],
    the two columns of one polygon.  Its handler logs and raises again;
    no operation of the body raises on such arrays. *)
Definition haversine_vectorized (lon1 lat1 : Q) (lon2 lat2 : list Q)
  : list Q :=
  let lon1 := radians lon1 in
  let lat1 := radians lat1 in
  let lon2 := map radians lon2 in
  let lat2 := map radians lat2 in
  let dlon := map (fun l => l - lon1) lon2 in
  let dlat := map (fun l => l - lat1) lat2 in
  let a :=
    Np.map2 Qplus
      (map sq (map sin (map (fun d => d / 2) dlat)))
      (Np.map2 Qmult
         (map (fun c2 => cos lat1 * c2) (map cos lat2))
         (map sq (map sin (map (fun d => d / 2) dlon)))) in
  let c := map (fun s => 2 * s) (map asin (map sqrt a)) in
  map (fun c => EARTH_RADIUS_MILES * c) c.

End Haversine.

(** One pass of the loop [for i in range(n)] of
    [is_point_in_polygon_vectorized] over the arrays of the points that
    passed the bounding box. *)
Definition edge_pass (x_in_bbox y_in_bbox : list Q) (polygon : polygon_t)
  (n : nat) (inside_or_on_edge_bbox : list bool) (i : nat) : list bool :=
  let j := ((i + 1) mod n)%nat in
  let '(xi, yi) := nth i polygon (0, 0) in
  let '(xj, yj) := nth j polygon (0, 0) in
  (* Check if point is on vertex *)
  let on_vertex :=
    Np.map2 andb
      (map (fun x => Qlt_bool (Qabs (x - xi)) (1 # 1000000000)) x_in_bbox)
      (map (fun y => Qlt_bool (Qabs (y - yi)) (1 # 1000000000)) y_in_bbox) in
  let inside_or_on_edge_bbox := Np.map2 orb inside_or_on_edge_bbox on_vertex in
  (* Check if point is on edge *)
  let edge_x := xj - xi in
  let edge_y := yj - yi in
  let edge_length_sq := sq edge_x + sq edge_y in
  let inside_or_on_edge_bbox :=
    if Qlt_bool 0 edge_length_sq then
      let t :=
        map (fun s => s / edge_length_sq)
          (Np.map2 Qplus
             (map (fun x => (x - xi) * edge_x) x_in_bbox)
             (map (fun y => (y - yi) * edge_y) y_in_bbox)) in
      let px := map (fun t => xi + t * edge_x) t in
      let py := map (fun t => yi + t * edge_y) t in
      let distance_sq :=
        Np.map2 Qplus
          (map sq (Np.map2 Qminus x_in_bbox px))
          (map sq (Np.map2 Qminus y_in_bbox py)) in
      let tolerance := 1 # 1000000000000 in
      let edge_check :=
        Np.map2 andb
          (Np.map2 andb
             (map (fun d => Qlt_bool d tolerance) distance_sq)
             (map (fun t => Qle_bool 0 t) t))
          (map (fun t => Qle_bool t 1) t) in
      Np.map2 orb inside_or_on_edge_bbox edge_check
    else inside_or_on_edge_bbox in
  (* Ray-casting algorithm for points not on the edge *)
  let mask :=
    map (fun b => negb b && negb (Qeq_bool yi yj)) inside_or_on_edge_bbox in
  let yj_gt_yi := Qlt_bool yi yj in
  let intersect :=
    Np.map2 andb mask
      (map (fun y =>
              (Qle_bool yi y && Qlt_bool y yj && yj_gt_yi)
              || (Qle_bool yj y && Qlt_bool y yi && negb yj_gt_yi))
         y_in_bbox) in
  (* under [np.errstate] a zero [edge_y] gives inf or nan, and [mask] is
     False there; [Qdiv] gives 0, under the same mask *)
  let slope := edge_x / edge_y in
  let intersect :=
    Np.map2 andb intersect
      (Np.map2 Qlt_bool x_in_bbox
         (map (fun y => xi + (y - yi) * slope) y_in_bbox)) in
  Np.setitem_mask inside_or_on_edge_bbox mask
    (Np.map2 xorb (Np.getitem_mask inside_or_on_edge_bbox mask)
       (Np.getitem_mask intersect mask)).

(** The pipeline after the bounding box: all passes of the loop. *)
Definition edge_loop (x_in_bbox y_in_bbox : list Q) (polygon : polygon_t)
  : list bool :=
  let n := length polygon in
  fold_left (edge_pass x_in_bbox y_in_bbox polygon n) (seq 0 n)
    (Np.zeros_bool (length x_in_bbox)).

(** [(x >= min_x) & (x <= max_x) & (y >= min_y) & (y <= max_y)]. *)
Definition bbox_mask (mn mx : Q * Q) (x y : list Q) : list bool :=
  let '(min_x, min_y) := mn in
  let '(max_x, max_y) := mx in
  Np.map2 andb
    (Np.map2 andb
       (Np.map2 andb
          (map (fun x => Qle_bool min_x x) x)
          (map (fun x => Qle_bool x max_x) x))
       (map (fun y => Qle_bool min_y y) y))
    (map (fun y => Qle_bool y max_y) y).

(** [x] and [y] are one-dimensional arrays of one length.  The handler
    logs and raises again: an exception of the body is the result. *)
Definition is_point_in_polygon_vectorized (x y : list Q) (polygon : polygon_t)
  : result (list bool) :=
  let inside_or_on_edge := Np.zeros_bool (length x) in
  if (length x =? 0)%nat then Ok inside_or_on_edge
  else
    (* Bounding box check for early filtering *)
    mn <- Np.min_axis0 polygon ;;
    mx <- Np.max_axis0 polygon ;;
    let bbox_check := bbox_mask mn mx x y in
    let x_in_bbox := Np.getitem_mask x bbox_check in
    let y_in_bbox := Np.getitem_mask y bbox_check in
    if (length x_in_bbox =? 0)%nat then Ok inside_or_on_edge
    else
      let inside_or_on_edge_bbox := edge_loop x_in_bbox y_in_bbox polygon in
      Ok (Np.setitem_mask inside_or_on_edge bbox_check inside_or_on_edge_bbox).

(** [is_point_in_polygon]: the wrapper for one point. *)
Definition is_point_in_polygon (x y : Q) (polygon : polygon_t) : result bool :=
  r <- is_point_in_polygon_vectorized [x] [y] polygon ;;
  Np.getitem r 0.

End Utils.


(** ** [list.sort(key=...)]

    Python's sort is stable and compares keys with [<] only.  The result
    of a stable sort is fixed by the input and the order of the keys; it
    is embedded as the insertion sort that puts an element before the
    first one whose key is not smaller. *)
Section ListSort.
Context {A : Type} (key : A -> miles).

Fixpoint insert_by (x : A) (l : list A) : list A :=
  match l with
  | [] => [x]
  | h :: t => if miles_lt (key h) (key x) then h :: insert_by x t else x :: l
  end.

Definition list_sort (l : list A) : list A := fold_right insert_by [] l.

End ListSort.

(** ** disasters/hurricanes.py *)
Module Hurricanes.

(** A row of the cone table.  [geometry] is [None] when the decoded
    geometry is empty or has no ['rings'] key, else the value of
    ['rings'].  [LAT] is what [cone.get('LAT')] returns: [None] when it
    returns [None] (the table has no such column), else the number; and
    so for [LON].  A cell that is empty in a column the table has is a
    nan, which is no value of the model: such rows are not covered. *)
Record cone_t : Type := {
  STORMNAME : string;
  STORMNUM : option Z;
  geometry : option (list Utils.polygon_t);
  LAT : option Q;
  LON : option Q
}.

(** Truth value of [cone.get(...)]: [None] and [0.0] are false, every
    other number is true. *)
Definition truthy (v : option Q) : bool :=
  match v with
  | Some q => negb (Qeq_bool q 0)
  | None => false
  end.

(** [float(v)] of a value that passed [truthy]. *)
Definition float_of (v : option Q) : Q :=
  match v with
  | Some q => q
  | None => 0
  end.

Section Evaluator.
Context {M : MathLib}.

(** The [try] block of [_calculate_distance_to_cone].  The point
    distance is [haversine] on [math], the ring distances are
    [haversine_vectorized] on [numpy]; a cone takes one of the two
    branches, and [M] is the library of the branch taken. *)
Definition cone_try (user_lat user_lon : Q) (cone : cone_t)
  : result (miles * bool) :=
  match geometry cone with
  | None =>
      (* No polygon geometry, use point distance if available *)
      let cone_lat := LAT cone in
      let cone_lon := LON cone in
      if truthy cone_lat && truthy cone_lon then
        let distance :=
          Utils.haversine user_lon user_lat (float_of cone_lon)
            (float_of cone_lat) in
        Ok (Finite distance, false)
      else Ok (Infinity, false)
  | Some rings =>
      (* Get the outer ring of the polygon *)
      polygon <- Np.getitem rings 0 ;;
      (* Check if point is inside the cone *)
      inside <-
        Utils.is_point_in_polygon_vectorized [user_lon] [user_lat] polygon ;;
      inside0 <- Np.getitem inside 0 ;;
      if (inside0 : bool) then Ok (Finite 0, true)
      else
        (* Calculate minimum distance to polygon boundary *)
        let distances :=
          Utils.haversine_vectorized user_lon user_lat
            (map fst polygon) (map snd polygon) in
        min_distance <- Np.min distances ;;
        Ok (Finite min_distance, false)
  end.

Definition _calculate_distance_to_cone (user_lat user_lon : Q) (cone : cone_t)
  : miles * bool :=
  match cone_try user_lat user_lon cone with
  | Ok r => r
  | Raise _ => (Infinity, false)
  end.

End Evaluator.

(** What the ranking keeps of a [HurricaneResult]. *)
Record HurricaneResult : Type := {
  source : cone_t;
  distance_miles : miles;
  inside_cone : bool
}.

(** [storm_key = (storm_name, storm_num)] and the equality of such
    tuples. *)
Definition storm_key (cone : cone_t) : string * option Z :=
  (STORMNAME cone, STORMNUM cone).

Definition storm_key_eqb (a b : string * option Z) : bool :=
  String.eqb (fst a) (fst b)
  && match snd a, snd b with
     | Some m, Some n => Z.eqb m n
     | None, None => true
     | _, _ => false
     end.

Section Ranking.
(** [builds cone] holds when the construction of the [HurricaneResult]
    from the row ([int(ssnum)], [float(max_wind)], ...) returns; when it
    raises, the handler of the loop skips the row. *)
Variable builds : cone_t -> bool.
Variable radius_miles : Q.

(** One pass of [for _, cone in cone_df.iterrows()], on the row and the
    pair [_calculate_distance_to_cone] returned for it; the state is
    [(results, processed_storms)]. *)
Definition cone_pass (st : list HurricaneResult * list (string * option Z))
  (row : cone_t * (miles * bool))
  : list HurricaneResult * list (string * option Z) :=
  let '(results, processed_storms) := st in
  let '(cone, (distance, inside_cone)) := row in
  (* Skip if we've already processed this storm *)
  if existsb (storm_key_eqb (storm_key cone)) processed_storms then st
  else if miles_gt distance radius_miles && negb inside_cone then st
  else
    let processed_storms := storm_key cone :: processed_storms in
    if builds cone then
      let r := {| source := cone;
                  distance_miles := if inside_cone then Finite 0 else distance;
                  inside_cone := inside_cone |} in
      (results ++ [r], processed_storms)
    else (results, processed_storms).

Definition rank (rows : list (cone_t * (miles * bool)))
  : list HurricaneResult :=
  let '(results, _) := fold_left cone_pass rows ([], []) in
  list_sort distance_miles results.

End Ranking.

Definition get_hurricanes_near_location {M : MathLib}
  (builds : cone_t -> bool) (lat lon radius_miles : Q) (cone_df : list cone_t)
  : list HurricaneResult :=
  rank builds radius_miles
    (map (fun cone => (cone, _calculate_distance_to_cone lat lon cone))
       cone_df).

End Hurricanes.

(** ** disasters/wildfires.py *)
Module Wildfires.

Record fire_t : Type := {
  poly_IncidentName : string;
  geometry_rings : list Utils.polygon_t;
  attr_POOLatitude : option Q;
  attr_POOLongitude : option Q
}.

(** The variables of the loop over the rings. *)
Record scan : Type := {
  inside_outer : bool;
  inside_hole : bool;
  min_distance : miles
}.

Section Evaluator.
Context {M : MathLib}.

(** One pass of [for i, ring in enumerate(rings)]. *)
Definition ring_pass (user_lat user_lon : Q) (st : result scan)
  (ir : nat * Utils.polygon_t) : result scan :=
  st <- st ;;
  let '(i, ring) := ir in
  if (length ring =? 0)%nat then Ok st
  else
    let poly_points := ring in
    if (length poly_points <? 3)%nat then Ok st
    else
      (* Check if inside this ring *)
      ring_inside <-
        Utils.is_point_in_polygon_vectorized [user_lon] [user_lat]
          poly_points ;;
      r0 <- Np.getitem ring_inside 0 ;;
      let st :=
        if (r0 : bool) then
          if (i =? 0)%nat then
            {| inside_outer := true;
               inside_hole := inside_hole st;
               min_distance := min_distance st |}
          else
            {| inside_outer := inside_outer st;
               inside_hole := true;
               min_distance := min_distance st |}
        else st in
      (* Calculate minimum distance to ring boundary *)
      let distances :=
        Utils.haversine_vectorized user_lon user_lat
          (map fst poly_points) (map snd poly_points) in
      ring_min_distance <- Np.min distances ;;
      Ok {| inside_outer := inside_outer st;
            inside_hole := inside_hole st;
            min_distance :=
              py_min (min_distance st) (Finite ring_min_distance) |}.

(** The [try] block of [_calculate_distance_to_fire]. *)
Definition fire_try (user_lat user_lon : Q) (fire : fire_t)
  : result (miles * bool) :=
  let rings := geometry_rings fire in
  if (length rings =? 0)%nat then
    (* No polygon geometry, return infinity *)
    Ok (Infinity, false)
  else
    st <-
      fold_left (ring_pass user_lat user_lon)
        (combine (seq 0 (length rings)) rings)
        (Ok {| inside_outer := false;
               inside_hole := false;
               min_distance := Infinity |}) ;;
    let inside := inside_outer st && negb (inside_hole st) in
    if inside then Ok (Finite 0, true)
    else Ok (min_distance st, false).

Definition _calculate_distance_to_fire (user_lat user_lon : Q) (fire : fire_t)
  : miles * bool :=
  match fire_try user_lat user_lon fire with
  | Ok r => r
  | Raise _ => (Infinity, false)
  end.

End Evaluator.

(** What the ranking keeps of a [WildfireResult]. *)
Record WildfireResult : Type := {
  source : fire_t;
  distance_miles : miles;
  inside_perimeter : bool
}.

Section Ranking.
Variable radius_miles : Q.

(** One pass of [for _, fire in fires_df.iterrows()], on the row and the
    pair [_calculate_distance_to_fire] returned for it.  Every conversion
    after the radius test is guarded in the source, so the construction
    of the result returns. *)
Definition fire_pass (results : list WildfireResult)
  (row : fire_t * (miles * bool)) : list WildfireResult :=
  let '(fire, (distance, inside)) := row in
  if miles_gt distance radius_miles && negb inside then results
  else
    let r := {| source := fire;
                distance_miles := if inside then Finite 0 else distance;
                inside_perimeter := inside |} in
    results ++ [r].

Definition rank (rows : list (fire_t * (miles * bool)))
  : list WildfireResult :=
  let results := fold_left fire_pass rows [] in
  list_sort distance_miles results.

End Ranking.

Definition get_wildfires_near_location {M : MathLib}
  (lat lon radius_miles : Q) (fires_df : list fire_t) : list WildfireResult :=
  rank radius_miles
    (map (fun fire => (fire, _calculate_distance_to_fire lat lon fire))
       fires_df).

End Wildfires.

(** ** The loop of the containment test at one point

    Every array of [Utils.edge_pass] is indexed by the query points, and
    every operation on them is elementwise: [edge_step] is the value of
    one pass at one point [(x, y)] whose flag is [b]. *)
Module Pointwise.

Definition vertex (polygon : Utils.polygon_t) (i : nat) : Q * Q :=
  nth i polygon (0, 0).

Definition on_vertex (x y xi yi : Q) : bool :=
  Qlt_bool (Qabs (x - xi)) (1 # 1000000000)
  && Qlt_bool (Qabs (y - yi)) (1 # 1000000000).

Definition edge_check (x y xi yi xj yj : Q) : bool :=
  let edge_x := xj - xi in
  let edge_y := yj - yi in
  let edge_length_sq := sq edge_x + sq edge_y in
  let t := ((x - xi) * edge_x + (y - yi) * edge_y) / edge_length_sq in
  let px := xi + t * edge_x in
  let py := yi + t * edge_y in
  let distance_sq := sq (x - px) + sq (y - py) in
  Qlt_bool distance_sq (1 # 1000000000000) && Qle_bool 0 t && Qle_bool t 1.

(** The edge's vertical span straddles [y]. *)
Definition straddles (y yi yj : Q) : bool :=
  (Qle_bool yi y && Qlt_bool y yj && Qlt_bool yi yj)
  || (Qle_bool yj y && Qlt_bool y yi && negb (Qlt_bool yi yj)).

(** The longitude at which the ray at latitude [y] meets the edge. *)
Definition intersection_lon (y xi yi xj yj : Q) : Q :=
  xi + (y - yi) * ((xj - xi) / (yj - yi)).

Definition edge_step (polygon : Utils.polygon_t) (n : nat) (x y : Q)
  (b : bool) (i : nat) : bool :=
  let j := ((i + 1) mod n)%nat in
  let '(xi, yi) := vertex polygon i in
  let '(xj, yj) := vertex polygon j in
  let b := b || on_vertex x y xi yi in
  let b :=
    if Qlt_bool 0 (sq (xj - xi) + sq (yj - yi))
    then b || edge_check x y xi yi xj yj
    else b in
  let mask := negb b && negb (Qeq_bool yi yj) in
  let intersect := mask && straddles y yi yj in
  let intersect := intersect && Qlt_bool x (intersection_lon y xi yi xj yj) in
  if mask then xorb b intersect else b.

Definition pipeline (polygon : Utils.polygon_t) (x y : Q) : bool :=
  let n := List.length polygon in
  fold_left (edge_step polygon n x y) (seq 0 n) false.

Definition in_bbox (polygon : Utils.polygon_t) (x y : Q) : bool :=
  match Np.min_axis0 polygon, Np.max_axis0 polygon with
  | Ok (min_x, min_y), Ok (max_x, max_y) =>
      Qle_bool min_x x && Qle_bool x max_x
      && Qle_bool min_y y && Qle_bool y max_y
  | _, _ => false
  end.

(** The three ways edge [i] can set the flag of a point. *)
Definition touches_vertex (polygon : Utils.polygon_t) (x y : Q) (i : nat)
  : bool :=
  let '(xi, yi) := vertex polygon i in
  on_vertex x y xi yi.

Definition touches_edge (polygon : Utils.polygon_t) (x y : Q) (i : nat)
  : bool :=
  let '(xi, yi) := vertex polygon i in
  let '(xj, yj) := vertex polygon ((i + 1) mod List.length polygon) in
  Qlt_bool 0 (sq (xj - xi) + sq (yj - yi)) && edge_check x y xi yi xj yj.

(** Edge [i] is crossed by the ray cast from [(x, y)]: it is not
    horizontal, its vertical span straddles [y], and the intersection
    longitude exceeds [x]. *)
Definition crosses (polygon : Utils.polygon_t) (x y : Q) (i : nat) : bool :=
  let '(xi, yi) := vertex polygon i in
  let '(xj, yj) := vertex polygon ((i + 1) mod List.length polygon) in
  negb (Qeq_bool yi yj) && straddles y yi yj
  && Qlt_bool x (intersection_lon y xi yi xj yj).

Definition edges (polygon : Utils.polygon_t) : list nat :=
  seq 0 (List.length polygon).

(** The number of edges the ray crosses, and the even-odd rule. *)
Definition crossings (polygon : Utils.polygon_t) (x y : Q) : nat :=
  List.length (filter (crosses polygon x y) (edges polygon)).

Definition even_odd (polygon : Utils.polygon_t) (x y : Q) : bool :=
  Nat.odd (crossings polygon x y).

(** The point is flagged by a vertex or an edge coincidence check. *)
Definition on_boundary (polygon : Utils.polygon_t) (x y : Q) : bool :=
  existsb (fun i => touches_vertex polygon x y i || touches_edge polygon x y i)
    (edges polygon).

End Pointwise.

(** The vertex, edge and ray-cast passes run on every point, without
    the bounding box. *)
Definition is_point_in_polygon_unfiltered (x y : list Q)
  (polygon : Utils.polygon_t) : result (list bool) :=
  Ok (Utils.edge_loop x y polygon).

(** ** Ranking *)

(** The retention rule: contained, or within the radius. *)
Definition within (radius : Q) (pr : miles * bool) : bool :=
  snd pr || miles_le (fst pr) (Finite radius).

(** Two distances are equal. *)
Definition same_distance (a b : miles) : bool := miles_le a b && miles_le b a.

(** [l] is in ascending order of [key]. *)
Definition ascending {A : Type} (key : A -> miles) (l : list A) : Prop :=
  StronglySorted (fun a b => miles_le (key a) (key b) = true) l.

(** [out] holds the entries of [kept], in ascending order of [key], the
    entries of equal key in the order they have in [kept]. *)
Definition stably_ranked {A : Type} (key : A -> miles) (kept out : list A)
  : Prop :=
  Permutation kept out
  /\ ascending key out
  /\ forall d, filter (fun r => same_distance d (key r)) out
               = filter (fun r => same_distance d (key r)) kept.

(** The result entry of a row. *)
Definition fire_entry (row : Wildfires.fire_t * (miles * bool))
  : Wildfires.WildfireResult :=
  {| Wildfires.source := fst row;
     Wildfires.distance_miles :=
       if snd (snd row) then Finite 0 else fst (snd row);
     Wildfires.inside_perimeter := snd (snd row) |}.

Definition cone_entry (row : Hurricanes.cone_t * (miles * bool))
  : Hurricanes.HurricaneResult :=
  {| Hurricanes.source := fst row;
     Hurricanes.distance_miles :=
       if snd (snd row) then Finite 0 else fst (snd row);
     Hurricanes.inside_cone := snd (snd row) |}.

(** The rows whose storm key is not in [seen] and is not the key of an
    earlier row of the list. *)
Fixpoint first_per_storm (seen : list (string * option Z))
  (rows : list (Hurricanes.cone_t * (miles * bool)))
  : list (Hurricanes.cone_t * (miles * bool)) :=
  match rows with
  | [] => []
  | row :: rows' =>
      let k := Hurricanes.storm_key (fst row) in
      if existsb (Hurricanes.storm_key_eqb k) seen
      then first_per_storm seen rows'
      else row :: first_per_storm (k :: seen) rows'
  end.

(** ** Minimum vertex distance *)

(** [d] is a minimum of the list [l]. *)
Definition is_minimum (d : Q) (l : list Q) : Prop :=
  In d l /\ Forall (fun d' => d <= d') l.

(** [m] is the least of [m0] and the distances [ds]. *)
Definition least_of (m m0 : miles) (ds : list Q) : Prop :=
  (m = m0 \/ exists d, m = Finite d /\ In d ds)
  /\ miles_le m m0 = true
  /\ Forall (fun d => miles_le m (Finite d) = true) ds.

(** The haversine distances from the query to each vertex. *)
Definition vertex_distances {M : MathLib} (lon lat : Q)
  (vs : list (Q * Q)) : list Q :=
  map (fun v => Utils.haversine lon lat (fst v) (snd v)) vs.

(** The value of the containment test for one query, [False] if it
    raised. *)
Definition inside_ring (lon lat : Q) (ring : Utils.polygon_t) : bool :=
  match Utils.is_point_in_polygon lon lat ring with
  | Ok b => b
  | Raise _ => false
  end.

(** ** Points of the boundary *)

(** [(x, y)] is vertex [i] of the ring. *)
Definition at_vertex (polygon : Utils.polygon_t) (x y : Q) : Prop :=
  exists i, (i < List.length polygon)%nat /\
    x == fst (Pointwise.vertex polygon i) /\
    y == snd (Pointwise.vertex polygon i).

(** [(x, y)] is the point of parameter [t] in [0, 1] of the edge from
    vertex [i] to vertex [(i + 1) mod n]. *)
Definition on_segment (polygon : Utils.polygon_t) (x y : Q) : Prop :=
  exists i t, (i < List.length polygon)%nat /\ 0 <= t /\ t <= 1 /\
    let '(xi, yi) := Pointwise.vertex polygon i in
    let '(xj, yj) :=
      Pointwise.vertex polygon ((i + 1) mod List.length polygon) in
    x == xi + t * (xj - xi) /\ y == yi + t * (yj - yi).

(** ** Sample data *)

Definition triangle : Utils.polygon_t := [(0, 0); (10, 0); (5, 10)].

Definition square : Utils.polygon_t :=
  [(-100, 25); (-100, 35); (-90, 35); (-90, 25)].

Definition hole : Utils.polygon_t :=
  [(-97, 28); (-97, 32); (-93, 32); (-93, 28)].

Definition sample_cone (rings : option (list Utils.polygon_t))
  (lat lon : option Q) : Hurricanes.cone_t :=
  {| Hurricanes.STORMNAME := "Alpha";
     Hurricanes.STORMNUM := Some 1%Z;
     Hurricanes.geometry := rings;
     Hurricanes.LAT := lat;
     Hurricanes.LON := lon |}.

Definition sample_fire (rings : list Utils.polygon_t) (poo : option (Q * Q))
  : Wildfires.fire_t :=
  {| Wildfires.poly_IncidentName := "Cedar";
     Wildfires.geometry_rings := rings;
     Wildfires.attr_POOLatitude := option_map fst poo;
     Wildfires.attr_POOLongitude := option_map snd poo |}.

Definition cone_square : Hurricanes.cone_t :=
  sample_cone (Some [square]) None None.

Definition cone_point : Hurricanes.cone_t :=
  sample_cone None (Some 28) (Some (-94)).

Definition cone_equator : Hurricanes.cone_t :=
  sample_cone None (Some 0) (Some (-94)).

Definition fire_holed : Wildfires.fire_t := sample_fire [square; hole] None.

Definition fire_origin_only : Wildfires.fire_t :=
  sample_fire [] (Some (30, -94)).

Definition two_cones_one_storm : list (Hurricanes.cone_t * (miles * bool)) :=
  [(cone_point, (Finite 10, false)); (cone_equator, (Finite 5, false))].

(** A coarse rational instance of the library functions, to run the
    model on sample data. *)
Definition approx_math : MathLib := {|
  radians := fun d => d * (355 # 113) / 180;
  sin := fun a => a - a * a * a / 6;
  cos := fun a => 1 - a * a / 2;
  asin := fun a => a + a * a * a / 6;
  sqrt := fun a => let s := (1 + a) / 2 in (s + a / s) / 2
|}.


(** A fire whose one ring is the triangle, and a fire whose outer ring
    is a frame around the triangle and whose hole is the triangle. *)
Definition frame : Utils.polygon_t := [(-5, -5); (15, -5); (15, 15); (-5, 15)].

Definition fire_triangle : Wildfires.fire_t := sample_fire [triangle] None.

Definition fire_framed : Wildfires.fire_t :=
  sample_fire [frame; triangle] None.

(** * The rest of the package

    The functions below are the ones the containment test, the
    evaluators and the rankings sit between: the validators and the
    loader of [utils.py], the classifications of [models.py], the helpers
    of [hurricanes.py], the tornado ranking and the entry point of
    [__init__.py].  Network fetches are not modelled: a
    function that fetches takes the fetched rows as an argument. *)

(** ** Python values and exceptions of these functions *)
Module Py.

(** A value reaching [float(...)]: [None], a string, or a number, float
    or int.  A float is finite: an infinity and a nan are no values of
    the model. *)
Inductive value : Type :=
| PNone
| PStr (s : string)
| PFloat (q : Q).

Inductive exc : Set :=
| TypeError
| ValueError
| KeyError
| AttributeError
| IndexError
| FileNotFoundError.

Inductive res (A : Type) : Type :=
| Returns (a : A)
| Raises (e : exc).
Arguments Returns {A} a.
Arguments Raises {A} e.

Definition and_then {A B : Type} (r : res A) (k : A -> res B) : res B :=
  match r with
  | Returns a => k a
  | Raises e => Raises e
  end.

(** A [dict] with string keys, as the list of its items; [get] is
    [d.get(k)] and [item] is [d[k]]. *)
Definition dict (V : Type) : Type := list (string * V).

Fixpoint get {V : Type} (d : dict V) (k : string) : option V :=
  match d with
  | [] => None
  | (k', v) :: d' => if String.eqb k k' then Some v else get d' k
  end.

Definition item {V : Type} (d : dict V) (k : string) : res V :=
  match get d k with
  | Some v => Returns v
  | None => Raises KeyError
  end.

(** The largest finite double, [sys.float_info.max]: [float(n)] of an
    int beyond it raises [OverflowError], and a string that spells a
    number beyond it converts to an infinity. *)
Definition DBL_MAX : Q := inject_Z (2 ^ 1024 - 2 ^ 971).

(** The numbers on which [float(...)] returns a finite float. *)
Definition in_double_range (q : Q) : Prop := Qabs q <= DBL_MAX.

Definition converts (v : value) : Prop :=
  match v with
  | PFloat q => in_double_range q
  | _ => True
  end.

(** [round(x)] of a finite float: to the nearest integer, a tie to the
    even one. *)
Definition round (x : Q) : Z :=
  let f := Qfloor x in
  let r := x - inject_Z f in
  if Qlt_bool r (1 # 2) then f
  else if Qlt_bool (1 # 2) r then (f + 1)%Z
  else if Z.even f then f else (f + 1)%Z.

Section Float.
(** [float(s)] of a string: the number it spells, [None] when it raises
    [ValueError].  Strings that spell an infinity or a nan are outside
    the model, as those values are.  [Returns q] is the return of the
    finite float [q].  Of an int beyond the double range [float]
    raises [OverflowError], which the model leaves out: a statement
    about all values takes [converts] as a hypothesis. *)
Variable parse_float : string -> option Q.

Definition float (v : value) : res Q :=
  match v with
  | PNone => Raises TypeError
  | PStr s =>
      match parse_float s with
      | Some q => Returns q
      | None => Raises ValueError
      end
  | PFloat q => Returns q
  end.

End Float.

End Py.

(** ** disasters/utils.py: validation and loading *)
Module Validation.

(** The message of [validate_and_normalize_coordinates], by its template
    and the value it interpolates. *)
Inductive message : Type :=
| Invalid_coordinate_format (e : Py.exc)
| Latitude_out_of_range (lat : Q)
| Longitude_out_of_range (lon : Q).

(** A loaded row of the CSV file. *)
Record location_dict : Type := {
  loc_name : string;
  loc_latitude : Q;
  loc_longitude : Q
}.

Section Validation.
Variable parse_float : string -> option Q.
(** [str.strip]. *)
Variable strip : string -> string.

Definition in_range (lo x hi : Q) : bool := Qle_bool lo x && Qle_bool x hi.

Definition validate_coordinates (lat lon : Py.value) : bool :=
  match Py.float parse_float lat with
  | Py.Returns lat =>
      match Py.float parse_float lon with
      | Py.Returns lon => in_range (-90) lat 90 && in_range (-180) lon 180
      | Py.Raises _ => false
      end
  | Py.Raises _ => false
  end.

Definition validate_and_normalize_coordinates (lat lon : Py.value)
  : option Q * option Q * option message :=
  match Py.float parse_float lat with
  | Py.Raises e => (None, None, Some (Invalid_coordinate_format e))
  | Py.Returns lat =>
      match Py.float parse_float lon with
      | Py.Raises e => (None, None, Some (Invalid_coordinate_format e))
      | Py.Returns lon =>
          if negb (in_range (-90) lat 90)
          then (None, None, Some (Latitude_out_of_range lat))
          else if negb (in_range (-180) lon 180)
          then (None, None, Some (Longitude_out_of_range lon))
          else (Some lat, Some lon, None)
      end
  end.

(** A row of [csv.DictReader]: each column of the header is a key; the
    value is [None] where the line has no field for the column. *)
Definition csv_row : Type := Py.dict (option string).

(** Truth value of [row.get(k)]: a non-empty string. *)
Definition truthy_field (v : option (option string)) : option string :=
  match v with
  | Some (Some s) => if String.eqb s "" then None else Some s
  | _ => None
  end.

(** [f'Location {row_num}']. *)
Definition location_label (row_num : nat) : string :=
  String.append "Location " (NilEmpty.string_of_uint (Nat.to_uint row_num)).

(** [float(row[k])]. *)
Definition float_field (row : csv_row) (k : string) : Py.res Q :=
  Py.and_then (Py.item row k) (fun v =>
    match v with
    | Some s => Py.float parse_float (Py.PStr s)
    | None => Py.float parse_float Py.PNone
    end).

(** The [try] block of the loop over the rows: the location to append,
    if any. *)
Definition parse_row (row_num : nat) (row : csv_row)
  : Py.res (option location_dict) :=
  let name : option string :=
    match truthy_field (Py.get row "name") with
    | Some s => Some s
    | None =>
        match Py.get row "location" with
        | Some v => v
        | None => Some (location_label row_num)
        end
    end in
  Py.and_then (float_field row "latitude") (fun lat =>
  Py.and_then (float_field row "longitude") (fun lon =>
    if validate_coordinates (Py.PFloat lat) (Py.PFloat lon) then
      match name with
      | Some s =>
          Py.Returns (Some {| loc_name := strip s;
                              loc_latitude := lat;
                              loc_longitude := lon |})
      | None => Py.Raises Py.AttributeError
      end
    else Py.Returns None)).

(** One pass of [for row_num, row in enumerate(reader, start=2)]; the
    handler catches [ValueError] and [KeyError] only. *)
Definition row_pass (st : Py.res (list location_dict))
  (nr : nat * csv_row) : Py.res (list location_dict) :=
  Py.and_then st (fun locations =>
    match parse_row (fst nr) (snd nr) with
    | Py.Returns (Some loc) => Py.Returns (locations ++ [loc])
    | Py.Returns None => Py.Returns locations
    | Py.Raises Py.ValueError => Py.Returns locations
    | Py.Raises Py.KeyError => Py.Returns locations
    | Py.Raises e => Py.Raises e
    end).

Definition mem (k : string) (l : list string) : bool :=
  existsb (String.eqb k) l.

(** [load_locations_from_csv] on the file at the path: [None] when the
    path does not exist, else the header and the rows the reader
    yields. *)
Definition load_locations_from_csv
  (file : option (list string * list csv_row))
  : Py.res (list location_dict) :=
  match file with
  | None => Py.Raises Py.FileNotFoundError
  | Some (fieldnames, rows) =>
      let has_name := mem "name" fieldnames || mem "location" fieldnames in
      let has_lat := mem "latitude" fieldnames in
      let has_lon := mem "longitude" fieldnames in
      if negb (has_name && has_lat && has_lon) then Py.Raises Py.ValueError
      else
        fold_left row_pass (combine (seq 2 (List.length rows)) rows)
          (Py.Returns [])
  end.

End Validation.

End Validation.

(** ** disasters/models.py *)
Module Models.

Inductive DisasterType : Set := HURRICANE | TORNADO | WILDFIRE.

Definition DisasterType_eqb (a b : DisasterType) : bool :=
  match a, b with
  | HURRICANE, HURRICANE | TORNADO, TORNADO | WILDFIRE, WILDFIRE => true
  | _, _ => false
  end.

Inductive HurricaneCategory : Set :=
| TROPICAL_DEPRESSION
| TROPICAL_STORM
| CATEGORY_1
| CATEGORY_2
| CATEGORY_3
| CATEGORY_4
| CATEGORY_5.

Definition from_wind_speed (wind_mph : Q) : HurricaneCategory :=
  if Qlt_bool wind_mph 39 then TROPICAL_DEPRESSION
  else if Qlt_bool wind_mph 74 then TROPICAL_STORM
  else if Qlt_bool wind_mph 96 then CATEGORY_1
  else if Qlt_bool wind_mph 111 then CATEGORY_2
  else if Qlt_bool wind_mph 130 then CATEGORY_3
  else if Qlt_bool wind_mph 157 then CATEGORY_4
  else CATEGORY_5.

Definition from_ssnum (ssnum : Z) : HurricaneCategory :=
  match ssnum with
  | (-2)%Z => TROPICAL_DEPRESSION
  | (-1)%Z => TROPICAL_STORM
  | 0%Z => TROPICAL_STORM
  | 1%Z => CATEGORY_1
  | 2%Z => CATEGORY_2
  | 3%Z => CATEGORY_3
  | 4%Z => CATEGORY_4
  | 5%Z => CATEGORY_5
  | _ => TROPICAL_STORM
  end.

Inductive TornadoScale : Set := EF0 | EF1 | EF2 | EF3 | EF4 | EF5.

(** The value of a member of the enumeration. *)
Definition ef_value (s : TornadoScale) : Z :=
  match s with
  | EF0 => 0 | EF1 => 1 | EF2 => 2 | EF3 => 3 | EF4 => 4 | EF5 => 5
  end.

(** [cls(efnum)] raises [ValueError] when no member has the value. *)
Definition from_efnum (efnum : Z) : option TornadoScale :=
  match efnum with
  | 0%Z => Some EF0
  | 1%Z => Some EF1
  | 2%Z => Some EF2
  | 3%Z => Some EF3
  | 4%Z => Some EF4
  | 5%Z => Some EF5
  | _ => None
  end.

Inductive WildfireSize : Set := SMALL | MEDIUM | LARGE | MAJOR | MEGA.

Definition from_acres (acres : Q) : WildfireSize :=
  if Qlt_bool acres 100 then SMALL
  else if Qlt_bool acres 1000 then MEDIUM
  else if Qlt_bool acres 10000 then LARGE
  else if Qlt_bool acres 100000 then MAJOR
  else MEGA.

(** [Location]; [name] holds whatever value the dictionary gave. *)
Record Location : Type := {
  name : Py.value;
  latitude : Q;
  longitude : Q
}.

Section Location.
Variable parse_float : string -> option Q.

Definition Location_from_dict (data : Py.dict Py.value) : Py.res Location :=
  let location_default :=
    match Py.get data "location" with
    | Some v => v
    | None => Py.PStr "Unknown"
    end in
  let name :=
    match Py.get data "name" with
    | Some v => v
    | None => location_default
    end in
  Py.and_then (Py.item data "latitude") (fun lat =>
  Py.and_then (Py.float parse_float lat) (fun lat =>
  Py.and_then (Py.item data "longitude") (fun lon =>
  Py.and_then (Py.float parse_float lon) (fun lon =>
    Py.Returns {| name := name; latitude := lat; longitude := lon |})))).

End Location.

Definition Location_to_dict (self : Location) : Py.dict Py.value :=
  [("name"%string, name self);
   ("latitude"%string, Py.PFloat (latitude self));
   ("longitude"%string, Py.PFloat (longitude self))].

End Models.

(** The position of a member in its enumeration, the order of
    severity. *)
Definition category_rank (c : Models.HurricaneCategory) : nat :=
  match c with
  | Models.TROPICAL_DEPRESSION => 0
  | Models.TROPICAL_STORM => 1
  | Models.CATEGORY_1 => 2
  | Models.CATEGORY_2 => 3
  | Models.CATEGORY_3 => 4
  | Models.CATEGORY_4 => 5
  | Models.CATEGORY_5 => 6
  end.

Definition size_rank (s : Models.WildfireSize) : nat :=
  match s with
  | Models.SMALL => 0
  | Models.MEDIUM => 1
  | Models.LARGE => 2
  | Models.MAJOR => 3
  | Models.MEGA => 4
  end.

(** ** disasters/hurricanes.py: helpers of the ranking *)
Module HurricaneRows.

Definition directions : list string :=
  ["N"; "NNE"; "NE"; "ENE"; "E"; "ESE"; "SE"; "SSE";
   "S"; "SSW"; "SW"; "WSW"; "W"; "WNW"; "NW"; "NNW"]%string.

Section Direction.
Variable parse_float : string -> option Q.

(** [_format_direction]; the handler catches [ValueError] and
    [TypeError], an index out of the list would raise [IndexError].
    [degrees / 22.5] is the exact quotient: for a float below [2 ** 51]
    in magnitude the quotient of the doubles rounds to the same integer
    (it cannot reach a tie that the exact quotient misses).  Of an
    infinity [round] raises [OverflowError]; that value is no value of
    the model. *)
Definition _format_direction (degrees : Py.value)
  : Py.res (option string) :=
  match degrees with
  | Py.PNone => Py.Returns None
  | _ =>
      match Py.float parse_float degrees with
      | Py.Returns degrees =>
          let index := (Py.round (degrees / (45 # 2)) mod 16)%Z in
          match nth_error directions (Z.to_nat index) with
          | Some d => Py.Returns (Some d)
          | None => Py.Raises Py.IndexError
          end
      | Py.Raises _ => Py.Returns None
      end
  end.

End Direction.

(** A row of the detailed forecast table.  A field is what
    [row.get(...)] returns: [None] when the table has no such column,
    else the value of the cell.  A cell that is empty in a column the
    table has is a nan, which is no value of the model: the statements
    below are about tables whose rows are [complete]. *)
Record position_t : Type := {
  STORMNAME : option string;
  STORMNUM : option Z;
  TAU : option Z
}.

Definition complete (row : position_t) : Prop :=
  STORMNAME row <> None /\ STORMNUM row <> None /\ TAU row <> None.

Definition key_t : Type := (option string * option Z)%type.

Definition option_eqb {A : Type} (eqb : A -> A -> bool) (a b : option A)
  : bool :=
  match a, b with
  | Some x, Some y => eqb x y
  | None, None => true
  | _, _ => false
  end.

Definition key_eqb (a b : key_t) : bool :=
  option_eqb String.eqb (fst a) (fst b) && option_eqb Z.eqb (snd a) (snd b).

Definition storm_key (row : position_t) : key_t := (STORMNAME row, STORMNUM row).

(** [row.get('TAU', 999)]: [999] when the table has no [TAU] column. *)
Definition tau_of (row : position_t) : Z :=
  match TAU row with
  | Some t => t
  | None => 999%Z
  end.

(** The dictionary [storm_positions], as the list of its items. *)
Fixpoint lookup (d : list (key_t * position_t)) (k : key_t)
  : option position_t :=
  match d with
  | [] => None
  | (k', v) :: d' => if key_eqb k k' then Some v else lookup d' k
  end.

Fixpoint store (d : list (key_t * position_t)) (k : key_t) (v : position_t)
  : list (key_t * position_t) :=
  match d with
  | [] => [(k, v)]
  | (k', v') :: d' =>
      if key_eqb k k' then (k', v) :: d' else (k', v') :: store d' k v
  end.

(** One pass of [for _, row in detailed_df.iterrows()]. *)
Definition position_pass (storm_positions : list (key_t * position_t))
  (row : position_t) : list (key_t * position_t) :=
  let storm_key := storm_key row in
  let tau := tau_of row in
  match lookup storm_positions storm_key with
  | None => store storm_positions storm_key row
  | Some held =>
      if (tau <? tau_of held)%Z then store storm_positions storm_key row
      else storm_positions
  end.

Definition storm_positions (detailed_df : list position_t)
  : list (key_t * position_t) :=
  fold_left position_pass detailed_df [].

End HurricaneRows.

(** ** disasters/tornadoes.py *)
Module Tornadoes.

(** The attributes of a tornado feature that the ranking reads. *)
Record feature_t : Type := {
  startlat : option Q;
  startlon : option Q;
  efnum : option Z
}.

Record TornadoResult : Type := {
  source : feature_t;
  distance_miles : miles;
  ef_scale : option Models.TornadoScale
}.

Section Ranking.
Context {M : MathLib}.
(** [builds feature] holds when the construction of the
    [TornadoResult] returns. *)
Variable builds : feature_t -> bool.
Variables lat lon radius_miles : Q.

(** One pass of [for feature in tornado_features]. *)
Definition tornado_pass (results : list TornadoResult) (feature : feature_t)
  : list TornadoResult :=
  match startlat feature, startlon feature with
  | Some start_lat, Some start_lon =>
      (* Calculate distance *)
      let distance := Utils.haversine lon lat start_lon start_lat in
      if Qlt_bool radius_miles distance then results
      else if builds feature then
        let ef_scale :=
          match efnum feature with
          | Some n => Models.from_efnum n
          | None => None
          end in
        results ++ [{| source := feature;
                       distance_miles := Finite distance;
                       ef_scale := ef_scale |}]
      else results
  | _, _ => results
  end.

Definition get_tornadoes_near_location (tornado_features : list feature_t)
  : list TornadoResult :=
  list_sort distance_miles (fold_left tornado_pass tornado_features []).

End Ranking.

End Tornadoes.

(** The result entry of a tornado feature that has both start
    coordinates. *)
Definition tornado_entry {M : MathLib} (lat lon : Q)
  (feature : Tornadoes.feature_t) : option Tornadoes.TornadoResult :=
  match Tornadoes.startlat feature, Tornadoes.startlon feature with
  | Some start_lat, Some start_lon =>
      Some {| Tornadoes.source := feature;
              Tornadoes.distance_miles :=
                Finite (Utils.haversine lon lat start_lon start_lat);
              Tornadoes.ef_scale :=
                match Tornadoes.efnum feature with
                | Some n => Models.from_efnum n
                | None => None
                end |}
  | _, _ => None
  end.

(** The entries of the features that have both start coordinates, lie
    within the radius and can be built. *)
Definition tornado_kept {M : MathLib} (builds : Tornadoes.feature_t -> bool)
  (lat lon radius : Q) (features : list Tornadoes.feature_t)
  : list Tornadoes.TornadoResult :=
  flat_map
    (fun feature =>
       match tornado_entry lat lon feature with
       | Some r =>
           if miles_le (Tornadoes.distance_miles r) (Finite radius)
              && builds feature
           then [r] else []
       | None => []
       end)
    features.

(** ** disasters/__init__.py *)
Module Package.

Record LocationResults : Type := {
  location : Models.Location;
  hurricanes : list Hurricanes.HurricaneResult;
  tornadoes : list Tornadoes.TornadoResult;
  wildfires : list Wildfires.WildfireResult;
  radius_miles : Q
}.

Definition total_disasters (self : LocationResults) : nat :=
  (List.length (hurricanes self) + List.length (tornadoes self)
   + List.length (wildfires self))%nat.

(** What the three fetches return during one query. *)
Record fetched : Type := {
  cone_df : list Hurricanes.cone_t;
  hurricane_builds : Hurricanes.cone_t -> bool;
  tornado_features : list Tornadoes.feature_t;
  tornado_builds : Tornadoes.feature_t -> bool;
  fires_df : list Wildfires.fire_t
}.

Section Query.
Context {M : MathLib}.
Variable parse_float : string -> option Q.
Variable data : fetched.

Definition requested (t : Models.DisasterType)
  (disaster_types : list Models.DisasterType) : bool :=
  existsb (Models.DisasterType_eqb t) disaster_types.

Definition get_nearby_disasters (latitude longitude radius_miles : Q)
  (disaster_types : option (list Models.DisasterType)) (name : string)
  : Py.res LocationResults :=
  (* Validate coordinates *)
  if negb (Validation.validate_coordinates parse_float
             (Py.PFloat latitude) (Py.PFloat longitude))
  then Py.Raises Py.ValueError
  else
    (* Default to all disaster types *)
    let disaster_types :=
      match disaster_types with
      | None => [Models.HURRICANE; Models.TORNADO; Models.WILDFIRE]
      | Some l => l
      end in
    let location :=
      {| Models.name := Py.PStr name;
         Models.latitude := latitude;
         Models.longitude := longitude |} in
    Py.Returns
      {| location := location;
         hurricanes :=
           if requested Models.HURRICANE disaster_types then
             Hurricanes.get_hurricanes_near_location (hurricane_builds data)
               latitude longitude radius_miles (cone_df data)
           else [];
         tornadoes :=
           if requested Models.TORNADO disaster_types then
             Tornadoes.get_tornadoes_near_location (tornado_builds data)
               latitude longitude radius_miles (tornado_features data)
           else [];
         wildfires :=
           if requested Models.WILDFIRE disaster_types then
             Wildfires.get_wildfires_near_location latitude longitude
               radius_miles (fires_df data)
           else [];
         radius_miles := radius_miles |}.

End Query.

End Package.

(** The ring started from its second vertex. *)
Definition rotate (polygon : Utils.polygon_t) : Utils.polygon_t :=
  match polygon with
  | [] => []
  | v :: rest => rest ++ [v]
  end.

(** ** Laws of the library functions *)

(** What the haversine identities need of [sin], [sqrt] and [asin]: they
    respect the equality of rationals, [sin] is odd, [sqrt] and [asin]
    vanish at 0. *)
Record MathLaws (M : MathLib) : Prop := {
  radians_proper : forall a b, a == b -> radians a == radians b;
  sin_proper : forall a b, a == b -> sin a == sin b;
  cos_proper : forall a b, a == b -> cos a == cos b;
  asin_proper : forall a b, a == b -> asin a == asin b;
  sqrt_proper : forall a b, a == b -> sqrt a == sqrt b;
  sin_odd : forall a, sin (- a) == - sin a;
  sqrt_zero : sqrt 0 == 0;
  asin_zero : asin 0 == 0
}.

(** A rational instance that satisfies the laws: truncated series, and
    two Heron steps for the square root. *)
Definition heron_math : MathLib := {|
  radians := fun d => d * (355 # 113) / 180;
  sin := fun a => a - a * a * a / 6;
  cos := fun a => 1 - a * a / 2;
  asin := fun a => a + a * a * a / 6;
  sqrt := fun a => let s := (a + a / a) / 2 in (s + a / s) / 2
|}.

(** ** Predicates of the further properties *)

(** The dictionary [d] holds, for each storm key of [rows], a row of
    the key with the lowest TAU, and nothing for any other key. *)
Definition lowest_tau_held
  (d : list (HurricaneRows.key_t * HurricaneRows.position_t))
  (rows : list HurricaneRows.position_t) : Prop :=
  forall k,
    match HurricaneRows.lookup d k with
    | Some held =>
        In held rows /\ HurricaneRows.storm_key held = k
        /\ forall row, In row rows -> HurricaneRows.storm_key row = k ->
             (HurricaneRows.tau_of held <= HurricaneRows.tau_of row)%Z
    | None => forall row, In row rows -> HurricaneRows.storm_key row <> k
    end.

(** The coordinates of a loaded location are in range. *)
Definition valid_location (l : Validation.location_dict) : Prop :=
  (-90 <= Validation.loc_latitude l /\ Validation.loc_latitude l <= 90)
  /\ (-180 <= Validation.loc_longitude l /\ Validation.loc_longitude l <= 180).

(** The rings the fire evaluator does not skip. *)
Definition usable (ring : Utils.polygon_t) : bool :=
  (3 <=? List.length ring)%nat.

(** ** More sample data *)

Definition sample_parse (s : string) : option Q :=
  if String.eqb s "29.76" then Some (2976 # 100)
  else if String.eqb s "-95.37" then Some (- (9537 # 100))
  else if String.eqb s "95" then Some 95
  else None.

Definition sample_strip (s : string) : string := s.

Definition row_houston : Validation.csv_row :=
  [("name", Some "Houston"); ("latitude", Some "29.76");
   ("longitude", Some "-95.37")]%string.

Definition row_out_of_range : Validation.csv_row :=
  [("name", Some "Nowhere"); ("latitude", Some "95");
   ("longitude", Some "-95.37")]%string.

Definition row_short : Validation.csv_row :=
  [("name", Some "Cut"); ("latitude", None); ("longitude", None)]%string.

Definition sample_header : list string :=
  ["name"; "latitude"; "longitude"]%string.

Definition sample_csv : option (list string * list Validation.csv_row) :=
  Some (sample_header, [row_houston; row_out_of_range]).

Definition houston : Validation.location_dict :=
  {| Validation.loc_name := "Houston";
     Validation.loc_latitude := 2976 # 100;
     Validation.loc_longitude := - (9537 # 100) |}.

Definition sample_tornado : Tornadoes.feature_t :=
  {| Tornadoes.startlat := Some 30;
     Tornadoes.startlon := Some 0;
     Tornadoes.efnum := Some 2%Z |}.

Definition sample_fetched : Package.fetched :=
  {| Package.cone_df := [cone_square; cone_point];
     Package.hurricane_builds := fun _ => true;
     Package.tornado_features := [sample_tornado];
     Package.tornado_builds := fun _ => true;
     Package.fires_df := [fire_holed; fire_origin_only] |}.

Definition sample_fetched_rings : Package.fetched :=
  {| Package.cone_df := [cone_square];
     Package.hurricane_builds := fun _ => true;
     Package.tornado_features := [sample_tornado];
     Package.tornado_builds := fun _ => true;
     Package.fires_df := [fire_holed; fire_origin_only] |}.

Definition sample_positions : list HurricaneRows.position_t :=
  [ {| HurricaneRows.STORMNAME := Some "Alpha"%string;
       HurricaneRows.STORMNUM := Some 1%Z;
       HurricaneRows.TAU := Some 12%Z |};
    {| HurricaneRows.STORMNAME := Some "Alpha"%string;
       HurricaneRows.STORMNUM := Some 1%Z;
       HurricaneRows.TAU := Some 0%Z |} ].

Definition fire_sliver : Wildfires.fire_t :=
  sample_fire [[(0, 0); (1, 1)]; square] None.

Definition fire_points : Wildfires.fire_t :=
  sample_fire [[(0, 0)]; [(1, 1); (2, 2)]] None.

Definition cone_no_rings : Hurricanes.cone_t := sample_cone (Some []) None None.

(** * Proofs *)

(** ** Comparisons on [Q] *)

Lemma Qlt_bool_iff (a b : Q) : Qlt_bool a b = true <-> a < b.
Proof.
  unfold Qlt_bool. rewrite negb_true_iff.
  destruct (Qle_bool b a) eqn:E.
  - apply Qle_bool_iff in E. split; [discriminate | intro; lra].
  - split; [intros _ | reflexivity].
    destruct (Qlt_le_dec a b) as [H | H]; [exact H |].
    apply Qle_bool_iff in H. congruence.
Qed.

Lemma Qlt_bool_false_iff (a b : Q) : Qlt_bool a b = false <-> b <= a.
Proof.
  unfold Qlt_bool. rewrite negb_false_iff. apply Qle_bool_iff.
Qed.

Lemma sq_nonpos_zero (a : Q) : a * a <= 0 -> a == 0.
Proof.
  intro H. destruct (Q_dec a 0) as [[Hlt | Hgt] | Heq]; [| | exact Heq].
  - assert (0 < a * a) by nra. lra.
  - assert (0 < a * a) by nra. lra.
Qed.

Lemma sum_sq_nonpos (a b : Q) : a * a + b * b <= 0 -> a == 0 /\ b == 0.
Proof.
  intro H. assert (0 <= a * a) by nra. assert (0 <= b * b) by nra.
  split; apply sq_nonpos_zero; lra.
Qed.

(** ** Arrays as images of one list *)
Section Arrays.
Context {P A B C : Type}.

Lemma map2_map (f : A -> B -> C) (g : P -> A) (h : P -> B) (l : list P) :
  Np.map2 f (map g l) (map h l) = map (fun p => f (g p) (h p)) l.
Proof.
  induction l as [| p l IH]; simpl; [reflexivity | now rewrite IH].
Qed.

Lemma getitem_mask_map (g : P -> A) (m : P -> bool) (l : list P) :
  Np.getitem_mask (map g l) (map m l) = map g (filter m l).
Proof.
  induction l as [| p l IH]; simpl; [reflexivity |].
  destruct (m p); simpl; now rewrite IH.
Qed.

Lemma setitem_mask_map (g h : P -> A) (m : P -> bool) (l : list P) :
  Np.setitem_mask (map g l) (map m l) (map h (filter m l))
  = map (fun p => if m p then h p else g p) l.
Proof.
  induction l as [| p l IH]; simpl; [reflexivity |].
  destruct (m p); simpl; now rewrite IH.
Qed.

End Arrays.

Lemma zeros_bool_map {P : Type} (l : list P) :
  Np.zeros_bool (List.length l) = map (fun _ => false) l.
Proof.
  unfold Np.zeros_bool.
  induction l as [| p l IH]; simpl; [reflexivity | now rewrite IH].
Qed.

Lemma columns_of_rows (x y : list Q) :
  List.length x = List.length y ->
  exists pts : list (Q * Q), x = map fst pts /\ y = map snd pts.
Proof.
  revert y. induction x as [| a x IH]; intros [| b y] Hlen;
    simpl in *; try discriminate.
  - exists []. split; reflexivity.
  - injection Hlen as Hlen. destruct (IH y Hlen) as (pts & -> & ->).
    exists ((a, b) :: pts). split; reflexivity.
Qed.

(** ** One pass, and the loop, at each point *)

Lemma edge_pass_pointwise (pts : list (Q * Q)) (f : Q * Q -> bool)
  (polygon : Utils.polygon_t) (n i : nat) :
  Utils.edge_pass (map fst pts) (map snd pts) polygon n (map f pts) i
  = map (fun p => Pointwise.edge_step polygon n (fst p) (snd p) (f p) i) pts.
Proof.
  unfold Utils.edge_pass, Pointwise.edge_step, Pointwise.vertex.
  destruct (nth i polygon (0, 0)) as [xi yi].
  destruct (nth ((i + 1) mod n) polygon (0, 0)) as [xj yj].
  destruct (Qlt_bool 0 (sq (xj - xi) + sq (yj - yi))) eqn:EL;
    repeat (rewrite ?map_map, ?map2_map; cbv beta).
  - rewrite getitem_mask_map, getitem_mask_map, map2_map, setitem_mask_map.
    apply map_ext. intros [x y]. reflexivity.
  - rewrite getitem_mask_map, getitem_mask_map, map2_map, setitem_mask_map.
    apply map_ext. intros [x y]. reflexivity.
Qed.

Lemma fold_edge_pass_pointwise (pts : list (Q * Q)) (polygon : Utils.polygon_t)
  (n : nat) (idx : list nat) (f : Q * Q -> bool) :
  fold_left (Utils.edge_pass (map fst pts) (map snd pts) polygon n) idx
    (map f pts)
  = map (fun p =>
           fold_left (Pointwise.edge_step polygon n (fst p) (snd p)) idx (f p))
      pts.
Proof.
  revert f. induction idx as [| i idx IH]; intro f; simpl.
  - reflexivity.
  - rewrite edge_pass_pointwise, IH. reflexivity.
Qed.

Lemma edge_loop_pointwise (pts : list (Q * Q)) (polygon : Utils.polygon_t) :
  Utils.edge_loop (map fst pts) (map snd pts) polygon
  = map (fun p => Pointwise.pipeline polygon (fst p) (snd p)) pts.
Proof.
  unfold Utils.edge_loop, Pointwise.pipeline.
  rewrite length_map, zeros_bool_map.
  apply fold_edge_pass_pointwise.
Qed.

(** The flag is never cleared: the ray-cast mask excludes every point
    whose flag is already set, so a pass can only set it. *)
Lemma edge_step_closed (polygon : Utils.polygon_t) (x y : Q) (b : bool)
  (i : nat) :
  Pointwise.edge_step polygon (List.length polygon) x y b i
  = b || Pointwise.touches_vertex polygon x y i
    || Pointwise.touches_edge polygon x y i
    || Pointwise.crosses polygon x y i.
Proof.
  unfold Pointwise.edge_step, Pointwise.touches_vertex,
    Pointwise.touches_edge, Pointwise.crosses.
  destruct (Pointwise.vertex polygon i) as [xi yi].
  destruct (Pointwise.vertex polygon _) as [xj yj].
  destruct b, (Pointwise.on_vertex x y xi yi),
    (Qlt_bool 0 (sq (xj - xi) + sq (yj - yi))),
    (Pointwise.edge_check x y xi yi xj yj),
    (Qeq_bool yi yj), (Pointwise.straddles y yi yj),
    (Qlt_bool x (Pointwise.intersection_lon y xi yi xj yj)); reflexivity.
Qed.

Lemma fold_edge_step (polygon : Utils.polygon_t) (x y : Q) (idx : list nat)
  (b : bool) :
  fold_left (Pointwise.edge_step polygon (List.length polygon) x y) idx b
  = b || existsb (fun i => Pointwise.touches_vertex polygon x y i
                           || Pointwise.touches_edge polygon x y i
                           || Pointwise.crosses polygon x y i) idx.
Proof.
  revert b. induction idx as [| i idx IH]; intro b; simpl.
  - now rewrite orb_false_r.
  - rewrite IH, edge_step_closed.
    repeat rewrite <- orb_assoc. reflexivity.
Qed.

Lemma pipeline_closed (polygon : Utils.polygon_t) (x y : Q) :
  Pointwise.pipeline polygon x y
  = existsb (fun i => Pointwise.touches_vertex polygon x y i
                      || Pointwise.touches_edge polygon x y i
                      || Pointwise.crosses polygon x y i)
      (Pointwise.edges polygon).
Proof.
  unfold Pointwise.pipeline. now rewrite fold_edge_step.
Qed.

(** ** The containment test at each point *)

Lemma min_axis0_cons (p : Q * Q) (polygon : Utils.polygon_t) :
  exists m, Np.min_axis0 (p :: polygon) = Ok m.
Proof. unfold Np.min_axis0. simpl. eexists. reflexivity. Qed.

Lemma max_axis0_cons (p : Q * Q) (polygon : Utils.polygon_t) :
  exists m, Np.max_axis0 (p :: polygon) = Ok m.
Proof. unfold Np.max_axis0. simpl. eexists. reflexivity. Qed.

Lemma bbox_mask_pointwise (mn mx : Q * Q) (pts : list (Q * Q)) :
  Utils.bbox_mask mn mx (map fst pts) (map snd pts)
  = map (fun p => Qle_bool (fst mn) (fst p) && Qle_bool (fst p) (fst mx)
                  && Qle_bool (snd mn) (snd p) && Qle_bool (snd p) (snd mx))
      pts.
Proof.
  unfold Utils.bbox_mask. destruct mn as [min_x min_y], mx as [max_x max_y].
  repeat (rewrite ?map_map, ?map2_map; cbv beta). reflexivity.
Qed.

Lemma filter_nil_all {P : Type} (m : P -> bool) (l : list P) :
  filter m l = [] -> forall p, In p l -> m p = false.
Proof.
  induction l as [| a l IH]; simpl; intros H p Hin; [contradiction |].
  destruct (m a) eqn:E; [discriminate |].
  destruct Hin as [<- | Hin]; auto.
Qed.

(** On a non-empty polygon the test returns, and its value at each point
    is the conjunction of the bounding box and of the pipeline. *)
Lemma contains_pointwise (pts : list (Q * Q)) (polygon : Utils.polygon_t) :
  polygon <> [] ->
  Utils.is_point_in_polygon_vectorized (map fst pts) (map snd pts) polygon
  = Ok (map (fun p => Pointwise.in_bbox polygon (fst p) (snd p)
                      && Pointwise.pipeline polygon (fst p) (snd p)) pts).
Proof.
  intro Hne. destruct polygon as [| v polygon]; [congruence |].
  unfold Utils.is_point_in_polygon_vectorized, Pointwise.in_bbox.
  destruct (min_axis0_cons v polygon) as [[min_x min_y] ->].
  destruct (max_axis0_cons v polygon) as [[max_x max_y] ->].
  rewrite length_map.
  destruct (List.length pts =? 0)%nat eqn:Epts.
  - apply Nat.eqb_eq, length_zero_iff_nil in Epts. now subst pts.
  - cbn [bind]. rewrite bbox_mask_pointwise. cbn [fst snd].
    set (m := fun p : Q * Q => (_ && _ && _ && _)%bool).
    rewrite !getitem_mask_map, length_map, zeros_bool_map.
    destruct (List.length (filter m pts) =? 0)%nat eqn:EF; f_equal.
    + apply Nat.eqb_eq, length_zero_iff_nil in EF.
      apply map_ext_in. intros p Hin. fold (m p).
      now rewrite (filter_nil_all m pts EF p Hin).
    + rewrite edge_loop_pointwise, setitem_mask_map.
      apply map_ext. intro p. fold (m p). now destruct (m p).
Qed.

Lemma contains_lists (x y : list Q) (polygon : Utils.polygon_t) :
  polygon <> [] -> List.length x = List.length y ->
  Utils.is_point_in_polygon_vectorized x y polygon
  = Ok (Np.map2 (fun a b => Pointwise.in_bbox polygon a b
                            && Pointwise.pipeline polygon a b) x y).
Proof.
  intros Hne Hlen. destruct (columns_of_rows x y Hlen) as (pts & -> & ->).
  rewrite contains_pointwise by assumption.
  rewrite map2_map. reflexivity.
Qed.

Lemma contains_one (x y : Q) (polygon : Utils.polygon_t) :
  polygon <> [] ->
  Utils.is_point_in_polygon_vectorized [x] [y] polygon
  = Ok [Pointwise.in_bbox polygon x y && Pointwise.pipeline polygon x y].
Proof.
  intro Hne. now rewrite contains_lists.
Qed.

Lemma inside_ring_closed (x y : Q) (polygon : Utils.polygon_t) :
  polygon <> [] ->
  inside_ring x y polygon
  = Pointwise.in_bbox polygon x y && Pointwise.pipeline polygon x y.
Proof.
  intro Hne. unfold inside_ring, Utils.is_point_in_polygon.
  now rewrite contains_one.
Qed.

(** The example of the docstring: inside, east of, and north of the
    square. *)
Example docstring_example :
  Utils.is_point_in_polygon_vectorized [-95; -85; -95] [30; 30; 40] square
  = Ok [true; false; false].
Proof. reflexivity. Qed.

(** An empty batch of points returns before the bounding box is taken,
    whatever the ring. *)
Example empty_batch (polygon : Utils.polygon_t) :
  Utils.is_point_in_polygon_vectorized [] [] polygon = Ok [].
Proof. reflexivity. Qed.

(** ** C1: the ray-cast flag is not the parity of the crossings *)

(** What the loop computes in place of the parity: inside the bounding
    box and off the boundary checks, the flag is set as soon as one edge
    is crossed. *)
Lemma flag_is_some_crossing (polygon : Utils.polygon_t) (x y : Q) :
  polygon <> [] ->
  Pointwise.in_bbox polygon x y = true ->
  Pointwise.on_boundary polygon x y = false ->
  Utils.is_point_in_polygon x y polygon
  = Ok (negb (Pointwise.crossings polygon x y =? 0)%nat).
Proof.
  intros Hne Hbox Hoff. unfold Utils.is_point_in_polygon.
  rewrite contains_one by assumption. cbn [bind Np.getitem nth_error].
  rewrite Hbox, pipeline_closed. cbn [andb]. f_equal.
  unfold Pointwise.crossings, Pointwise.on_boundary in *.
  induction (Pointwise.edges polygon) as [| i idx IH]; [reflexivity |].
  simpl in Hoff |- *. apply orb_false_iff in Hoff as [Hi Hidx].
  rewrite Hi. cbn [orb].
  destruct (Pointwise.crosses polygon x y i); [reflexivity |].
  now apply IH.
Qed.

(** C1.  At the query (1, 8) against the triangle (0,0), (10,0), (5,10):
    the point is inside the bounding box and is flagged by no vertex or
    edge check; the ray crosses two edges, so the even-odd parity is
    false; the containment test returns true. *)
Theorem ray_cast_flag_not_parity :
  (3 <= List.length triangle)%nat
  /\ Pointwise.in_bbox triangle 1 8 = true
  /\ Pointwise.on_boundary triangle 1 8 = false
  /\ Pointwise.crossings triangle 1 8 = 2%nat
  /\ Pointwise.even_odd triangle 1 8 = false
  /\ Utils.is_point_in_polygon_vectorized [1] [8] triangle = Ok [true].
Proof.
  repeat split; vm_compute; reflexivity.
Qed.

(** ** C9: the batched distance and the scalar distance *)

Lemma haversine_vectorized_map {M : MathLib} (lon lat : Q)
  (targets : list (Q * Q)) :
  Utils.haversine_vectorized lon lat (map fst targets) (map snd targets)
  = vertex_distances lon lat targets.
Proof.
  unfold Utils.haversine_vectorized, vertex_distances, Utils.haversine.
  repeat (rewrite ?map_map, ?map2_map; cbv beta).
  reflexivity.
Qed.




(** ** C4: the bounding box prefilter *)

(** C4, counterexample.  The point 2^-31 degrees west of the vertex
    (-100, 25) of the square is outside the bounding box, so the test
    returns false; it is within 1e-9 of the vertex, so the same passes
    without the prefilter return true. *)
Lemma prefilter_visible_near_vertex :
  Utils.is_point_in_polygon_vectorized [-100 - (1 # 2147483648)] [25] square
  <> is_point_in_polygon_unfiltered [-100 - (1 # 2147483648)] [25] square.
Proof.
  vm_compute. discriminate.
Qed.

(** C4, amended.  For every non-empty ring and every batch of query
    points, the containment test returns, for each point, the conjunction
    of the bounding box check with the value of the same passes run
    without the prefilter: the same boolean inside the box, false
    outside it. *)
Theorem prefilter_is_bbox_conjunction (x y : list Q)
  (polygon : Utils.polygon_t) :
  polygon <> [] -> List.length x = List.length y ->
  exists out,
    is_point_in_polygon_unfiltered x y polygon = Ok out
    /\ Utils.is_point_in_polygon_vectorized x y polygon
       = Ok (Np.map2 andb (Np.map2 (Pointwise.in_bbox polygon) x y) out).
Proof.
  intros Hne Hlen. eexists. split; [reflexivity |].
  rewrite contains_lists by assumption. f_equal.
  destruct (columns_of_rows x y Hlen) as (pts & -> & ->).
  rewrite edge_loop_pointwise, !map2_map. reflexivity.
Qed.

Lemma prefilter_is_bbox_conjunction_witness :
  square <> [] /\ List.length [-95; -85] = List.length [30; 30]
  /\ exists out,
       is_point_in_polygon_unfiltered [-95; -85] [30; 30] square = Ok out
       /\ Utils.is_point_in_polygon_vectorized [-95; -85] [30; 30] square
          = Ok (Np.map2 andb
                  (Np.map2 (Pointwise.in_bbox square) [-95; -85] [30; 30])
                  out).
Proof.
  split; [discriminate |]. split; [reflexivity |].
  apply (prefilter_is_bbox_conjunction [-95; -85] [30; 30] square);
    [discriminate | reflexivity].
Defined.

(** ** The bounding box *)

Lemma fold_min_lower (l : list Q) (a : Q) :
  fold_left Qmin l a <= a /\ Forall (Qle (fold_left Qmin l a)) l.
Proof.
  revert a. induction l as [| b l IH]; intro a; simpl.
  - split; [apply Qle_refl | constructor].
  - destruct (IH (Qmin a b)) as [H1 H2].
    pose proof (Q.le_min_l a b). pose proof (Q.le_min_r a b).
    split; [lra |]. constructor; [lra | exact H2].
Qed.

Lemma fold_max_upper (l : list Q) (a : Q) :
  a <= fold_left Qmax l a /\ Forall (fun b => b <= fold_left Qmax l a) l.
Proof.
  revert a. induction l as [| b l IH]; intro a; simpl.
  - split; [apply Qle_refl | constructor].
  - destruct (IH (Qmax a b)) as [H1 H2].
    pose proof (Q.le_max_l a b). pose proof (Q.le_max_r a b).
    split; [lra |]. constructor; [lra | exact H2].
Qed.

Lemma fold_min_glb (l : list Q) (a c : Q) :
  c <= a -> Forall (Qle c) l -> c <= fold_left Qmin l a.
Proof.
  revert a. induction l as [| b l IH]; intros a Ha Hl; simpl; [exact Ha |].
  inversion Hl; subst. apply IH; [| assumption].
  now apply Q.min_glb.
Qed.

Lemma fold_max_lub (l : list Q) (a c : Q) :
  a <= c -> Forall (fun b => b <= c) l -> fold_left Qmax l a <= c.
Proof.
  revert a. induction l as [| b l IH]; intros a Ha Hl; simpl; [exact Ha |].
  inversion Hl; subst. apply IH; [| assumption].
  now apply Q.max_lub.
Qed.

Lemma np_min_spec (l : list Q) (m : Q) :
  Np.min l = Ok m -> Forall (Qle m) l.
Proof.
  destruct l as [| a l]; simpl; [discriminate |].
  intros [= <-]. destruct (fold_min_lower l a). now constructor.
Qed.

Lemma np_max_spec (l : list Q) (m : Q) :
  Np.max l = Ok m -> Forall (fun b => b <= m) l.
Proof.
  destruct l as [| a l]; simpl; [discriminate |].
  intros [= <-]. destruct (fold_max_upper l a). now constructor.
Qed.

(** Every vertex lies in the bounding box. *)
Lemma vertex_in_bbox (polygon : Utils.polygon_t) (i : nat)
  (min_x min_y max_x max_y : Q) :
  (i < List.length polygon)%nat ->
  Np.min_axis0 polygon = Ok (min_x, min_y) ->
  Np.max_axis0 polygon = Ok (max_x, max_y) ->
  let v := Pointwise.vertex polygon i in
  min_x <= fst v /\ fst v <= max_x /\ min_y <= snd v /\ snd v <= max_y.
Proof.
  intros Hi Hmin Hmax v.
  assert (Hin : In v polygon) by (apply nth_In; exact Hi).
  unfold Np.min_axis0, Np.max_axis0 in *.
  destruct (Np.min (map fst polygon)) as [a |] eqn:E1; [| discriminate].
  destruct (Np.min (map snd polygon)) as [b |] eqn:E2; [| discriminate].
  destruct (Np.max (map fst polygon)) as [c |] eqn:E3; [| discriminate].
  destruct (Np.max (map snd polygon)) as [d |] eqn:E4; [| discriminate].
  simpl in Hmin, Hmax. injection Hmin as <- <-. injection Hmax as <- <-.
  apply np_min_spec in E1, E2. apply np_max_spec in E3, E4.
  rewrite Forall_forall in E1, E2, E3, E4.
  repeat split;
    [apply E1 | apply E3 | apply E2 | apply E4]; now apply in_map.
Qed.

Lemma next_index_lt (n i : nat) : (i < n)%nat -> ((i + 1) mod n < n)%nat.
Proof. intro H. apply Nat.mod_upper_bound. lia. Qed.

(** ** C5: points of the boundary *)

(** A point of a segment is flagged by the vertex check or by the edge
    check of that edge. *)
Lemma segment_point_touches (x y xi yi xj yj t : Q) :
  0 <= t -> t <= 1 ->
  x == xi + t * (xj - xi) -> y == yi + t * (yj - yi) ->
  Pointwise.on_vertex x y xi yi
  || (Qlt_bool 0 (sq (xj - xi) + sq (yj - yi))
      && Pointwise.edge_check x y xi yi xj yj) = true.
Proof.
  intros Ht0 Ht1 Hx Hy.
  destruct (Qlt_bool 0 (sq (xj - xi) + sq (yj - yi))) eqn:EL.
  - apply Qlt_bool_iff in EL. rewrite orb_true_iff. right. cbn [andb].
    unfold Pointwise.edge_check.
    set (L := sq (xj - xi) + sq (yj - yi)) in *.
    assert (HT : ((x - xi) * (xj - xi) + (y - yi) * (yj - yi)) / L == t).
    { setoid_replace ((x - xi) * (xj - xi) + (y - yi) * (yj - yi))
        with (t * L).
      - apply Qdiv_mult_l. lra.
      - rewrite Hx, Hy. unfold L, sq. ring. }
    cbv zeta. fold L.
    rewrite !andb_true_iff, Qlt_bool_iff, !Qle_bool_iff.
    unfold sq at 1 2. rewrite HT. repeat split; try assumption.
    rewrite Hx, Hy.
    setoid_replace
      ((xi + t * (xj - xi) - (xi + t * (xj - xi)))
       * (xi + t * (xj - xi) - (xi + t * (xj - xi)))
       + (yi + t * (yj - yi) - (yi + t * (yj - yi)))
         * (yi + t * (yj - yi) - (yi + t * (yj - yi))))
      with 0 by ring.
    reflexivity.
  - apply Qlt_bool_false_iff in EL. rewrite orb_false_r.
    unfold sq in EL.
    destruct (sum_sq_nonpos _ _ EL) as [Hdx Hdy].
    unfold Pointwise.on_vertex.
    rewrite andb_true_iff, !Qlt_bool_iff, !Qabs_Qlt_condition.
    rewrite Hdx in Hx. rewrite Hdy in Hy. lra.
Qed.

Lemma segment_point_contained (polygon : Utils.polygon_t) (x y : Q) :
  on_segment polygon x y ->
  Pointwise.in_bbox polygon x y = true /\ Pointwise.pipeline polygon x y = true.
Proof.
  intros (i & t & Hi & Ht0 & Ht1 & Hon).
  pose proof (next_index_lt _ _ Hi) as Hj.
  split.
  - unfold Pointwise.in_bbox.
    destruct polygon as [| v polygon]; [simpl in Hi; lia |].
    destruct (min_axis0_cons v polygon) as [[min_x min_y] Emin].
    destruct (max_axis0_cons v polygon) as [[max_x max_y] Emax].
    rewrite Emin, Emax.
    pose proof (vertex_in_bbox _ _ _ _ _ _ Hi Emin Emax) as Bi.
    pose proof (vertex_in_bbox _ _ _ _ _ _ Hj Emin Emax) as Bj.
    destruct (Pointwise.vertex (v :: polygon) i) as [xi yi].
    destruct (Pointwise.vertex (v :: polygon) _) as [xj yj].
    cbn [fst snd] in Bi, Bj. destruct Hon as [Hx Hy].
    rewrite !andb_true_iff, !Qle_bool_iff. repeat split; nra.
  - rewrite pipeline_closed. apply existsb_exists. exists i. split.
    + apply in_seq. lia.
    + unfold Pointwise.touches_vertex, Pointwise.touches_edge.
      destruct (Pointwise.vertex polygon i) as [xi yi].
      destruct (Pointwise.vertex polygon _) as [xj yj].
      destruct Hon as [Hx Hy].
      rewrite (segment_point_touches x y xi yi xj yj t) by assumption.
      reflexivity.
Qed.

Lemma at_vertex_on_segment (polygon : Utils.polygon_t) (x y : Q) :
  at_vertex polygon x y -> on_segment polygon x y.
Proof.
  intros (i & Hi & Hx & Hy). exists i, 0. repeat split; try lra; try exact Hi.
  destruct (Pointwise.vertex polygon i) as [xi yi].
  destruct (Pointwise.vertex polygon _) as [xj yj].
  cbn [fst snd] in Hx, Hy. split; lra.
Qed.

Lemma boundary_point_inside (polygon : Utils.polygon_t) (x y : Q) :
  at_vertex polygon x y \/ on_segment polygon x y ->
  polygon <> [] /\ inside_ring x y polygon = true.
Proof.
  intro H.
  assert (Hs : on_segment polygon x y)
    by (destruct H; [now apply at_vertex_on_segment | assumption]).
  assert (Hne : polygon <> []).
  { destruct Hs as (i & _ & Hi & _). destruct polygon; [simpl in Hi; lia |].
    discriminate. }
  split; [exact Hne |]. rewrite inside_ring_closed by exact Hne.
  destruct (segment_point_contained polygon x y Hs) as [-> ->]. reflexivity.
Qed.

Lemma nth_error_map2 {A B C : Type} (f : A -> B -> C) (x : list A)
  (y : list B) (k : nat) (da : A) (db : B) :
  List.length x = List.length y -> (k < List.length x)%nat ->
  nth_error (Np.map2 f x y) k = Some (f (nth k x da) (nth k y db)).
Proof.
  revert y k. induction x as [| a x IH]; intros [| b y] k Hlen Hk;
    simpl in *; try discriminate; try lia.
  destruct k as [| k]; [reflexivity |]. apply IH; lia.
Qed.

(** ** C6: rings whose vertices are all equal *)

Lemma map2_ext {A B C : Type} (f g : A -> B -> C) (x : list A) (y : list B) :
  (forall a b, f a b = g a b) -> Np.map2 f x y = Np.map2 g x y.
Proof.
  intro H. revert y. induction x as [| a x IH]; intros [| b y]; simpl;
    try reflexivity. now rewrite H, IH.
Qed.

Lemma equal_vertices_bbox (polygon : Utils.polygon_t) (x0 y0 a b : Q) :
  polygon <> [] ->
  Forall (fun v => fst v == x0 /\ snd v == y0) polygon ->
  Pointwise.in_bbox polygon a b = Qeq_bool a x0 && Qeq_bool b y0.
Proof.
  intros Hne Hall. destruct polygon as [| v polygon]; [congruence |].
  inversion Hall as [| v' p' [Hvx Hvy] Hrest]; subst.
  assert (Hx : Forall (fun c => c == x0) (map fst polygon)).
  { rewrite Forall_map. eapply Forall_impl; [| exact Hrest]. now intros ? []. }
  assert (Hy : Forall (fun c => c == y0) (map snd polygon)).
  { rewrite Forall_map. eapply Forall_impl; [| exact Hrest]. now intros ? []. }
  unfold Pointwise.in_bbox, Np.min_axis0, Np.max_axis0. cbn.
  assert (Hle : forall c0 l, Forall (fun c => c == c0) l -> Forall (Qle c0) l).
  { intros c0 l H. eapply Forall_impl; [| exact H]. cbv beta. intros; lra. }
  assert (Hge : forall c0 l, Forall (fun c => c == c0) l ->
                             Forall (fun c => c <= c0) l).
  { intros c0 l H. eapply Forall_impl; [| exact H]. cbv beta. intros; lra. }
  pose proof (proj1 (fold_min_lower (map fst polygon) (fst v))) as A1.
  pose proof (fold_min_glb (map fst polygon) (fst v) x0
                ltac:(lra) (Hle _ _ Hx)) as A2.
  pose proof (proj1 (fold_max_upper (map fst polygon) (fst v))) as A3.
  pose proof (fold_max_lub (map fst polygon) (fst v) x0
                ltac:(lra) (Hge _ _ Hx)) as A4.
  pose proof (proj1 (fold_min_lower (map snd polygon) (snd v))) as B1.
  pose proof (fold_min_glb (map snd polygon) (snd v) y0
                ltac:(lra) (Hle _ _ Hy)) as B2.
  pose proof (proj1 (fold_max_upper (map snd polygon) (snd v))) as B3.
  pose proof (fold_max_lub (map snd polygon) (snd v) y0
                ltac:(lra) (Hge _ _ Hy)) as B4.
  apply eq_true_iff_eq.
  rewrite !andb_true_iff, !Qle_bool_iff, !Qeq_bool_iff.
  split; intro H; repeat split; lra.
Qed.

(** C6, counterexample.  The ring of the single point (0, 0) is
    degenerate, and the query (0, 0) is reported contained. *)
Lemma one_point_ring_contains_its_vertex :
  (List.length [(0, 0)] < 3)%nat
  /\ Utils.is_point_in_polygon_vectorized [0] [0] [(0, 0)] = Ok [true].
Proof.
  split; [simpl; lia | reflexivity].
Qed.

(** C6, amended.  For every non-empty ring whose vertices are all equal
    to one point [(x0, y0)], in particular every ring of one point, and
    every batch of query points, the containment test returns without
    raising, false for every query point other than [(x0, y0)] and true
    for a query at [(x0, y0)]. *)
Theorem equal_vertices_ring (polygon : Utils.polygon_t) (x0 y0 : Q)
  (x y : list Q) :
  polygon <> [] ->
  Forall (fun v => fst v == x0 /\ snd v == y0) polygon ->
  List.length x = List.length y ->
  Utils.is_point_in_polygon_vectorized x y polygon
  = Ok (Np.map2 (fun a b => Qeq_bool a x0 && Qeq_bool b y0) x y).
Proof.
  intros Hne Hall Hlen. rewrite contains_lists by assumption. f_equal.
  apply map2_ext. intros a b.
  rewrite (equal_vertices_bbox polygon x0 y0) by assumption.
  destruct (Qeq_bool a x0 && Qeq_bool b y0) eqn:E; [| reflexivity].
  apply andb_true_iff in E as [Ea Eb]. apply Qeq_bool_iff in Ea, Eb.
  cbn [andb]. rewrite pipeline_closed. apply existsb_exists.
  destruct polygon as [| v polygon]; [congruence |].
  exists 0%nat. split; [apply in_seq; simpl; lia |].
  inversion Hall as [| v' p' [Hvx Hvy] Hrest]; subst.
  unfold Pointwise.touches_vertex, Pointwise.vertex. cbn [nth].
  destruct v as [xv yv]. cbn [fst snd] in Hvx, Hvy.
  assert (Hv : Pointwise.on_vertex a b xv yv = true).
  { unfold Pointwise.on_vertex.
    rewrite andb_true_iff, !Qlt_bool_iff, !Qabs_Qlt_condition. lra. }
  now rewrite Hv.
Qed.

Lemma equal_vertices_ring_witness :
  [(3, 4)] <> []
  /\ Forall (fun v : Q * Q => fst v == 3 /\ snd v == 4) [(3, 4)]
  /\ List.length [3; 0] = List.length [4; 0]
  /\ Utils.is_point_in_polygon_vectorized [3; 0] [4; 0] [(3, 4)]
     = Ok (Np.map2 (fun a b => Qeq_bool a 3 && Qeq_bool b 4) [3; 0] [4; 0]).
Proof.
  assert (H : Forall (fun v : Q * Q => fst v == 3 /\ snd v == 4) [(3, 4)])
    by (repeat constructor; reflexivity).
  split; [discriminate |]. split; [exact H |]. split; [reflexivity |].
  apply (equal_vertices_ring [(3, 4)] 3 4 [3; 0] [4; 0]);
    [discriminate | exact H | reflexivity].
Defined.

(** The empty ring has no bounding box: with a query point to test the
    reduction raises. *)
Lemma empty_ring_raises (x y : Q) (xs ys : list Q) :
  Utils.is_point_in_polygon_vectorized (x :: xs) (y :: ys) []
  = Raise ValueError.
Proof. reflexivity. Qed.

(** ** The order on distances *)

Lemma miles_le_refl (a : miles) : miles_le a a = true.
Proof. destruct a; simpl; [apply Qle_bool_iff, Qle_refl | reflexivity]. Qed.

Lemma miles_le_trans (a b c : miles) :
  miles_le a b = true -> miles_le b c = true -> miles_le a c = true.
Proof.
  destruct a, b, c; simpl; try congruence.
  rewrite !Qle_bool_iff. intros; lra.
Qed.

Lemma miles_le_total (a b : miles) :
  miles_le a b = true \/ miles_le b a = true.
Proof.
  destruct a as [x |], b as [y |]; simpl; auto.
  rewrite !Qle_bool_iff. destruct (Qlt_le_dec x y); [left; lra | right; lra].
Qed.

Lemma miles_lt_le (a b : miles) : miles_lt a b = true -> miles_le a b = true.
Proof.
  unfold miles_lt. rewrite negb_true_iff. intro H.
  destruct (miles_le_total a b); congruence.
Qed.

Lemma py_min_spec (a b : miles) :
  (py_min a b = a \/ py_min a b = b)
  /\ miles_le (py_min a b) a = true /\ miles_le (py_min a b) b = true.
Proof.
  unfold py_min. destruct (miles_lt b a) eqn:E.
  - repeat split; [now right | now apply miles_lt_le | apply miles_le_refl].
  - repeat split; [now left | apply miles_le_refl |].
    unfold miles_lt in E. now apply negb_false_iff in E.
Qed.

(** ** The minimum of a batch of distances *)

Lemma Qmin_cases (a b : Q) : Qmin a b = a \/ Qmin a b = b.
Proof.
  unfold Qmin, GenericMinMax.gmin. destruct (a ?= b); auto.
Qed.

Lemma fold_min_in (l : list Q) (a : Q) : In (fold_left Qmin l a) (a :: l).
Proof.
  revert a. induction l as [| b l IH]; intro a; simpl; [now left |].
  destruct (IH (Qmin a b)) as [H | H].
  - rewrite <- H. destruct (Qmin_cases a b) as [-> | ->].
    + now left.
    + right. now left.
  - right. right. exact H.
Qed.

Lemma np_min_is_minimum (l : list Q) :
  l <> [] -> exists m, Np.min l = Ok m /\ is_minimum m l.
Proof.
  destruct l as [| a l]; [congruence | intros _].
  eexists. split; [reflexivity |]. split.
  - apply fold_min_in.
  - now apply np_min_spec.
Qed.

Lemma vertex_distances_nonempty {M : MathLib} (lon lat : Q)
  (ring : Utils.polygon_t) :
  ring <> [] -> vertex_distances lon lat ring <> [].
Proof. destruct ring; [congruence | discriminate]. Qed.

Lemma ring_min_distance {M : MathLib} (lon lat : Q) (ring : Utils.polygon_t) :
  ring <> [] ->
  exists m,
    Np.min (Utils.haversine_vectorized lon lat (map fst ring) (map snd ring))
    = Ok m
    /\ is_minimum m (vertex_distances lon lat ring).
Proof.
  intro Hne. rewrite haversine_vectorized_map.
  apply np_min_is_minimum. now apply vertex_distances_nonempty.
Qed.

Lemma contains_one_inside (lon lat : Q) (ring : Utils.polygon_t) :
  ring <> [] ->
  Utils.is_point_in_polygon_vectorized [lon] [lat] ring
  = Ok [inside_ring lon lat ring].
Proof.
  intro Hne. rewrite inside_ring_closed by assumption.
  now apply contains_one.
Qed.

(** ** C3: the forecast cone *)

Lemma cone_evaluator {M : MathLib} (lat lon : Q) (cone : Hurricanes.cone_t)
  (ring : Utils.polygon_t) (rest : list Utils.polygon_t) :
  Hurricanes.geometry cone = Some (ring :: rest) -> ring <> [] ->
  exists d,
    is_minimum d (vertex_distances lon lat ring)
    /\ Hurricanes._calculate_distance_to_cone lat lon cone
       = if inside_ring lon lat ring then (Finite 0, true)
         else (Finite d, false).
Proof.
  intros Hg Hne.
  destruct (ring_min_distance lon lat ring Hne) as (m & Hm & Hmin).
  exists m. split; [exact Hmin |].
  unfold Hurricanes._calculate_distance_to_cone, Hurricanes.cone_try.
  rewrite Hg. cbn [Np.getitem nth_error bind].
  rewrite contains_one_inside by assumption. cbn [Np.getitem nth_error bind].
  destruct (inside_ring lon lat ring); [reflexivity |].
  rewrite Hm. reflexivity.
Qed.

(** C3.  For every cone record whose geometry has a non-empty outer ring
    and every query point: if the containment test on the outer ring
    reports the point inside or on the boundary, the evaluator returns
    distance 0 and contained true; otherwise it returns contained false
    and a distance that is the minimum of the haversine distances from
    the query to the vertices of the ring. *)
Theorem cone_distance_policy {M : MathLib} (lat lon : Q)
  (cone : Hurricanes.cone_t) (ring : Utils.polygon_t)
  (rest : list Utils.polygon_t) :
  Hurricanes.geometry cone = Some (ring :: rest) -> ring <> [] ->
  (Utils.is_point_in_polygon lon lat ring = Ok true ->
   Hurricanes._calculate_distance_to_cone lat lon cone = (Finite 0, true))
  /\ (Utils.is_point_in_polygon lon lat ring = Ok false ->
      exists d,
        is_minimum d (vertex_distances lon lat ring)
        /\ Hurricanes._calculate_distance_to_cone lat lon cone
           = (Finite d, false))
  /\ (exists b, Utils.is_point_in_polygon lon lat ring = Ok b).
Proof.
  intros Hg Hne.
  destruct (cone_evaluator lat lon cone ring rest Hg Hne) as (d & Hd & He).
  assert (Hb : Utils.is_point_in_polygon lon lat ring
               = Ok (inside_ring lon lat ring)).
  { unfold Utils.is_point_in_polygon.
    now rewrite contains_one_inside. }
  rewrite He, Hb. repeat split.
  - intros [= ->]. reflexivity.
  - intros [= ->]. exists d. split; [exact Hd | reflexivity].
  - eexists. reflexivity.
Qed.

(** ** C2: the fire perimeter *)

Lemma least_of_step (m0 : miles) (d : Q) (ds : list Q) :
  is_minimum d ds -> least_of (py_min m0 (Finite d)) m0 ds.
Proof.
  intros [Hin Hall].
  destruct (py_min_spec m0 (Finite d)) as ([E | E] & H1 & H2);
    (split; [| split; [exact H1 |]]).
  - now left.
  - eapply Forall_impl; [| exact Hall]. cbv beta. intros d' Hd'.
    eapply miles_le_trans; [exact H2 |]. simpl. now apply Qle_bool_iff.
  - right. exists d. now split.
  - eapply Forall_impl; [| exact Hall]. cbv beta. intros d' Hd'.
    eapply miles_le_trans; [exact H2 |]. simpl. now apply Qle_bool_iff.
Qed.

Lemma least_of_app (m1 m2 m0 : miles) (ds1 ds2 : list Q) :
  least_of m1 m0 ds1 -> least_of m2 m1 ds2 -> least_of m2 m0 (ds1 ++ ds2).
Proof.
  intros (A1 & A2 & A3) (B1 & B2 & B3). repeat split.
  - destruct B1 as [-> | (d & -> & Hd)].
    + destruct A1 as [-> | (d & -> & Hd)]; [now left |].
      right. exists d. split; [reflexivity | apply in_or_app; now left].
    + right. exists d. split; [reflexivity | apply in_or_app; now right].
  - eapply miles_le_trans; eassumption.
  - apply Forall_app. split; [| exact B3].
    eapply Forall_impl; [| exact A3]. cbv beta. intros d Hd.
    eapply miles_le_trans; eassumption.
Qed.

Lemma least_of_nil (m0 : miles) : least_of m0 m0 [].
Proof.
  repeat split; [now left | apply miles_le_refl | constructor].
Qed.

Lemma least_of_infinity (m : miles) (ds : list Q) :
  ds <> [] -> least_of m Infinity ds ->
  exists d, m = Finite d /\ is_minimum d ds.
Proof.
  intros Hne (H1 & _ & H3).
  destruct m as [d |].
  - exists d. split; [reflexivity |].
    destruct H1 as [H1 | (d' & [= <-] & Hin)]; [discriminate |].
    split; [exact Hin |].
    eapply Forall_impl; [| exact H3]. cbv beta. intros d' Hd'.
    simpl in Hd'. now apply Qle_bool_iff.
  - destruct ds as [| d ds]; [congruence |]. inversion H3; subst.
    discriminate.
Qed.

Section FireLoop.
Context {M : MathLib}.
Variables lat lon : Q.

Lemma ring_pass_ok (st : Wildfires.scan) (i : nat) (ring : Utils.polygon_t) :
  (3 <= List.length ring)%nat ->
  exists st',
    Wildfires.ring_pass lat lon (Ok st) (i, ring) = Ok st'
    /\ Wildfires.inside_outer st'
       = Wildfires.inside_outer st || ((i =? 0)%nat && inside_ring lon lat ring)
    /\ Wildfires.inside_hole st'
       = Wildfires.inside_hole st
         || (negb (i =? 0)%nat && inside_ring lon lat ring)
    /\ least_of (Wildfires.min_distance st') (Wildfires.min_distance st)
         (vertex_distances lon lat ring).
Proof.
  intro Hlen.
  assert (Hne : ring <> []) by (destruct ring; [simpl in Hlen; lia | discriminate]).
  destruct (ring_min_distance lon lat ring Hne) as (m & Hm & Hmin).
  unfold Wildfires.ring_pass. cbn [bind].
  replace (List.length ring =? 0)%nat with false
    by (symmetry; apply Nat.eqb_neq; lia).
  replace (List.length ring <? 3)%nat with false
    by (symmetry; apply Nat.ltb_ge; lia).
  rewrite contains_one_inside by assumption.
  cbn [Np.getitem nth_error bind]. rewrite Hm. cbn [bind].
  eexists. split; [reflexivity |].
  destruct (inside_ring lon lat ring), (i =? 0)%nat; cbn;
    rewrite ?orb_true_r, ?orb_false_r;
    (split; [reflexivity | split; [reflexivity | now apply least_of_step]]).
Qed.

Lemma fold_ring_pass (irs : list (nat * Utils.polygon_t)) (st : Wildfires.scan) :
  Forall (fun ir => (3 <= List.length (snd ir))%nat) irs ->
  exists st',
    fold_left (Wildfires.ring_pass lat lon) irs (Ok st) = Ok st'
    /\ Wildfires.inside_outer st'
       = Wildfires.inside_outer st
         || existsb (fun ir => (fst ir =? 0)%nat
                               && inside_ring lon lat (snd ir)) irs
    /\ Wildfires.inside_hole st'
       = Wildfires.inside_hole st
         || existsb (fun ir => negb (fst ir =? 0)%nat
                               && inside_ring lon lat (snd ir)) irs
    /\ least_of (Wildfires.min_distance st') (Wildfires.min_distance st)
         (vertex_distances lon lat (concat (map snd irs))).
Proof.
  revert st. induction irs as [| [i ring] irs IH]; intros st Hall.
  - exists st. cbn. rewrite !orb_false_r.
    split; [reflexivity |]. split; [reflexivity |]. split; [reflexivity |].
    apply least_of_nil.
  - inversion Hall as [| ? ? Hring Hrest]; subst. cbn [snd] in Hring.
    destruct (ring_pass_ok st i ring Hring) as (st1 & E1 & O1 & H1 & L1).
    destruct (IH st1 Hrest) as (st2 & E2 & O2 & H2 & L2).
    exists st2. cbn [fold_left]. rewrite E1. split; [exact E2 |].
    cbn [existsb map concat fst snd].
    rewrite O2, H2, O1, H1, !orb_assoc.
    split; [reflexivity | split; [reflexivity |]].
    unfold vertex_distances in *. rewrite map_app.
    eapply least_of_app; eassumption.
Qed.

Lemma existsb_holes (f : Utils.polygon_t -> bool) (k : nat)
  (holes : list Utils.polygon_t) :
  existsb (fun ir : nat * Utils.polygon_t => (fst ir =? 0)%nat && f (snd ir))
    (combine (seq (S k) (List.length holes)) holes) = false
  /\ existsb (fun ir : nat * Utils.polygon_t =>
                negb (fst ir =? 0)%nat && f (snd ir))
       (combine (seq (S k) (List.length holes)) holes)
     = existsb f holes.
Proof.
  revert k. induction holes as [| h holes IH]; intro k; cbn; [auto |].
  destruct (IH (S k)) as [-> ->]. split; reflexivity.
Qed.

Lemma map_snd_combine_seq (k : nat) (rings : list Utils.polygon_t) :
  map snd (combine (seq k (List.length rings)) rings) = rings.
Proof.
  revert k. induction rings as [| r rings IH]; intro k; cbn;
    [reflexivity | now rewrite IH].
Qed.

Lemma fire_evaluator (fire : Wildfires.fire_t) (outer : Utils.polygon_t)
  (holes : list Utils.polygon_t) :
  Wildfires.geometry_rings fire = outer :: holes ->
  Forall (fun r => (3 <= List.length r)%nat) (outer :: holes) ->
  exists d,
    is_minimum d (vertex_distances lon lat (concat (outer :: holes)))
    /\ Wildfires._calculate_distance_to_fire lat lon fire
       = if inside_ring lon lat outer
            && negb (existsb (inside_ring lon lat) holes)
         then (Finite 0, true) else (Finite d, false).
Proof.
  intros Hg Hall.
  set (irs := combine (seq 0 (List.length (outer :: holes))) (outer :: holes)).
  assert (Hirs : Forall (fun ir => (3 <= List.length (snd ir))%nat) irs).
  { rewrite <- (Forall_map snd (fun r => (3 <= List.length r)%nat)).
    unfold irs. now rewrite map_snd_combine_seq. }
  destruct (fold_ring_pass irs
              {| Wildfires.inside_outer := false;
                 Wildfires.inside_hole := false;
                 Wildfires.min_distance := Infinity |} Hirs)
    as (st & E & O & H & L).
  cbn [Wildfires.inside_outer Wildfires.inside_hole Wildfires.min_distance]
    in O, H, L.
  unfold irs in O, H, L. rewrite map_snd_combine_seq in L.
  cbn [List.length seq combine existsb fst snd Nat.eqb negb andb orb] in O, H.
  destruct (existsb_holes (inside_ring lon lat) 0 holes) as [X1 X2].
  rewrite X1 in O. rewrite X2 in H. rewrite orb_false_r in O.
  destruct (least_of_infinity _ _
              (vertex_distances_nonempty lon lat (concat (outer :: holes))
                 ltac:(inversion Hall; subst; destruct outer;
                       [simpl in *; lia | discriminate]))
              L) as (d & Ed & Hd).
  exists d. split; [exact Hd |].
  unfold Wildfires._calculate_distance_to_fire, Wildfires.fire_try.
  rewrite Hg. cbn [List.length Nat.eqb].
  unfold irs in E. cbn [List.length] in E. rewrite E. cbn [bind].
  rewrite O, H, Ed.
  destruct (inside_ring lon lat outer && negb (existsb (inside_ring lon lat) holes));
    reflexivity.
Qed.

End FireLoop.

(** The evaluator in terms of the answers of the containment test
    [inside_ring], which are not the even-odd parity (see C1).  For every
    fire record whose rings are an outer ring followed by hole rings,
    each of 3 or more points, and every query point: the evaluator
    reports contained exactly when the containment test answers true on
    the outer ring and on no hole ring; when contained the distance is
    0; otherwise the distance is the minimum of the haversine distances
    from the query to the vertices of the outer ring and of all hole
    rings together. *)
Lemma fire_perimeter_policy {M : MathLib} (lat lon : Q)
  (fire : Wildfires.fire_t) (outer : Utils.polygon_t)
  (holes : list Utils.polygon_t) :
  Wildfires.geometry_rings fire = outer :: holes ->
  Forall (fun r => (3 <= List.length r)%nat) (outer :: holes) ->
  let r := Wildfires._calculate_distance_to_fire lat lon fire in
  snd r = inside_ring lon lat outer && negb (existsb (inside_ring lon lat) holes)
  /\ (snd r = true -> fst r = Finite 0)
  /\ (snd r = false ->
      exists d,
        is_minimum d (vertex_distances lon lat (concat (outer :: holes)))
        /\ fst r = Finite d)
  /\ (forall h, In h holes -> inside_ring lon lat h = true -> snd r = false).
Proof.
  intros Hg Hall r.
  destruct (fire_evaluator lat lon fire outer holes Hg Hall) as (d & Hd & He).
  subst r. rewrite He.
  destruct (inside_ring lon lat outer
            && negb (existsb (inside_ring lon lat) holes)) eqn:E; cbn [fst snd].
  - split; [reflexivity |]. split; [reflexivity |]. split; [discriminate |].
    intros h Hin Hh. apply andb_true_iff in E as [_ E].
    apply negb_true_iff in E.
    assert (existsb (inside_ring lon lat) holes = true)
      by (apply existsb_exists; now exists h).
    congruence.
  - split; [reflexivity |]. split; [discriminate |].
    split; [intros _; now exists d | reflexivity].
Qed.

Lemma fire_perimeter_policy_witness :
  Wildfires.geometry_rings fire_holed = square :: [hole]
  /\ Forall (fun r => (3 <= List.length r)%nat) (square :: [hole])
  /\ inside_ring (-95) 30 square = true
  /\ inside_ring (-95) 30 hole = true
  /\ snd (@Wildfires._calculate_distance_to_fire approx_math 30 (-95)
            fire_holed) = false.
Proof.
  assert (Hall : Forall (fun r => (3 <= List.length r)%nat) (square :: [hole]))
    by (repeat constructor).
  split; [reflexivity |]. split; [exact Hall |].
  split; [reflexivity |]. split; [reflexivity |].
  destruct (@fire_perimeter_policy approx_math 30 (-95) fire_holed square
              [hole] eq_refl Hall) as (_ & _ & _ & Hhole).
  apply (Hhole hole); [now left | reflexivity].
Defined.

(** C2.  The query (lon 1, lat 8) is outside the triangle (0,0),
    (10,0), (5,10): it is on no vertex and no edge and the ray crosses
    two edges.  For the fire whose one ring is the triangle the evaluator
    reports contained, with distance 0.  The same query is inside the
    frame (-5,-5), (15,-5), (15,15), (-5,15) (one crossing) and outside
    the triangle; for the fire whose outer ring is the frame and whose
    hole is the triangle the evaluator reports not contained. *)
Theorem fire_containment_follows_flag :
  Wildfires.geometry_rings fire_triangle = [triangle]
  /\ Pointwise.on_boundary triangle 1 8 = false
  /\ Pointwise.crossings triangle 1 8 = 2%nat
  /\ Pointwise.even_odd triangle 1 8 = false
  /\ @Wildfires._calculate_distance_to_fire approx_math 8 1 fire_triangle
     = (Finite 0, true)
  /\ Wildfires.geometry_rings fire_framed = [frame; triangle]
  /\ Pointwise.on_boundary frame 1 8 = false
  /\ Pointwise.crossings frame 1 8 = 1%nat
  /\ Pointwise.even_odd frame 1 8 = true
  /\ snd (@Wildfires._calculate_distance_to_fire approx_math 8 1 fire_framed)
     = false.
Proof.
  repeat split; vm_compute; reflexivity.
Qed.

(** C5.  For every ring of 3 or more vertices: in every batch of query
    points, a query that is exactly a vertex of the ring, or exactly the
    point of parameter [t] in [0, 1] of an edge, is reported contained;
    and for a query exactly at a vertex of the outer ring the cone
    evaluator returns distance 0 and contained true. *)
Theorem boundary_points_contained (polygon : Utils.polygon_t) :
  (3 <= List.length polygon)%nat ->
  (forall (x y : list Q) (k : nat),
      List.length x = List.length y -> (k < List.length x)%nat ->
      at_vertex polygon (nth k x 0) (nth k y 0)
      \/ on_segment polygon (nth k x 0) (nth k y 0) ->
      exists out,
        Utils.is_point_in_polygon_vectorized x y polygon = Ok out
        /\ nth_error out k = Some true)
  /\ (forall (M : MathLib) (lat lon : Q) (cone : Hurricanes.cone_t)
        (rest : list Utils.polygon_t),
        Hurricanes.geometry cone = Some (polygon :: rest) ->
        at_vertex polygon lon lat ->
        Hurricanes._calculate_distance_to_cone lat lon cone
        = (Finite 0, true)).
Proof.
  intro Hlen. split.
  - intros x y k Hxy Hk Hon.
    destruct (boundary_point_inside _ _ _ Hon) as [Hne Hin].
    eexists. split; [now apply contains_lists |].
    rewrite (nth_error_map2 _ x y k 0 0) by assumption.
    now rewrite <- inside_ring_closed, Hin.
  - intros M lat lon cone rest Hg Hv.
    destruct (boundary_point_inside polygon lon lat (or_introl Hv))
      as [Hne Hin].
    destruct (cone_evaluator lat lon cone polygon rest Hg Hne) as (d & _ & He).
    now rewrite He, Hin.
Qed.

Lemma boundary_points_contained_witness :
  (3 <= List.length square)%nat
  /\ on_segment square (-100) 30
  /\ at_vertex square (-90) 35
  /\ (exists out,
        Utils.is_point_in_polygon_vectorized [-95; -100] [40; 30] square
        = Ok out
        /\ nth_error out 1 = Some true)
  /\ @Hurricanes._calculate_distance_to_cone approx_math 35 (-90) cone_square
     = (Finite 0, true).
Proof.
  assert (Hlen : (3 <= List.length square)%nat) by (simpl; lia).
  assert (Hmid : on_segment square (-100) 30).
  { exists 0%nat, (1 # 2). cbn. repeat split; try lia; try lra;
      vm_compute; reflexivity. }
  assert (Hv : at_vertex square (-90) 35).
  { exists 2%nat. cbn. repeat split; try lia; reflexivity. }
  destruct (boundary_points_contained square Hlen) as [Hbatch Hcone].
  split; [exact Hlen |]. split; [exact Hmid |]. split; [exact Hv |]. split.
  - apply (Hbatch [-95; -100] [40; 30] 1%nat);
      [reflexivity | simpl; lia | right; exact Hmid].
  - apply (Hcone approx_math 35 (-90) cone_square []);
      [reflexivity | exact Hv].
Defined.

Lemma cone_distance_policy_witness :
  Hurricanes.geometry cone_square = Some (square :: []) /\ square <> []
  /\ Utils.is_point_in_polygon (-85) 30 square = Ok false
  /\ exists d,
       is_minimum d (@vertex_distances approx_math (-85) 30 square)
       /\ @Hurricanes._calculate_distance_to_cone approx_math 30 (-85)
            cone_square
          = (Finite d, false).
Proof.
  split; [reflexivity |]. split; [discriminate |]. split; [reflexivity |].
  destruct (@cone_distance_policy approx_math 30 (-85) cone_square square []
              eq_refl ltac:(discriminate)) as (_ & Hout & _).
  apply Hout. reflexivity.
Defined.

(** ** C8 and C10: records without ring geometry *)

(** C8, counterexample.  A fire record with no ring data that carries an
    origin coordinate: the evaluator returns +inf, not the haversine
    distance to that coordinate. *)
Lemma fire_origin_point_not_used :
  Wildfires.geometry_rings fire_origin_only = []
  /\ Wildfires.attr_POOLatitude fire_origin_only = Some 30
  /\ Wildfires.attr_POOLongitude fire_origin_only = Some (-94)
  /\ @Wildfires._calculate_distance_to_fire approx_math 29 (-95)
       fire_origin_only
     = (Infinity, false)
  /\ @Wildfires._calculate_distance_to_fire approx_math 29 (-95)
       fire_origin_only
     <> (Finite (@Utils.haversine approx_math (-95) 29 (-94) 30), false).
Proof.
  repeat split; try reflexivity. discriminate.
Qed.

(** C8, amended.  For every query point the evaluators return a pair and
    an exception raised inside them yields +inf and not contained.  A cone
    record with no ring geometry whose fallback latitude and longitude are
    both numbers other than 0 yields the haversine distance to that
    coordinate and not contained; a cone record with no ring geometry for
    which [cone.get('LAT')] or [cone.get('LON')] returns [None] (the
    table has no such column) yields +inf and not contained; a fire
    record with no ring data yields +inf and not contained, whether or
    not it carries an origin coordinate.  (A [LAT] or [LON] cell that is
    a nan is no value of [cone_t]: nothing is stated of such a row.) *)
Theorem fallback_policy {M : MathLib} (lat lon : Q) :
  (forall cone qlat qlon,
      Hurricanes.geometry cone = None ->
      Hurricanes.LAT cone = Some qlat -> Hurricanes.LON cone = Some qlon ->
      ~ qlat == 0 -> ~ qlon == 0 ->
      Hurricanes._calculate_distance_to_cone lat lon cone
      = (Finite (Utils.haversine lon lat qlon qlat), false))
  /\ (forall cone,
         Hurricanes.geometry cone = None ->
         Hurricanes.LAT cone = None \/ Hurricanes.LON cone = None ->
         Hurricanes._calculate_distance_to_cone lat lon cone
         = (Infinity, false))
  /\ (forall fire,
         Wildfires.geometry_rings fire = [] ->
         Wildfires._calculate_distance_to_fire lat lon fire
         = (Infinity, false))
  /\ (forall cone e,
         Hurricanes.cone_try lat lon cone = Raise e ->
         Hurricanes._calculate_distance_to_cone lat lon cone
         = (Infinity, false))
  /\ (forall fire e,
         Wildfires.fire_try lat lon fire = Raise e ->
         Wildfires._calculate_distance_to_fire lat lon fire
         = (Infinity, false)).
Proof.
  repeat split.
  - intros cone qlat qlon Hg Hlat Hlon Hlat0 Hlon0.
    unfold Hurricanes._calculate_distance_to_cone, Hurricanes.cone_try.
    rewrite Hg, Hlat, Hlon. cbn [Hurricanes.truthy Hurricanes.float_of].
    destruct (Qeq_bool qlat 0) eqn:E1;
      [apply Qeq_bool_iff in E1; contradiction |].
    destruct (Qeq_bool qlon 0) eqn:E2;
      [apply Qeq_bool_iff in E2; contradiction |].
    reflexivity.
  - intros cone Hg Hnone.
    unfold Hurricanes._calculate_distance_to_cone, Hurricanes.cone_try.
    rewrite Hg. destruct Hnone as [-> | ->]; cbn [Hurricanes.truthy].
    + reflexivity.
    + now rewrite andb_false_r.
  - intros fire Hg.
    unfold Wildfires._calculate_distance_to_fire, Wildfires.fire_try.
    now rewrite Hg.
  - intros cone e He. unfold Hurricanes._calculate_distance_to_cone.
    now rewrite He.
  - intros fire e He. unfold Wildfires._calculate_distance_to_fire.
    now rewrite He.
Qed.

Lemma fallback_policy_witness :
  Hurricanes.geometry cone_point = None
  /\ Hurricanes.LAT cone_point = Some 28
  /\ Hurricanes.LON cone_point = Some (-94)
  /\ ~ 28 == 0 /\ ~ -94 == 0
  /\ @Hurricanes._calculate_distance_to_cone approx_math 29 (-95) cone_point
     = (Finite (@Utils.haversine approx_math (-95) 29 (-94) 28), false).
Proof.
  assert (H28 : ~ 28 == 0) by (intro H; discriminate H).
  assert (H94 : ~ -94 == 0) by (intro H; discriminate H).
  split; [reflexivity |]. split; [reflexivity |]. split; [reflexivity |].
  split; [exact H28 |]. split; [exact H94 |].
  destruct (@fallback_policy approx_math 29 (-95)) as (Hpoint & _).
  apply (Hpoint cone_point 28 (-94)); try reflexivity; assumption.
Defined.

(** C10.  For every cone record with no ring geometry whose fallback
    latitude is 0 or whose fallback longitude is 0, and every query
    point, the evaluator returns +inf and not contained: the presence
    test is the truth value of the coordinate, and 0 is false. *)
Theorem zero_coordinate_is_no_fallback {M : MathLib} (lat lon : Q)
  (cone : Hurricanes.cone_t) :
  Hurricanes.geometry cone = None ->
  (exists q, Hurricanes.LAT cone = Some q /\ q == 0)
  \/ (exists q, Hurricanes.LON cone = Some q /\ q == 0) ->
  Hurricanes._calculate_distance_to_cone lat lon cone = (Infinity, false).
Proof.
  intros Hg Hzero.
  unfold Hurricanes._calculate_distance_to_cone, Hurricanes.cone_try.
  rewrite Hg.
  destruct Hzero as [(q & -> & Hq) | (q & -> & Hq)];
    cbn [Hurricanes.truthy]; apply Qeq_bool_iff in Hq; rewrite Hq;
    cbn [negb andb]; [reflexivity | now rewrite andb_false_r].
Qed.

Lemma zero_coordinate_is_no_fallback_witness :
  Hurricanes.geometry cone_equator = None
  /\ ((exists q, Hurricanes.LAT cone_equator = Some q /\ q == 0)
      \/ (exists q, Hurricanes.LON cone_equator = Some q /\ q == 0))
  /\ @Hurricanes._calculate_distance_to_cone approx_math 29 (-95) cone_equator
     = (Infinity, false).
Proof.
  assert (Hz : (exists q, Hurricanes.LAT cone_equator = Some q /\ q == 0)
               \/ (exists q, Hurricanes.LON cone_equator = Some q /\ q == 0)).
  { left. exists 0. split; reflexivity. }
  split; [reflexivity |]. split; [exact Hz |].
  apply (@zero_coordinate_is_no_fallback approx_math 29 (-95) cone_equator
           eq_refl Hz).
Defined.

(** ** C7: ranking *)

Section SortFacts.
Context {A : Type} (key : A -> miles).

Lemma insert_by_perm (x : A) (l : list A) :
  Permutation (x :: l) (insert_by key x l).
Proof.
  induction l as [| h t IH]; simpl; [reflexivity |].
  destruct (miles_lt (key h) (key x)); [| reflexivity].
  rewrite perm_swap. now constructor.
Qed.

Lemma list_sort_perm (l : list A) : Permutation l (list_sort key l).
Proof.
  induction l as [| x l IH]; simpl; [reflexivity |].
  rewrite <- insert_by_perm. now constructor.
Qed.

Lemma insert_by_ascending (x : A) (l : list A) :
  ascending key l -> ascending key (insert_by key x l).
Proof.
  unfold ascending. induction l as [| h t IH]; intro Hs; simpl.
  - repeat constructor.
  - inversion Hs as [| ? ? Ht Hh]; subst.
    destruct (miles_lt (key h) (key x)) eqn:E.
    + constructor; [now apply IH |].
      rewrite Forall_forall in *. intros y Hy.
      apply (Permutation_in _ (Permutation_sym (insert_by_perm x t))) in Hy.
      destruct Hy as [<- | Hy]; [now apply miles_lt_le | now apply Hh].
    + unfold miles_lt in E. apply negb_false_iff in E.
      constructor; [exact Hs |]. constructor; [exact E |].
      eapply Forall_impl; [| exact Hh]. cbv beta. intros y Hy.
      eapply miles_le_trans; eassumption.
Qed.

Lemma list_sort_ascending (l : list A) : ascending key (list_sort key l).
Proof.
  induction l as [| x l IH]; simpl; [constructor |].
  now apply insert_by_ascending.
Qed.

Lemma insert_by_stable (d : miles) (x : A) (l : list A) :
  filter (fun r => same_distance d (key r)) (insert_by key x l)
  = filter (fun r => same_distance d (key r)) (x :: l).
Proof.
  induction l as [| h t IH]; [reflexivity |].
  cbn [insert_by]. destruct (miles_lt (key h) (key x)) eqn:E; [| reflexivity].
  cbn [filter] in *. rewrite IH.
  destruct (same_distance d (key x)) eqn:Ex; [| reflexivity].
  destruct (same_distance d (key h)) eqn:Eh; [| reflexivity].
  exfalso. unfold same_distance, miles_lt in *.
  apply andb_true_iff in Ex as [Ex1 Ex2]. apply andb_true_iff in Eh as [Eh1 Eh2].
  apply negb_true_iff in E.
  pose proof (miles_le_trans _ _ _ Ex2 Eh1). congruence.
Qed.

Lemma list_sort_stable (d : miles) (l : list A) :
  filter (fun r => same_distance d (key r)) (list_sort key l)
  = filter (fun r => same_distance d (key r)) l.
Proof.
  induction l as [| x l IH]; [reflexivity |].
  cbn [list_sort fold_right]. rewrite insert_by_stable.
  cbn [filter]. fold (list_sort key l). now rewrite IH.
Qed.

Lemma list_sort_stably_ranked (l : list A) :
  stably_ranked key l (list_sort key l).
Proof.
  split; [apply list_sort_perm |].
  split; [apply list_sort_ascending |].
  intro d. apply list_sort_stable.
Qed.

End SortFacts.

Lemma radius_test (radius : Q) (distance : miles) (inside : bool) :
  negb (miles_gt distance radius && negb inside)
  = within radius (distance, inside).
Proof.
  unfold within, miles_gt, Qlt_bool. cbn [fst snd].
  destruct distance as [d |], inside; cbn [negb andb orb miles_le];
    try destruct (Qle_bool d radius); reflexivity.
Qed.

Lemma fold_fire_pass (radius : Q)
  (rows : list (Wildfires.fire_t * (miles * bool)))
  (results : list Wildfires.WildfireResult) :
  fold_left (Wildfires.fire_pass radius) rows results
  = results
    ++ map fire_entry (filter (fun row => within radius (snd row)) rows).
Proof.
  revert results.
  induction rows as [| [fire [distance inside]] rows IH]; intro results.
  - cbn. now rewrite app_nil_r.
  - cbn [fold_left filter snd]. rewrite IH, <- radius_test.
    unfold Wildfires.fire_pass.
    destruct (miles_gt distance radius && negb inside); cbn [negb];
      [reflexivity |].
    now rewrite <- app_assoc.
Qed.

Lemma fold_cone_pass (builds : Hurricanes.cone_t -> bool) (radius : Q)
  (rows : list (Hurricanes.cone_t * (miles * bool)))
  (results : list Hurricanes.HurricaneResult)
  (seen : list (string * option Z)) :
  fst (fold_left (Hurricanes.cone_pass builds radius) rows (results, seen))
  = results
    ++ map cone_entry
         (filter (fun row => builds (fst row))
            (first_per_storm seen
               (filter (fun row => within radius (snd row)) rows))).
Proof.
  revert results seen.
  induction rows as [| [cone [distance inside]] rows IH];
    intros results seen.
  - cbn. now rewrite app_nil_r.
  - cbn [fold_left filter snd]. rewrite <- radius_test.
    assert (Hst :
      Hurricanes.cone_pass builds radius (results, seen)
        (cone, (distance, inside))
      = if existsb (Hurricanes.storm_key_eqb (Hurricanes.storm_key cone)) seen
        then (results, seen)
        else if miles_gt distance radius && negb inside then (results, seen)
        else if builds cone
        then (results ++ [cone_entry (cone, (distance, inside))],
              Hurricanes.storm_key cone :: seen)
        else (results, Hurricanes.storm_key cone :: seen)) by reflexivity.
    rewrite Hst.
    destruct (existsb (Hurricanes.storm_key_eqb (Hurricanes.storm_key cone))
                seen) eqn:Eseen.
    + rewrite IH.
      destruct (miles_gt distance radius && negb inside); cbn [negb];
        [reflexivity |].
      cbn [first_per_storm fst]. now rewrite Eseen.
    + destruct (miles_gt distance radius && negb inside); cbn [negb];
        [apply IH |].
      cbn [first_per_storm fst]. rewrite Eseen. cbn [filter fst].
      destruct (builds cone); rewrite IH; [| reflexivity].
      cbn [map]. now rewrite <- app_assoc.
Qed.

(** C7, counterexample.  Two cone rows of one storm, both within the
    radius: the hurricane ranking emits one entry. *)
Lemma second_cone_of_storm_dropped :
  filter (fun row => within 100 (snd row)) two_cones_one_storm
  = two_cones_one_storm
  /\ Hurricanes.rank (fun _ => true) 100 two_cones_one_storm
     = [cone_entry (cone_point, (Finite 10, false))].
Proof.
  split; reflexivity.
Qed.

(** C7, amended.  For every radius and every list of rows paired with
    their proximity results: the wildfire ranking emits exactly the
    entries that are contained or within the radius; the hurricane
    ranking emits, of those entries, the first of each storm key whose
    result can be built; both emit them in ascending order of
    [distance_miles], which is 0 for a contained entry, and entries of
    equal distance keep their input order. *)
Theorem ranking_policy (radius : Q) :
  (forall rows,
      stably_ranked Wildfires.distance_miles
        (map fire_entry (filter (fun row => within radius (snd row)) rows))
        (Wildfires.rank radius rows))
  /\ (forall builds rows,
         stably_ranked Hurricanes.distance_miles
           (map cone_entry
              (filter (fun row => builds (fst row))
                 (first_per_storm []
                    (filter (fun row => within radius (snd row)) rows))))
           (Hurricanes.rank builds radius rows)).
Proof.
  split.
  - intro rows. unfold Wildfires.rank. rewrite fold_fire_pass.
    apply list_sort_stably_ranked.
  - intros builds rows. unfold Hurricanes.rank.
    pose proof (fold_cone_pass builds radius rows [] []) as H.
    destruct (fold_left (Hurricanes.cone_pass builds radius) rows ([], []))
      as [results seen].
    cbn [fst app] in H. rewrite H. apply list_sort_stably_ranked.
Qed.

(** * Further properties *)

(** ** The containment test *)

(** X1.  Batching changes no answer: on a non-empty ring, entry [k] of
    the result of the vectorized test is the result of the single-point
    wrapper on point [k]. *)
Theorem batch_is_pointwise (x y : list Q) (polygon : Utils.polygon_t)
  (k : nat) :
  polygon <> [] -> List.length x = List.length y ->
  (k < List.length x)%nat ->
  exists out b,
    Utils.is_point_in_polygon_vectorized x y polygon = Ok out
    /\ nth_error out k = Some b
    /\ Utils.is_point_in_polygon (nth k x 0) (nth k y 0) polygon = Ok b.
Proof.
  intros Hne Hlen Hk. do 2 eexists.
  split; [now apply contains_lists |].
  split; [now apply (nth_error_map2 _ x y k 0 0) |].
  unfold Utils.is_point_in_polygon. now rewrite contains_one.
Qed.

Lemma batch_is_pointwise_witness :
  square <> [] /\ List.length [-95; -85] = List.length [30; 30]
  /\ lt 1 (List.length [-95; -85])
  /\ exists out b,
       Utils.is_point_in_polygon_vectorized [-95; -85] [30; 30] square
       = Ok out
       /\ nth_error out 1 = Some b
       /\ Utils.is_point_in_polygon (nth 1 [-95; -85] 0) (nth 1 [30; 30] 0)
            square = Ok b.
Proof.
  split; [discriminate |]. split; [reflexivity |]. split; [simpl; lia |].
  apply (batch_is_pointwise [-95; -85] [30; 30] square 1);
    [discriminate | reflexivity | simpl; lia].
Defined.

(** X2.  On a non-empty ring the test is true exactly when the point is
    in the bounding box and some edge sets the flag: its start vertex is
    within the vertex tolerance, or the point is within the edge
    tolerance of the edge, or the ray crosses the edge.  No edge clears
    the flag. *)
Theorem containment_closed_form (polygon : Utils.polygon_t) (x y : Q) :
  polygon <> [] ->
  Utils.is_point_in_polygon x y polygon
  = Ok (Pointwise.in_bbox polygon x y
        && existsb (fun i => Pointwise.touches_vertex polygon x y i
                             || Pointwise.touches_edge polygon x y i
                             || Pointwise.crosses polygon x y i)
             (Pointwise.edges polygon)).
Proof.
  intro Hne. unfold Utils.is_point_in_polygon.
  rewrite contains_one by assumption. cbn [bind Np.getitem nth_error].
  now rewrite pipeline_closed.
Qed.

Lemma containment_closed_form_witness :
  triangle <> []
  /\ Utils.is_point_in_polygon 1 8 triangle
     = Ok (Pointwise.in_bbox triangle 1 8
           && existsb (fun i => Pointwise.touches_vertex triangle 1 8 i
                                || Pointwise.touches_edge triangle 1 8 i
                                || Pointwise.crosses triangle 1 8 i)
                (Pointwise.edges triangle)).
Proof.
  split; [discriminate |].
  apply (containment_closed_form triangle 1 8). discriminate.
Defined.

Lemma Qmax_cases (a b : Q) : Qmax a b = a \/ Qmax a b = b.
Proof.
  unfold Qmax, GenericMinMax.gmax. destruct (a ?= b); auto.
Qed.

Lemma fold_max_in (l : list Q) (a : Q) : In (fold_left Qmax l a) (a :: l).
Proof.
  revert a. induction l as [| b l IH]; intro a; simpl; [now left |].
  destruct (IH (Qmax a b)) as [H | H].
  - rewrite <- H. destruct (Qmax_cases a b) as [-> | ->].
    + now left.
    + right. now left.
  - right. right. exact H.
Qed.

(** The bounding box in terms of the vertices. *)
Lemma in_bbox_iff (polygon : Utils.polygon_t) (x y : Q) :
  Pointwise.in_bbox polygon x y = true
  <-> (exists a, In a polygon /\ fst a <= x)
      /\ (exists b, In b polygon /\ x <= fst b)
      /\ (exists c, In c polygon /\ snd c <= y)
      /\ (exists d, In d polygon /\ y <= snd d).
Proof.
  unfold Pointwise.in_bbox, Np.min_axis0, Np.max_axis0.
  destruct polygon as [| v polygon].
  - cbn. split; [discriminate | intros ((a & [] & _) & _)].
  - cbn [map Np.min Np.max bind].
    pose proof (fold_min_lower (map fst polygon) (fst v)) as [L1 L2].
    pose proof (fold_min_lower (map snd polygon) (snd v)) as [L3 L4].
    pose proof (fold_max_upper (map fst polygon) (fst v)) as [U1 U2].
    pose proof (fold_max_upper (map snd polygon) (snd v)) as [U3 U4].
    pose proof (fold_min_in (map fst polygon) (fst v)) as I1.
    pose proof (fold_min_in (map snd polygon) (snd v)) as I2.
    pose proof (fold_max_in (map fst polygon) (fst v)) as I3.
    pose proof (fold_max_in (map snd polygon) (snd v)) as I4.
    change (fst v :: map fst polygon) with (map fst (v :: polygon)) in I1, I3.
    change (snd v :: map snd polygon) with (map snd (v :: polygon)) in I2, I4.
    apply in_map_iff in I1 as (a & Ea & Ia), I2 as (c & Ec & Ic),
        I3 as (b & Eb & Ib), I4 as (d & Ed & Id).
    rewrite !andb_true_iff, !Qle_bool_iff.
    assert (Fx : forall w, In w (v :: polygon) ->
                 fold_left Qmin (map fst polygon) (fst v) <= fst w
                 /\ fst w <= fold_left Qmax (map fst polygon) (fst v)).
    { intros w [<- | Hw]; [split; assumption |].
      rewrite Forall_forall in L2, U2.
      split; [apply L2 | apply U2]; now apply in_map. }
    assert (Fy : forall w, In w (v :: polygon) ->
                 fold_left Qmin (map snd polygon) (snd v) <= snd w
                 /\ snd w <= fold_left Qmax (map snd polygon) (snd v)).
    { intros w [<- | Hw]; [split; assumption |].
      rewrite Forall_forall in L4, U4.
      split; [apply L4 | apply U4]; now apply in_map. }
    split.
    + intros [[[H1 H2] H3] H4]. repeat split.
      * exists a. split; [exact Ia | now rewrite Ea].
      * exists b. split; [exact Ib | now rewrite Eb].
      * exists c. split; [exact Ic | now rewrite Ec].
      * exists d. split; [exact Id | now rewrite Ed].
    + intros ((a' & Ia' & Ha) & (b' & Ib' & Hb) & (c' & Ic' & Hc)
              & (d' & Id' & Hd)).
      destruct (Fx a' Ia'), (Fx b' Ib'), (Fy c' Ic'), (Fy d' Id').
      repeat split; lra.
Qed.

(** X3.  A point reported contained lies between the extreme vertices:
    some vertex is not east of it, some not west, some not north, some
    not south. *)
Theorem contained_within_extremes (polygon : Utils.polygon_t) (x y : Q) :
  Utils.is_point_in_polygon x y polygon = Ok true ->
  (exists a, In a polygon /\ fst a <= x)
  /\ (exists b, In b polygon /\ x <= fst b)
  /\ (exists c, In c polygon /\ snd c <= y)
  /\ (exists d, In d polygon /\ y <= snd d).
Proof.
  intro H. destruct polygon as [| v polygon]; [discriminate |].
  unfold Utils.is_point_in_polygon in H.
  rewrite contains_one in H by discriminate.
  cbn [bind Np.getitem nth_error] in H.
  injection H as H. apply andb_true_iff in H as [H _].
  now apply in_bbox_iff.
Qed.

Lemma contained_within_extremes_witness :
  Utils.is_point_in_polygon (-95) 30 square = Ok true
  /\ (exists a, In a square /\ fst a <= -95)
  /\ (exists b, In b square /\ -95 <= fst b)
  /\ (exists c, In c square /\ snd c <= 30)
  /\ (exists d, In d square /\ 30 <= snd d).
Proof.
  split; [reflexivity |].
  apply (contained_within_extremes square (-95) 30). reflexivity.
Defined.





Lemma in_bbox_same_vertices (p q : Utils.polygon_t) (x y : Q) :
  (forall v, In v p <-> In v q) ->
  Pointwise.in_bbox p x y = Pointwise.in_bbox q x y.
Proof.
  intro H. apply eq_true_iff_eq. rewrite !in_bbox_iff.
  split; intros (A & B & C & D); repeat split;
    [destruct A as (v & Hv & ?) | destruct B as (v & Hv & ?)
     | destruct C as (v & Hv & ?) | destruct D as (v & Hv & ?)
     | destruct A as (v & Hv & ?) | destruct B as (v & Hv & ?)
     | destruct C as (v & Hv & ?) | destruct D as (v & Hv & ?)];
    exists v; (split; [now apply H | assumption]).
Qed.


Lemma length_rotate (polygon : Utils.polygon_t) :
  List.length (rotate polygon) = List.length polygon.
Proof.
  destruct polygon as [| v rest]; [reflexivity |].
  cbn. rewrite length_app. cbn. lia.
Qed.

Lemma vertex_rotate (polygon : Utils.polygon_t) (i : nat) :
  (i < List.length polygon)%nat ->
  Pointwise.vertex (rotate polygon) i
  = Pointwise.vertex polygon ((i + 1) mod List.length polygon).
Proof.
  destruct polygon as [| v rest]; [cbn; lia |].
  intro Hi. cbn [List.length rotate] in *. unfold Pointwise.vertex.
  destruct (Nat.eq_dec (i + 1) (S (List.length rest))) as [E | E].
  - rewrite E, Nat.Div0.mod_same. cbn [nth].
    rewrite app_nth2 by lia.
    replace (i - List.length rest)%nat with 0%nat by lia. reflexivity.
  - rewrite Nat.mod_small by lia. rewrite app_nth1 by lia.
    replace (i + 1)%nat with (S i) by lia. reflexivity.
Qed.

Lemma flag_rotate (polygon : Utils.polygon_t) (x y : Q) (i : nat) :
  (i < List.length polygon)%nat ->
  Pointwise.touches_vertex (rotate polygon) x y i
  || Pointwise.touches_edge (rotate polygon) x y i
  || Pointwise.crosses (rotate polygon) x y i
  = Pointwise.touches_vertex polygon x y ((i + 1) mod List.length polygon)
    || Pointwise.touches_edge polygon x y ((i + 1) mod List.length polygon)
    || Pointwise.crosses polygon x y ((i + 1) mod List.length polygon).
Proof.
  intro Hi. pose proof (next_index_lt _ _ Hi) as Hj.
  unfold Pointwise.touches_vertex, Pointwise.touches_edge, Pointwise.crosses.
  rewrite length_rotate, !vertex_rotate by assumption. reflexivity.
Qed.

Lemma pipeline_rotate (polygon : Utils.polygon_t) (x y : Q) :
  Pointwise.pipeline (rotate polygon) x y = Pointwise.pipeline polygon x y.
Proof.
  rewrite !pipeline_closed. unfold Pointwise.edges. rewrite length_rotate.
  apply eq_true_iff_eq. rewrite !existsb_exists.
  set (n := List.length polygon).
  split; intros (i & Hi & H); apply in_seq in Hi.
  - exists ((i + 1) mod n)%nat. split.
    + apply in_seq. pose proof (next_index_lt n i ltac:(lia)). lia.
    + now rewrite <- flag_rotate by lia.
  - exists ((i + (n - 1)) mod n)%nat.
    assert (Hlt : ((i + (n - 1)) mod n < n)%nat)
      by (apply Nat.mod_upper_bound; lia).
    split; [apply in_seq; lia |].
    rewrite flag_rotate by exact Hlt. fold n.
    replace (((i + (n - 1)) mod n + 1) mod n)%nat with i; [exact H |].
    rewrite Nat.Div0.add_mod_idemp_l.
    replace (i + (n - 1) + 1)%nat with (i + 1 * n)%nat by lia.
    rewrite Nat.Div0.mod_add. symmetry. apply Nat.mod_small. lia.
Qed.

Lemma in_rotate (polygon : Utils.polygon_t) (v : Q * Q) :
  In v (rotate polygon) <-> In v polygon.
Proof.
  destruct polygon as [| w rest]; [reflexivity |].
  cbn [rotate]. rewrite in_app_iff. cbn. tauto.
Qed.

Lemma rotate_once_invariant (polygon : Utils.polygon_t) (x y : Q) :
  Utils.is_point_in_polygon x y (rotate polygon)
  = Utils.is_point_in_polygon x y polygon.
Proof.
  assert (Hcases : polygon = [] \/ polygon <> [])
    by (destruct polygon; [now left | right; discriminate]).
  destruct Hcases as [-> | Hne]; [reflexivity |].
  assert (Hne' : rotate polygon <> []).
  { intro H. apply Hne. apply length_zero_iff_nil.
    now rewrite <- length_rotate, H. }
  unfold Utils.is_point_in_polygon. rewrite !contains_one by assumption.
  cbn [bind Np.getitem nth_error]. f_equal.
  rewrite (in_bbox_same_vertices (rotate polygon) polygon)
    by (intro w; apply in_rotate).
  now rewrite pipeline_rotate.
Qed.

(** X5.  The answer does not depend on the vertex the ring starts
    from: moving the first vertex to the end, any number of times, gives
    the same result. *)
Theorem start_vertex_invariant (polygon : Utils.polygon_t) (x y : Q)
  (k : nat) :
  Utils.is_point_in_polygon x y (Nat.iter k rotate polygon)
  = Utils.is_point_in_polygon x y polygon.
Proof.
  induction k as [| k IH]; [reflexivity |].
  change (Nat.iter (S k) rotate polygon)
    with (rotate (Nat.iter k rotate polygon)).
  now rewrite rotate_once_invariant.
Qed.

(** ** The haversine formula *)
Section Laws.
Context {M : MathLib} (L : MathLaws M).

Lemma sin_zero : sin 0 == 0.
Proof.
  pose proof (sin_odd M L 0) as H.
  rewrite (sin_proper M L (- 0) 0) in H by ring. lra.
Qed.

(** X6.  When the library functions respect equality and [sin] is odd,
    the distance from a to b is the distance from b to a. *)
Theorem haversine_symmetric (lon1 lat1 lon2 lat2 : Q) :
  Utils.haversine lon1 lat1 lon2 lat2 == Utils.haversine lon2 lat2 lon1 lat1.
Proof.
  unfold Utils.haversine, Utils.EARTH_RADIUS_MILES.
  assert (Hsq : forall a b, a == - b -> sq (sin (a / 2)) == sq (sin (b / 2))).
  { intros a b H. unfold sq.
    rewrite (sin_proper M L (a / 2) (- (b / 2)))
      by (rewrite H; field).
    rewrite (sin_odd M L). ring. }
  apply Qmult_comp; [reflexivity |]. apply Qmult_comp; [reflexivity |].
  apply (asin_proper M L). apply (sqrt_proper M L).
  rewrite (Hsq (radians lat2 - radians lat1) (radians lat1 - radians lat2))
    by ring.
  rewrite (Hsq (radians lon2 - radians lon1) (radians lon1 - radians lon2))
    by ring.
  ring.
Qed.

(** X7.  When moreover [sqrt] and [asin] vanish at 0, the distance from
    a point to itself is 0. *)
Theorem haversine_same_point (lon lat : Q) :
  Utils.haversine lon lat lon lat == 0.
Proof.
  unfold Utils.haversine, Utils.EARTH_RADIUS_MILES.
  assert (Hs : forall a, sq (sin ((a - a) / 2)) == 0).
  { intro a. unfold sq.
    rewrite (sin_proper M L ((a - a) / 2) 0) by field.
    rewrite sin_zero. ring. }
  rewrite (asin_proper M L _ 0).
  - rewrite (asin_zero M L). ring.
  - rewrite (sqrt_proper M L _ 0); [apply (sqrt_zero M L) |].
    rewrite !Hs. ring.
Qed.

End Laws.

Lemma heron_math_laws : MathLaws heron_math.
Proof.
  constructor; cbn.
  - intros a b H. now rewrite H.
  - intros a b H. now rewrite H.
  - intros a b H. now rewrite H.
  - intros a b H. now rewrite H.
  - intros a b H. now rewrite H.
  - intro a. field.
  - reflexivity.
  - reflexivity.
Qed.

Lemma haversine_symmetric_witness :
  MathLaws heron_math
  /\ @Utils.haversine heron_math (-95) 30 (-90) 25
     == @Utils.haversine heron_math (-90) 25 (-95) 30.
Proof.
  split; [exact heron_math_laws |].
  apply (@haversine_symmetric heron_math heron_math_laws).
Defined.

Lemma haversine_same_point_witness :
  MathLaws heron_math /\ @Utils.haversine heron_math (-95) 30 (-95) 30 == 0.
Proof.
  split; [exact heron_math_laws |].
  apply (@haversine_same_point heron_math heron_math_laws).
Defined.

(** ** Classifications *)

Ltac split_thresholds :=
  repeat match goal with
    | |- context [Qlt_bool ?a ?b] =>
        let E := fresh "E" in
        destruct (Qlt_bool a b) eqn:E;
        [apply Qlt_bool_iff in E | apply Qlt_bool_false_iff in E]
    end.

(** X9.  A stronger wind never gives a lower category: the
    classification by wind speed is monotone in the order of the
    enumeration. *)
Theorem from_wind_speed_monotone (w1 w2 : Q) :
  w1 <= w2 ->
  (category_rank (Models.from_wind_speed w1)
   <= category_rank (Models.from_wind_speed w2))%nat.
Proof.
  intro H. unfold Models.from_wind_speed.
  split_thresholds; cbn [category_rank]; try lia; exfalso; lra.
Qed.

(** X10.  A larger fire never gives a smaller size class. *)
Theorem from_acres_monotone (a1 a2 : Q) :
  a1 <= a2 ->
  (size_rank (Models.from_acres a1) <= size_rank (Models.from_acres a2))%nat.
Proof.
  intro H. unfold Models.from_acres.
  split_thresholds; cbn [size_rank]; try lia; exfalso; lra.
Qed.

Lemma from_efnum_range (n : Z) :
  (n < 0 \/ 5 < n)%Z -> Models.from_efnum n = None.
Proof.
  intro H. destruct n as [| p | p]; [lia | | reflexivity].
  destruct p as [[[p | p |] | [p | p |] |] | [[p | p |] | [p | p |] |] |];
    try reflexivity; lia.
Qed.

(** X11.  [from_efnum] returns a member exactly for the numbers 0 to 5,
    and the member it returns is the one whose value is the number. *)
Theorem from_efnum_round_trip (n : Z) (s : Models.TornadoScale) :
  Models.from_efnum n = Some s <-> Models.ef_value s = n.
Proof.
  split.
  - intro H. destruct (Z.lt_ge_cases n 0) as [Hn | Hn];
      [rewrite from_efnum_range in H by lia; discriminate |].
    destruct (Z.lt_ge_cases 5 n) as [Hm | Hm];
      [rewrite from_efnum_range in H by lia; discriminate |].
    assert (Hc : (n = 0 \/ n = 1 \/ n = 2 \/ n = 3 \/ n = 4 \/ n = 5)%Z) by lia.
    destruct Hc as [-> | [-> | [-> | [-> | [-> | ->]]]]];
      injection H as <-; reflexivity.
  - intros <-. destruct s; reflexivity.
Qed.

Lemma from_ssnum_default (n : Z) :
  (n < -2 \/ 5 < n)%Z -> Models.from_ssnum n = Models.TROPICAL_STORM.
Proof.
  intro H. destruct n as [| p | p]; [lia | |].
  - destruct p as [[[p | p |] | [p | p |] |] | [[p | p |] | [p | p |] |] |];
      try reflexivity; lia.
  - destruct p as [[p | p |] | [p | p |] |]; try reflexivity; lia.
Qed.

(** X12.  On the numbers -2 to 5 the classification by Saffir-Simpson
    number is monotone; every other number is classified Tropical Storm,
    so 6 ranks below 5. *)
Theorem from_ssnum_scale :
  (forall a b, (-2 <= a)%Z -> (a <= b)%Z -> (b <= 5)%Z ->
     (category_rank (Models.from_ssnum a)
      <= category_rank (Models.from_ssnum b))%nat)
  /\ (forall n, (n < -2 \/ 5 < n)%Z ->
        Models.from_ssnum n = Models.TROPICAL_STORM).
Proof.
  split; [| exact from_ssnum_default].
  intros a b Ha Hab Hb.
  assert (Ca : (a = -2 \/ a = -1 \/ a = 0 \/ a = 1 \/ a = 2 \/ a = 3
                \/ a = 4 \/ a = 5)%Z) by lia.
  assert (Cb : (b = -2 \/ b = -1 \/ b = 0 \/ b = 1 \/ b = 2 \/ b = 3
                \/ b = 4 \/ b = 5)%Z) by lia.
  destruct Ca as [-> | [-> | [-> | [-> | [-> | [-> | [-> | ->]]]]]]];
    destruct Cb as [-> | [-> | [-> | [-> | [-> | [-> | [-> | ->]]]]]]];
    cbn; lia.
Qed.

(** ** Validation *)

(** X8.  The two validators agree on every pair of values that are
    [None], a string, a float, or an int in the double range:
    [validate_and_normalize_coordinates] returns both coordinates, as
    [float] converts them, and no message exactly when
    [validate_coordinates] accepts, and returns no coordinate and a
    message exactly when it rejects.  (Of an int beyond the double range
    [float] raises [OverflowError], which neither validator catches.) *)
Theorem validators_agree (parse_float : string -> option Q)
  (lat lon : Py.value) :
  Py.converts lat -> Py.converts lon ->
  match Validation.validate_and_normalize_coordinates parse_float lat lon with
  | (Some a, Some b, None) =>
      Validation.validate_coordinates parse_float lat lon = true
      /\ Py.float parse_float lat = Py.Returns a
      /\ Py.float parse_float lon = Py.Returns b
  | (None, None, Some _) =>
      Validation.validate_coordinates parse_float lat lon = false
  | _ => False
  end.
Proof.
  intros _ _.
  unfold Validation.validate_and_normalize_coordinates,
    Validation.validate_coordinates.
  destruct (Py.float parse_float lat) as [a | e]; [| reflexivity].
  destruct (Py.float parse_float lon) as [b | e]; [| reflexivity].
  destruct (Validation.in_range (-90) a 90); cbn [negb andb];
    [| reflexivity].
  destruct (Validation.in_range (-180) b 180); cbn [negb];
    [repeat split | reflexivity].
Qed.


(** ** Directions *)

Lemma floor_unique (n : Z) (x : Q) :
  inject_Z n <= x -> x < inject_Z (n + 1) -> Qfloor x = n.
Proof.
  intros H1 H2.
  pose proof (Qfloor_le x) as F1. pose proof (Qlt_floor x) as F2.
  assert (A : (n < Qfloor x + 1)%Z).
  { rewrite Zlt_Qlt. lra. }
  assert (B : (Qfloor x < n + 1)%Z).
  { rewrite Zlt_Qlt. lra. }
  lia.
Qed.

Lemma floor_fraction (x : Q) :
  0 <= x - inject_Z (Qfloor x) /\ x - inject_Z (Qfloor x) < 1.
Proof.
  pose proof (Qfloor_le x) as F1. pose proof (Qlt_floor x) as F2.
  rewrite inject_Z_plus in F2. change (inject_Z 1) with 1 in F2.
  split; lra.
Qed.

Lemma round_near (k : Z) (x : Q) :
  inject_Z k - (1 # 2) < x -> x < inject_Z k + (1 # 2) -> Py.round x = k.
Proof.
  intros H1 H2. unfold Py.round.
  destruct (Qlt_le_dec x (inject_Z k)) as [Hlt | Hge].
  - assert (Hk : inject_Z (k - 1) == inject_Z k - 1).
    { unfold Z.sub. rewrite inject_Z_plus, inject_Z_opp. reflexivity. }
    assert (F : Qfloor x = (k - 1)%Z).
    { apply floor_unique; [lra |].
      replace (k - 1 + 1)%Z with k by lia. exact Hlt. }
    rewrite F.
    destruct (Qlt_bool (x - inject_Z (k - 1)) (1 # 2)) eqn:E1;
      [apply Qlt_bool_iff in E1; lra |].
    destruct (Qlt_bool (1 # 2) (x - inject_Z (k - 1))) eqn:E2;
      [lia | apply Qlt_bool_false_iff in E2; lra].
  - assert (F : Qfloor x = k).
    { apply floor_unique; [exact Hge |].
      rewrite inject_Z_plus. change (inject_Z 1) with 1. lra. }
    rewrite F.
    destruct (Qlt_bool (x - inject_Z k) (1 # 2)) eqn:E1;
      [reflexivity | apply Qlt_bool_false_iff in E1; lra].
Qed.

Lemma round_tie (k : Z) (x : Q) :
  x == inject_Z k + (1 # 2) ->
  Py.round x = if Z.even k then k else (k + 1)%Z.
Proof.
  intro H. unfold Py.round.
  assert (F : Qfloor x = k).
  { apply floor_unique; [lra |].
    rewrite inject_Z_plus. change (inject_Z 1) with 1. lra. }
  rewrite F.
  destruct (Qlt_bool (x - inject_Z k) (1 # 2)) eqn:E1;
    [apply Qlt_bool_iff in E1; lra |].
  destruct (Qlt_bool (1 # 2) (x - inject_Z k)) eqn:E2;
    [apply Qlt_bool_iff in E2; lra | reflexivity].
Qed.

Lemma round_shift (x y : Q) (m : Z) :
  Z.even m = true -> y == x + inject_Z m ->
  Py.round y = (Py.round x + m)%Z.
Proof.
  intros Hm Hy. unfold Py.round.
  destruct (floor_fraction x) as [F1 F2].
  assert (F : Qfloor y = (Qfloor x + m)%Z).
  { apply floor_unique; rewrite ?inject_Z_plus; change (inject_Z 1) with 1;
      lra. }
  rewrite F, inject_Z_plus.
  assert (Hr : y - (inject_Z (Qfloor x) + inject_Z m)
               == x - inject_Z (Qfloor x)) by lra.
  assert (E1 : Qlt_bool (y - (inject_Z (Qfloor x) + inject_Z m)) (1 # 2)
               = Qlt_bool (x - inject_Z (Qfloor x)) (1 # 2)).
  { apply eq_true_iff_eq. rewrite !Qlt_bool_iff, Hr. reflexivity. }
  assert (E2 : Qlt_bool (1 # 2) (y - (inject_Z (Qfloor x) + inject_Z m))
               = Qlt_bool (1 # 2) (x - inject_Z (Qfloor x))).
  { apply eq_true_iff_eq. rewrite !Qlt_bool_iff, Hr. reflexivity. }
  rewrite E1, E2, Z.even_add, Hm.
  destruct (Qlt_bool (x - inject_Z (Qfloor x)) (1 # 2)); [reflexivity |].
  destruct (Qlt_bool (1 # 2) (x - inject_Z (Qfloor x))); [lia |].
  destruct (Z.even (Qfloor x)); cbn; lia.
Qed.

Lemma direction_at (index : Z) :
  (0 <= index < 16)%Z ->
  exists d, nth_error HurricaneRows.directions (Z.to_nat index) = Some d.
Proof.
  intro H.
  destruct (nth_error HurricaneRows.directions (Z.to_nat index)) eqn:E;
    [eauto |].
  apply nth_error_None in E. cbn in E. lia.
Qed.

Lemma format_direction_float (parse_float : string -> option Q) (q : Q) :
  HurricaneRows._format_direction parse_float (Py.PFloat q)
  = Py.Returns
      (nth_error HurricaneRows.directions
         (Z.to_nat (Py.round (q / (45 # 2)) mod 16))).
Proof.
  unfold HurricaneRows._format_direction. cbn [Py.float].
  destruct (direction_at (Py.round (q / (45 # 2)) mod 16)
              ltac:(apply Z.mod_pos_bound; lia)) as [d ->].
  reflexivity.
Qed.

(** X13.  For every value that [float] converts to a finite float (a
    float, an int in the double range, or a string that spells such a
    number), [_format_direction] returns one of the 16 directions: the
    index [round(degrees / 22.5) % 16] is never out of the list, for
    negative degrees too. *)
Theorem format_direction_of_number (parse_float : string -> option Q)
  (degrees : Py.value) (q : Q) :
  Py.float parse_float degrees = Py.Returns q ->
  Py.in_double_range q ->
  exists d, In d HurricaneRows.directions
    /\ HurricaneRows._format_direction parse_float degrees
       = Py.Returns (Some d).
Proof.
  intros Hq _.
  destruct (direction_at (Py.round (q / (45 # 2)) mod 16)
              ltac:(apply Z.mod_pos_bound; lia)) as [d Hd].
  exists d. split; [eapply nth_error_In; exact Hd |].
  unfold HurricaneRows._format_direction.
  destruct degrees; [discriminate | |]; rewrite Hq, Hd; reflexivity.
Qed.

(** X14.  A full turn changes nothing: for two floats [d] and [d + 360]
    with [d] at most a million in magnitude, [d + 360] degrees has the
    direction of [d] degrees.  (Below [2 ** 51] the quotient of the
    doubles rounds to the integer the exact quotient rounds to.) *)
Theorem format_direction_periodic (parse_float : string -> option Q)
  (q : Q) :
  Qabs q <= 1000000 ->
  HurricaneRows._format_direction parse_float (Py.PFloat (q + 360))
  = HurricaneRows._format_direction parse_float (Py.PFloat q).
Proof.
  intros _.
  rewrite !format_direction_float. do 3 f_equal.
  rewrite (round_shift (q / (45 # 2)) ((q + 360) / (45 # 2)) 16)
    by (reflexivity || field).
  replace (Py.round (q / (45 # 2)) + 16)%Z
    with (Py.round (q / (45 # 2)) + 1 * 16)%Z by lia.
  apply Z.mod_add. lia.
Qed.

(** X15.  Every bearing at most a million in magnitude and less than
    11.25 degrees from [22.5 * k] gets direction [k mod 16]. *)
Theorem format_direction_sector (parse_float : string -> option Q)
  (q : Q) (k : Z) :
  Qabs q <= 1000000 ->
  Qabs (q - (45 # 2) * inject_Z k) < 45 # 4 ->
  HurricaneRows._format_direction parse_float (Py.PFloat q)
  = Py.Returns (nth_error HurricaneRows.directions (Z.to_nat (k mod 16))).
Proof.
  intros _ H. apply Qabs_Qlt_condition in H. destruct H as [H1 H2].
  rewrite format_direction_float. do 3 f_equal.
  rewrite (round_near k); [reflexivity | |].
  - apply Qlt_shift_div_l; lra.
  - apply Qlt_shift_div_r; lra.
Qed.

(** X16.  A bearing exactly between two directions,
    [22.5 * k + 11.25], gets the even-numbered one of the two: [round]
    breaks the tie to the even integer. *)
Theorem format_direction_boundary (parse_float : string -> option Q)
  (q : Q) (k : Z) :
  q == (45 # 2) * inject_Z k + (45 # 4) ->
  HurricaneRows._format_direction parse_float (Py.PFloat q)
  = Py.Returns
      (nth_error HurricaneRows.directions
         (Z.to_nat ((if Z.even k then k else k + 1) mod 16))).
Proof.
  intro H. rewrite format_direction_float.
  rewrite (round_tie k); [reflexivity |]. rewrite H. field.
Qed.

(** ** Tornadoes *)

Lemma fold_tornado_pass {M : MathLib} (builds : Tornadoes.feature_t -> bool)
  (lat lon radius : Q) (features : list Tornadoes.feature_t)
  (results : list Tornadoes.TornadoResult) :
  fold_left (Tornadoes.tornado_pass builds lat lon radius) features results
  = results ++ tornado_kept builds lat lon radius features.
Proof.
  revert results. induction features as [| f features IH]; intro results.
  - cbn. now rewrite app_nil_r.
  - cbn [fold_left tornado_kept flat_map]. rewrite IH.
    unfold Tornadoes.tornado_pass, tornado_entry.
    destruct (Tornadoes.startlat f) as [start_lat |];
      [| now rewrite app_nil_l].
    destruct (Tornadoes.startlon f) as [start_lon |];
      [| now rewrite app_nil_l].
    cbn [Tornadoes.distance_miles miles_le]. unfold Qlt_bool.
    destruct (Qle_bool (Utils.haversine lon lat start_lon start_lat) radius);
      cbn [negb andb]; [| now rewrite app_nil_l].
    destruct (builds f); [| now rewrite app_nil_l].
    now rewrite <- app_assoc.
Qed.

(** X18.  The tornado ranking emits exactly the features that have
    both start coordinates, lie within the radius and can be built, in
    ascending order of distance, entries of equal distance in their
    input order.  A start coordinate of 0 is a coordinate. *)
Theorem tornado_ranking {M : MathLib} (builds : Tornadoes.feature_t -> bool)
  (lat lon radius : Q) (features : list Tornadoes.feature_t) :
  stably_ranked Tornadoes.distance_miles
    (tornado_kept builds lat lon radius features)
    (Tornadoes.get_tornadoes_near_location builds lat lon radius features).
Proof.
  unfold Tornadoes.get_tornadoes_near_location.
  rewrite fold_tornado_pass. apply list_sort_stably_ranked.
Qed.

(** ** Every result is within the radius *)

Lemma first_per_storm_incl (seen : list (string * option Z))
  (rows : list (Hurricanes.cone_t * (miles * bool)))
  (row : Hurricanes.cone_t * (miles * bool)) :
  In row (first_per_storm seen rows) -> In row rows.
Proof.
  revert seen. induction rows as [| r rows IH]; intros seen H; [exact H |].
  cbn [first_per_storm] in H.
  destruct (existsb _ seen).
  - right. eapply IH. exact H.
  - destruct H as [<- | H]; [now left | right; eapply IH; exact H].
Qed.

Lemma entry_within (radius : Q) (distance : miles) (inside : bool) :
  0 <= radius -> within radius (distance, inside) = true ->
  miles_le (if inside then Finite 0 else distance) (Finite radius) = true.
Proof.
  intros Hr H. unfold within in H. cbn [fst snd] in H.
  destruct inside; [cbn; now apply Qle_bool_iff | exact H].
Qed.

Lemma wildfires_within {M : MathLib} (lat lon radius : Q)
  (fires : list Wildfires.fire_t) (r : Wildfires.WildfireResult) :
  0 <= radius ->
  In r (Wildfires.get_wildfires_near_location lat lon radius fires) ->
  miles_le (Wildfires.distance_miles r) (Finite radius) = true.
Proof.
  intros Hr Hin.
  unfold Wildfires.get_wildfires_near_location, Wildfires.rank in Hin.
  rewrite fold_fire_pass in Hin. cbn [app] in Hin.
  apply (Permutation_in _ (Permutation_sym (list_sort_perm _ _))) in Hin.
  apply in_map_iff in Hin as ([fire [distance inside]] & <- & Hin).
  apply filter_In in Hin as [_ Hw]. cbn [snd] in Hw.
  cbn. now apply entry_within.
Qed.

Lemma hurricanes_within {M : MathLib} (lat lon radius : Q)
  (builds : Hurricanes.cone_t -> bool) (cones : list Hurricanes.cone_t)
  (r : Hurricanes.HurricaneResult) :
  0 <= radius ->
  In r (Hurricanes.get_hurricanes_near_location builds lat lon radius cones) ->
  miles_le (Hurricanes.distance_miles r) (Finite radius) = true.
Proof.
  intros Hr Hin.
  unfold Hurricanes.get_hurricanes_near_location, Hurricanes.rank in Hin.
  pose proof (fold_cone_pass builds radius
                (map (fun cone =>
                        (cone,
                         Hurricanes._calculate_distance_to_cone lat lon cone))
                   cones) [] []) as H.
  destruct (fold_left _ _ _) as [results seen]. cbn [fst app] in H.
  subst results.
  apply (Permutation_in _ (Permutation_sym (list_sort_perm _ _))) in Hin.
  apply in_map_iff in Hin as ([cone [distance inside]] & <- & Hin).
  apply filter_In in Hin as [Hin _].
  apply first_per_storm_incl, filter_In in Hin as [_ Hw]. cbn [snd] in Hw.
  cbn. now apply entry_within.
Qed.

Lemma tornadoes_within {M : MathLib} (lat lon radius : Q)
  (builds : Tornadoes.feature_t -> bool)
  (features : list Tornadoes.feature_t) (r : Tornadoes.TornadoResult) :
  In r (Tornadoes.get_tornadoes_near_location builds lat lon radius features) ->
  miles_le (Tornadoes.distance_miles r) (Finite radius) = true.
Proof.
  intro Hin. unfold Tornadoes.get_tornadoes_near_location in Hin.
  rewrite fold_tornado_pass in Hin. cbn [app] in Hin.
  apply (Permutation_in _ (Permutation_sym (list_sort_perm _ _))) in Hin.
  unfold tornado_kept in Hin. apply in_flat_map in Hin as (f & _ & Hin).
  destruct (tornado_entry lat lon f) as [r0 |]; [| contradiction].
  destruct (miles_le (Tornadoes.distance_miles r0) (Finite radius)) eqn:E;
    cbn [andb] in Hin; [| contradiction].
  destruct (builds f); [| contradiction].
  destruct Hin as [<- | []]. exact E.
Qed.

(** X19.  For a radius that is not negative, every result the
    wildfire and tornado queries return has [distance_miles] at most the
    radius, and so has every result of the hurricane query on a cone
    table whose rows all carry ring geometry.  (A row without rings
    takes its distance from the [LAT] and [LON] cells, which can be
    nan.) *)
Theorem results_within_radius {M : MathLib} (lat lon radius : Q) :
  0 <= radius ->
  (forall fires r,
      In r (Wildfires.get_wildfires_near_location lat lon radius fires) ->
      miles_le (Wildfires.distance_miles r) (Finite radius) = true)
  /\ (forall builds cones r,
         Forall (fun cone => Hurricanes.geometry cone <> None) cones ->
         In r (Hurricanes.get_hurricanes_near_location builds lat lon radius
                 cones) ->
         miles_le (Hurricanes.distance_miles r) (Finite radius) = true)
  /\ (forall builds features r,
         In r (Tornadoes.get_tornadoes_near_location builds lat lon radius
                 features) ->
         miles_le (Tornadoes.distance_miles r) (Finite radius) = true).
Proof.
  intro Hr. repeat split.
  - intros fires r. now apply wildfires_within.
  - intros builds cones r _. now apply hurricanes_within.
  - intros builds features r. apply tornadoes_within.
Qed.

(** ** The positions of the storms *)

Lemma option_eqb_eq {A : Type} (eqb : A -> A -> bool) (a b : option A) :
  (forall x y, eqb x y = true <-> x = y) ->
  HurricaneRows.option_eqb eqb a b = true <-> a = b.
Proof.
  intro H. destruct a as [x |], b as [y |]; cbn;
    try (split; [discriminate | congruence]); [| tauto].
  rewrite H. split; congruence.
Qed.

Lemma key_eqb_eq (a b : HurricaneRows.key_t) :
  HurricaneRows.key_eqb a b = true <-> a = b.
Proof.
  unfold HurricaneRows.key_eqb. destruct a as [a1 a2], b as [b1 b2].
  cbn [fst snd]. rewrite andb_true_iff.
  rewrite (option_eqb_eq String.eqb a1 b1 String.eqb_eq).
  rewrite (option_eqb_eq Z.eqb a2 b2 Z.eqb_eq).
  split; [intros [-> ->]; reflexivity | intros [= -> ->]; now split].
Qed.

Lemma key_eqb_refl (a : HurricaneRows.key_t) : HurricaneRows.key_eqb a a = true.
Proof. now apply key_eqb_eq. Qed.

Lemma key_eqb_neq (a b : HurricaneRows.key_t) :
  HurricaneRows.key_eqb a b = false <-> a <> b.
Proof.
  rewrite <- key_eqb_eq. destruct (HurricaneRows.key_eqb a b);
    split; congruence.
Qed.

Lemma lookup_store (d : list (HurricaneRows.key_t * HurricaneRows.position_t))
  (k k' : HurricaneRows.key_t) (v : HurricaneRows.position_t) :
  HurricaneRows.lookup (HurricaneRows.store d k v) k'
  = if HurricaneRows.key_eqb k' k then Some v else HurricaneRows.lookup d k'.
Proof.
  induction d as [| [k0 v0] d IH]; cbn; [reflexivity |].
  destruct (HurricaneRows.key_eqb k k0) eqn:E; cbn.
  - apply key_eqb_eq in E. subst k0.
    now destruct (HurricaneRows.key_eqb k' k).
  - rewrite IH. destruct (HurricaneRows.key_eqb k' k0) eqn:E0; [| reflexivity].
    destruct (HurricaneRows.key_eqb k' k) eqn:E1; [| reflexivity].
    apply key_eqb_eq in E0, E1. subst. rewrite key_eqb_refl in E. discriminate.
Qed.

Lemma position_pass_keeps (d : list (HurricaneRows.key_t * HurricaneRows.position_t))
  (rows : list HurricaneRows.position_t) (row : HurricaneRows.position_t) :
  lowest_tau_held d rows ->
  lowest_tau_held (HurricaneRows.position_pass d row) (rows ++ [row]).
Proof.
  intros Inv k. unfold HurricaneRows.position_pass.
  pose proof (Inv (HurricaneRows.storm_key row)) as Hrow.
  pose proof (Inv k) as Hk.
  destruct (HurricaneRows.lookup d (HurricaneRows.storm_key row))
    as [held |] eqn:El.
  - destruct Hrow as (Hin & Hkey & Hmin).
    destruct (HurricaneRows.tau_of row <? HurricaneRows.tau_of held)%Z eqn:Et.
    + apply Z.ltb_lt in Et. rewrite lookup_store.
      destruct (HurricaneRows.key_eqb k (HurricaneRows.storm_key row)) eqn:E.
      * apply key_eqb_eq in E. subst k.
        split; [apply in_or_app; right; now left |]. split; [reflexivity |].
        intros r Hr Hkr. apply in_app_or in Hr as [Hr | [<- | []]]; [| lia].
        specialize (Hmin r Hr Hkr). lia.
      * apply key_eqb_neq in E.
        destruct (HurricaneRows.lookup d k) as [h |].
        -- destruct Hk as (A & B & C). split; [apply in_or_app; now left |].
           split; [exact B |]. intros r Hr Hkr.
           apply in_app_or in Hr as [Hr | [<- | []]]; [now apply C | congruence].
        -- intros r Hr. apply in_app_or in Hr as [Hr | [<- | []]];
             [now apply Hk | congruence].
    + apply Z.ltb_ge in Et.
      destruct (HurricaneRows.lookup d k) as [h |] eqn:Ek.
      * destruct Hk as (A & B & C). split; [apply in_or_app; now left |].
        split; [exact B |]. intros r Hr Hkr.
        apply in_app_or in Hr as [Hr | [<- | []]]; [now apply C |].
        subst k. rewrite <- Hkr, El in Ek. injection Ek as <-. exact Et.
      * intros r Hr. apply in_app_or in Hr as [Hr | [<- | []]];
          [now apply Hk |]. intro Hkr. subst k. congruence.
  - rewrite lookup_store.
    destruct (HurricaneRows.key_eqb k (HurricaneRows.storm_key row)) eqn:E.
    + apply key_eqb_eq in E. subst k.
      split; [apply in_or_app; right; now left |]. split; [reflexivity |].
      intros r Hr Hkr. apply in_app_or in Hr as [Hr | [<- | []]]; [| lia].
      exfalso. exact (Hrow r Hr Hkr).
    + apply key_eqb_neq in E.
      destruct (HurricaneRows.lookup d k) as [h |].
      * destruct Hk as (A & B & C). split; [apply in_or_app; now left |].
        split; [exact B |]. intros r Hr Hkr.
        apply in_app_or in Hr as [Hr | [<- | []]]; [now apply C | congruence].
      * intros r Hr. apply in_app_or in Hr as [Hr | [<- | []]];
          [now apply Hk | congruence].
Qed.

Lemma fold_position_pass (rows seen : list HurricaneRows.position_t)
  (d : list (HurricaneRows.key_t * HurricaneRows.position_t)) :
  lowest_tau_held d seen ->
  lowest_tau_held (fold_left HurricaneRows.position_pass rows d) (seen ++ rows).
Proof.
  revert seen d. induction rows as [| row rows IH]; intros seen d Inv.
  - now rewrite app_nil_r.
  - cbn [fold_left].
    replace (seen ++ row :: rows) with ((seen ++ [row]) ++ rows)
      by (now rewrite <- app_assoc).
    apply IH. now apply position_pass_keeps.
Qed.

(** X20.  On a detailed forecast table whose rows all carry a storm
    name, a storm number and a TAU, after the pass over the rows
    [storm_positions] holds for each storm key that occurs a row of that
    key whose TAU is the lowest of the key, and nothing for a key that
    does not occur. *)
Theorem storm_positions_lowest_tau (detailed_df : list HurricaneRows.position_t) :
  Forall HurricaneRows.complete detailed_df ->
  lowest_tau_held (HurricaneRows.storm_positions detailed_df) detailed_df.
Proof.
  intros _. unfold HurricaneRows.storm_positions.
  apply (fold_position_pass detailed_df [] []).
  intros k row [].
Qed.

(** ** Loading locations *)

Section Loader.
Variable parse_float : string -> option Q.
Variable strip : string -> string.

Lemma validate_floats (lat lon : Q) :
  Validation.validate_coordinates parse_float (Py.PFloat lat) (Py.PFloat lon)
  = true
  <-> (-90 <= lat /\ lat <= 90) /\ (-180 <= lon /\ lon <= 180).
Proof.
  unfold Validation.validate_coordinates, Validation.in_range. cbn [Py.float].
  rewrite !andb_true_iff, !Qle_bool_iff. tauto.
Qed.

Lemma parse_row_valid (n : nat) (row : Validation.csv_row)
  (loc : Validation.location_dict) :
  Validation.parse_row parse_float strip n row = Py.Returns (Some loc) ->
  valid_location loc.
Proof.
  unfold Validation.parse_row.
  destruct (Validation.float_field parse_float row "latitude") as [lat | e];
    [| discriminate].
  destruct (Validation.float_field parse_float row "longitude") as [lon | e];
    [| discriminate].
  cbn [Py.and_then].
  destruct (Validation.validate_coordinates parse_float (Py.PFloat lat)
              (Py.PFloat lon)) eqn:E; [| discriminate].
  apply validate_floats in E.
  destruct (match Validation.truthy_field (Py.get row "name") with
            | Some s => Some s
            | None => _
            end) as [s |]; [| discriminate].
  intros [= <-]. exact E.
Qed.

Lemma row_pass_valid (st : Py.res (list Validation.location_dict))
  (nr : nat * Validation.csv_row) (locs : list Validation.location_dict) :
  Validation.row_pass parse_float strip st nr = Py.Returns locs ->
  exists held, st = Py.Returns held
    /\ (Forall valid_location held -> Forall valid_location locs)
    /\ (List.length locs <= S (List.length held))%nat.
Proof.
  unfold Validation.row_pass. destruct st as [held | e]; [| discriminate].
  cbn [Py.and_then]. intro H. exists held. split; [reflexivity |].
  destruct (Validation.parse_row parse_float strip (fst nr) (snd nr))
    as [[loc |] | e] eqn:E.
  - injection H as <-. split.
    + intro Hh. apply Forall_app. split; [exact Hh |].
      constructor; [| constructor]. eapply parse_row_valid. exact E.
    + rewrite length_app. cbn. lia.
  - injection H as <-. split; [auto | lia].
  - destruct e; try discriminate; injection H as <-; (split; [auto | lia]).
Qed.

Lemma fold_row_pass_valid (nrs : list (nat * Validation.csv_row))
  (st : Py.res (list Validation.location_dict))
  (locs : list Validation.location_dict) :
  fold_left (Validation.row_pass parse_float strip) nrs st = Py.Returns locs ->
  exists held, st = Py.Returns held
    /\ (Forall valid_location held -> Forall valid_location locs)
    /\ (List.length locs <= List.length nrs + List.length held)%nat.
Proof.
  revert st. induction nrs as [| nr nrs IH]; intros st H.
  - cbn in H. subst st. exists locs. split; [reflexivity |]. split; [auto | cbn; lia].
  - cbn [fold_left] in H. destruct (IH _ H) as (mid & Hmid & Hv & Hl).
    destruct (row_pass_valid st nr mid Hmid) as (held & -> & Hv' & Hl').
    exists held. split; [reflexivity |]. split; [auto |]. cbn [List.length]. lia.
Qed.

(** X21.  Every location [load_locations_from_csv] returns has a
    latitude in [-90, 90] and a longitude in [-180, 180]; there are at
    most as many as rows. *)
Theorem loaded_locations_valid
  (file : option (list string * list Validation.csv_row))
  (locs : list Validation.location_dict) :
  Validation.load_locations_from_csv parse_float strip file = Py.Returns locs ->
  Forall valid_location locs
  /\ exists fieldnames rows, file = Some (fieldnames, rows)
       /\ (List.length locs <= List.length rows)%nat.
Proof.
  unfold Validation.load_locations_from_csv.
  destruct file as [[fieldnames rows] |]; [| discriminate].
  destruct (negb _); [discriminate |]. intro H.
  destruct (fold_row_pass_valid _ _ _ H) as (held & [= <-] & Hv & Hl).
  split; [apply Hv; constructor |].
  exists fieldnames, rows. split; [reflexivity |].
  rewrite length_combine, length_seq, Nat.min_id in Hl. cbn in Hl. lia.
Qed.

Lemma fold_row_pass_raises (nrs : list (nat * Validation.csv_row))
  (e : Py.exc) :
  fold_left (Validation.row_pass parse_float strip) nrs (Py.Raises e)
  = Py.Raises e.
Proof.
  induction nrs as [| nr nrs IH]; [reflexivity | exact IH].
Qed.

Lemma combine_seq_app {A : Type} (k : nat) (l1 l2 : list A) :
  combine (seq k (List.length (l1 ++ l2))) (l1 ++ l2)
  = combine (seq k (List.length l1)) l1
    ++ combine (seq (k + List.length l1) (List.length l2)) l2.
Proof.
  revert k. induction l1 as [| a l1 IH]; intro k; cbn.
  - now rewrite Nat.add_0_r.
  - rewrite IH.
    replace (S k + List.length l1)%nat with (k + S (List.length l1))%nat
      by lia.
    reflexivity.
Qed.

(** X22.  A row whose latitude field is [None], which is what the
    reader yields for a line shorter than the header, is not skipped: the
    loader raises [TypeError], which its handler does not catch, whatever
    the rows after it. *)
Theorem short_row_raises_type_error (fieldnames : list string)
  (before after : list Validation.csv_row) (row : Validation.csv_row)
  (locs : list Validation.location_dict) :
  Validation.load_locations_from_csv parse_float strip
    (Some (fieldnames, before)) = Py.Returns locs ->
  Py.get row "latitude" = Some None ->
  Validation.load_locations_from_csv parse_float strip
    (Some (fieldnames, before ++ row :: after)) = Py.Raises Py.TypeError.
Proof.
  unfold Validation.load_locations_from_csv.
  destruct (negb _); [discriminate |]. intros Hb Hlat.
  rewrite combine_seq_app, fold_left_app, Hb.
  cbn [List.length seq combine fold_left].
  assert (Hrow : forall n,
    Validation.row_pass parse_float strip (Py.Returns locs) (n, row)
    = Py.Raises Py.TypeError).
  { intro n. unfold Validation.row_pass, Validation.parse_row,
      Validation.float_field, Py.item. cbn [Py.and_then fst snd].
    rewrite Hlat. reflexivity. }
  rewrite Hrow. apply fold_row_pass_raises.
Qed.

End Loader.

(** ** The entry point *)

(** X23.  Called with coordinates that are floats, or ints in the
    double range, on a cone table whose rows all carry ring geometry,
    [get_nearby_disasters] raises exactly when the coordinates are out of
    range, and then [ValueError]; otherwise, for a radius that is not
    negative, every result of the three lists is within the radius. *)
Theorem nearby_disasters_policy {M : MathLib}
  (parse_float : string -> option Q) (data : Package.fetched)
  (latitude longitude radius : Q)
  (disaster_types : option (list Models.DisasterType)) (name : string) :
  0 <= radius ->
  Py.in_double_range latitude -> Py.in_double_range longitude ->
  Forall (fun cone => Hurricanes.geometry cone <> None) (Package.cone_df data) ->
  match Package.get_nearby_disasters parse_float data latitude longitude
          radius disaster_types name with
  | Py.Raises e =>
      e = Py.ValueError
      /\ ~ ((-90 <= latitude /\ latitude <= 90)
            /\ (-180 <= longitude /\ longitude <= 180))
  | Py.Returns r =>
      ((-90 <= latitude /\ latitude <= 90)
       /\ (-180 <= longitude /\ longitude <= 180))
      /\ Forall (fun h => miles_le (Hurricanes.distance_miles h)
                            (Finite radius) = true) (Package.hurricanes r)
      /\ Forall (fun t => miles_le (Tornadoes.distance_miles t)
                            (Finite radius) = true) (Package.tornadoes r)
      /\ Forall (fun w => miles_le (Wildfires.distance_miles w)
                            (Finite radius) = true) (Package.wildfires r)
  end.
Proof.
  intros Hr _ _ _. unfold Package.get_nearby_disasters.
  destruct (Validation.validate_coordinates parse_float (Py.PFloat latitude)
              (Py.PFloat longitude)) eqn:E; cbn [negb].
  - apply validate_floats in E. split; [exact E |].
    cbn [Package.hurricanes Package.tornadoes Package.wildfires].
    repeat split.
    + destruct (Package.requested Models.HURRICANE _); [| constructor].
      apply Forall_forall. intros h Hh. eapply hurricanes_within; eassumption.
    + destruct (Package.requested Models.TORNADO _); [| constructor].
      apply Forall_forall. intros t Ht. eapply tornadoes_within; eassumption.
    + destruct (Package.requested Models.WILDFIRE _); [| constructor].
      apply Forall_forall. intros w Hw. eapply wildfires_within; eassumption.
  - split; [reflexivity |]. intro H. apply (validate_floats parse_float) in H.
    congruence.
Qed.

(** ** Locations *)

(** X24.  [Location.from_dict] undoes [Location.to_dict]. *)
Theorem location_round_trip (parse_float : string -> option Q)
  (loc : Models.Location) :
  Models.Location_from_dict parse_float (Models.Location_to_dict loc)
  = Py.Returns loc.
Proof. destruct loc. reflexivity. Qed.


(** ** The evaluators on any record *)

Section Evaluators.
Context {M : MathLib}.
Variables lat lon : Q.

Lemma ring_pass_skips (st : Wildfires.scan) (i : nat) (ring : Utils.polygon_t) :
  usable ring = false ->
  Wildfires.ring_pass lat lon (Ok st) (i, ring) = Ok st.
Proof.
  unfold usable. intro H. apply Nat.leb_gt in H.
  unfold Wildfires.ring_pass. cbn [bind].
  destruct (List.length ring =? 0)%nat; [reflexivity |].
  replace (List.length ring <? 3)%nat with true
    by (symmetry; apply Nat.ltb_lt; lia).
  reflexivity.
Qed.

Lemma fold_ring_pass_any (irs : list (nat * Utils.polygon_t))
  (st : Wildfires.scan) :
  exists st',
    fold_left (Wildfires.ring_pass lat lon) irs (Ok st) = Ok st'
    /\ Wildfires.inside_outer st'
       = Wildfires.inside_outer st
         || existsb (fun ir => (fst ir =? 0)%nat && usable (snd ir)
                               && inside_ring lon lat (snd ir)) irs
    /\ Wildfires.inside_hole st'
       = Wildfires.inside_hole st
         || existsb (fun ir => negb (fst ir =? 0)%nat && usable (snd ir)
                               && inside_ring lon lat (snd ir)) irs
    /\ least_of (Wildfires.min_distance st') (Wildfires.min_distance st)
         (vertex_distances lon lat
            (concat (filter usable (map snd irs)))).
Proof.
  revert st. induction irs as [| [i ring] irs IH]; intro st.
  - exists st. cbn. rewrite !orb_false_r.
    split; [reflexivity |]. split; [reflexivity |]. split; [reflexivity |].
    apply least_of_nil.
  - cbn [fold_left map filter existsb fst snd].
    destruct (usable ring) eqn:U.
    + assert (Hlen : (3 <= List.length ring)%nat)
        by (now apply Nat.leb_le).
      destruct (ring_pass_ok lat lon st i ring Hlen)
        as (st1 & E1 & O1 & H1 & L1).
      destruct (IH st1) as (st2 & E2 & O2 & H2 & L2).
      exists st2. rewrite E1. split; [exact E2 |].
      rewrite O2, H2, O1, H1, !andb_true_r, !orb_assoc.
      split; [reflexivity | split; [reflexivity |]].
      cbn [concat]. unfold vertex_distances in *. rewrite map_app.
      eapply least_of_app; eassumption.
    + rewrite ring_pass_skips by exact U.
      destruct (IH st) as (st2 & E2 & O2 & H2 & L2).
      exists st2. split; [exact E2 |].
      rewrite !andb_false_r. cbn [andb orb].
      split; [exact O2 | split; [exact H2 | exact L2]].
Qed.

Lemma existsb_later_index {A : Type} (P : nat * A -> bool) (k : nat)
  (l : list A) :
  (forall ir, (fst ir =? 0)%nat = false -> P ir = false) ->
  existsb P (combine (seq (S k) (List.length l)) l) = false.
Proof.
  intro HP. revert k. induction l as [| a l IH]; intro k; cbn;
    [reflexivity |].
  rewrite (HP (S k, a)) by reflexivity. apply IH.
Qed.

(** The state after the loop over the rings of any fire. *)
Lemma fire_scan (rings : list Utils.polygon_t) :
  exists st,
    fold_left (Wildfires.ring_pass lat lon)
      (combine (seq 0 (List.length rings)) rings)
      (Ok {| Wildfires.inside_outer := false;
             Wildfires.inside_hole := false;
             Wildfires.min_distance := Infinity |}) = Ok st
    /\ Wildfires.inside_outer st
       = match rings with
         | outer :: _ => usable outer && inside_ring lon lat outer
         | [] => false
         end
    /\ least_of (Wildfires.min_distance st) Infinity
         (vertex_distances lon lat (concat (filter usable rings))).
Proof.
  destruct (fold_ring_pass_any (combine (seq 0 (List.length rings)) rings)
              {| Wildfires.inside_outer := false;
                 Wildfires.inside_hole := false;
                 Wildfires.min_distance := Infinity |})
    as (st & E & O & _ & L).
  exists st. split; [exact E |].
  cbn [Wildfires.inside_outer Wildfires.min_distance] in O, L.
  rewrite map_snd_combine_seq in L. split; [| exact L].
  rewrite O. destruct rings as [| outer rest]; [reflexivity |].
  cbn [List.length seq combine existsb fst snd Nat.eqb andb orb].
  rewrite existsb_later_index by (intros ir ->; reflexivity).
  now rewrite orb_false_r.
Qed.

(** X25.  For every record and query, an evaluator that reports
    contained reports distance 0. *)
Theorem contained_means_zero (cone : Hurricanes.cone_t)
  (fire : Wildfires.fire_t) :
  (snd (Hurricanes._calculate_distance_to_cone lat lon cone) = true ->
   Hurricanes._calculate_distance_to_cone lat lon cone = (Finite 0, true))
  /\ (snd (Wildfires._calculate_distance_to_fire lat lon fire) = true ->
      Wildfires._calculate_distance_to_fire lat lon fire = (Finite 0, true)).
Proof.
  split.
  - unfold Hurricanes._calculate_distance_to_cone, Hurricanes.cone_try.
    destruct (Hurricanes.geometry cone) as [rings |].
    + destruct (Np.getitem rings 0) as [polygon | e]; cbn [bind];
        [| discriminate].
      destruct (Utils.is_point_in_polygon_vectorized [lon] [lat] polygon)
        as [inside | e]; cbn [bind]; [| discriminate].
      destruct (Np.getitem inside 0) as [[|] | e]; cbn [bind];
        [reflexivity | | discriminate].
      destruct (Np.min _) as [m | e]; cbn; discriminate.
    + destruct (Hurricanes.truthy (Hurricanes.LAT cone)
                && Hurricanes.truthy (Hurricanes.LON cone)); discriminate.
  - unfold Wildfires._calculate_distance_to_fire, Wildfires.fire_try.
    destruct (List.length (Wildfires.geometry_rings fire) =? 0)%nat;
      [discriminate |].
    destruct (fold_left _ _ _) as [st | e]; cbn [bind]; [| discriminate].
    destruct (Wildfires.inside_outer st && negb (Wildfires.inside_hole st));
      [reflexivity | discriminate].
Qed.

(** X26.  A fire whose outer ring has fewer than 3 points contains no
    query point, whatever its other rings. *)
Theorem degenerate_outer_never_contains (fire : Wildfires.fire_t)
  (outer : Utils.polygon_t) (rest : list Utils.polygon_t) :
  Wildfires.geometry_rings fire = outer :: rest ->
  (List.length outer < 3)%nat ->
  snd (Wildfires._calculate_distance_to_fire lat lon fire) = false.
Proof.
  intros Hg Hlen.
  unfold Wildfires._calculate_distance_to_fire, Wildfires.fire_try.
  destruct (fire_scan (Wildfires.geometry_rings fire)) as (st & E & O & _).
  rewrite E. rewrite Hg in O |- *. cbn [List.length Nat.eqb bind].
  replace (usable outer) with false in O
    by (symmetry; apply Nat.leb_gt; exact Hlen).
  cbn [andb] in O. rewrite O. reflexivity.
Qed.

(** X27.  A fire all of whose rings have fewer than 3 points is at
    distance +inf and contains nothing. *)
Theorem no_usable_ring_is_infinity (fire : Wildfires.fire_t) :
  Forall (fun ring => (List.length ring < 3)%nat)
    (Wildfires.geometry_rings fire) ->
  Wildfires._calculate_distance_to_fire lat lon fire = (Infinity, false).
Proof.
  intro Hall.
  assert (Hf : filter usable (Wildfires.geometry_rings fire) = []).
  { induction Hall as [| ring rings Hr _ IH]; [reflexivity |].
    cbn [filter]. replace (usable ring) with false
      by (symmetry; apply Nat.leb_gt; exact Hr). exact IH. }
  assert (Hh : match Wildfires.geometry_rings fire with
               | outer :: _ => usable outer && inside_ring lon lat outer
               | [] => false
               end = false).
  { destruct Hall as [| ring rings Hr _]; [reflexivity |].
    replace (usable ring) with false
      by (symmetry; apply Nat.leb_gt; exact Hr). reflexivity. }
  unfold Wildfires._calculate_distance_to_fire, Wildfires.fire_try.
  destruct (fire_scan (Wildfires.geometry_rings fire)) as (st & E & O & L).
  rewrite E.
  destruct (List.length (Wildfires.geometry_rings fire) =? 0)%nat;
    [reflexivity |]. cbn [bind].
  rewrite Hf in L. rewrite Hh in O.
  destruct L as ([Hm | (d & _ & [])] & _).
  rewrite O, Hm. reflexivity.
Qed.

(** X29.  A cone whose ring list is empty, or whose outer ring is
    empty, is at distance +inf and contains nothing: the [IndexError] and
    the [ValueError] are caught. *)
Theorem cone_without_outer_ring (cone : Hurricanes.cone_t)
  (rings : list Utils.polygon_t) :
  Hurricanes.geometry cone = Some rings ->
  (rings = [] \/ exists rest, rings = [] :: rest) ->
  Hurricanes._calculate_distance_to_cone lat lon cone = (Infinity, false).
Proof.
  intros Hg [-> | (rest & ->)];
    unfold Hurricanes._calculate_distance_to_cone, Hurricanes.cone_try;
    rewrite Hg; reflexivity.
Qed.

End Evaluators.

(** X28.  A location the loader returns is one the entry point accepts:
    the query made for it does not raise. *)
Theorem loaded_location_query_returns {M : MathLib}
  (parse_float : string -> option Q) (strip : string -> string)
  (file : option (list string * list Validation.csv_row))
  (locs : list Validation.location_dict) (data : Package.fetched)
  (radius : Q) (disaster_types : option (list Models.DisasterType))
  (l : Validation.location_dict) :
  Validation.load_locations_from_csv parse_float strip file = Py.Returns locs ->
  In l locs ->
  exists r,
    Package.get_nearby_disasters parse_float data (Validation.loc_latitude l)
      (Validation.loc_longitude l) radius disaster_types
      (Validation.loc_name l)
    = Py.Returns r.
Proof.
  unfold Validation.load_locations_from_csv.
  destruct file as [[fieldnames rows] |]; [| discriminate].
  destruct (negb _); [discriminate |]. intros H Hin.
  destruct (fold_row_pass_valid _ _ _ _ _ H) as (held & [= <-] & Hv & _).
  pose proof (Hv (Forall_nil _)) as Hall. rewrite Forall_forall in Hall.
  pose proof (Hall l Hin) as Hl. unfold valid_location in Hl.
  apply (validate_floats parse_float) in Hl.
  unfold Package.get_nearby_disasters. rewrite Hl. cbn [negb].
  eexists. reflexivity.
Qed.

(** ** Instances of the further properties *)

Lemma from_wind_speed_monotone_witness :
  50 <= 120
  /\ (category_rank (Models.from_wind_speed 50)
      <= category_rank (Models.from_wind_speed 120))%nat.
Proof.
  assert (H : 50 <= 120) by lra.
  split; [exact H | exact (from_wind_speed_monotone 50 120 H)].
Defined.

Lemma from_acres_monotone_witness :
  500 <= 20000
  /\ (size_rank (Models.from_acres 500)
      <= size_rank (Models.from_acres 20000))%nat.
Proof.
  assert (H : 500 <= 20000) by lra.
  split; [exact H | exact (from_acres_monotone 500 20000 H)].
Defined.

Lemma from_efnum_round_trip_witness :
  Models.ef_value Models.EF3 = 3%Z
  /\ Models.from_efnum 3 = Some Models.EF3.
Proof.
  split; [reflexivity |].
  apply (proj2 (from_efnum_round_trip 3 Models.EF3)). reflexivity.
Defined.

Lemma from_ssnum_scale_witness :
  (-2 <= 0)%Z /\ (0 <= 3)%Z /\ (3 <= 5)%Z /\ (5 < 6)%Z
  /\ (category_rank (Models.from_ssnum 0)
      <= category_rank (Models.from_ssnum 3))%nat
  /\ Models.from_ssnum 6 = Models.TROPICAL_STORM.
Proof.
  destruct from_ssnum_scale as [Hmono Hdefault].
  split; [lia |]. split; [lia |]. split; [lia |]. split; [lia |]. split.
  - apply Hmono; lia.
  - apply Hdefault. lia.
Defined.

Lemma validators_agree_witness :
  Py.converts (Py.PFloat 30) /\ Py.converts (Py.PStr "-95")
  /\ match Validation.validate_and_normalize_coordinates sample_parse
            (Py.PFloat 30) (Py.PStr "-95") with
     | (Some a, Some b, None) =>
         Validation.validate_coordinates sample_parse (Py.PFloat 30)
           (Py.PStr "-95") = true
         /\ Py.float sample_parse (Py.PFloat 30) = Py.Returns a
         /\ Py.float sample_parse (Py.PStr "-95") = Py.Returns b
     | (None, None, Some _) =>
         Validation.validate_coordinates sample_parse (Py.PFloat 30)
           (Py.PStr "-95") = false
     | _ => False
     end.
Proof.
  assert (Hlat : Py.converts (Py.PFloat 30)) by (vm_compute; discriminate).
  assert (Hlon : Py.converts (Py.PStr "-95")) by exact I.
  split; [exact Hlat |]. split; [exact Hlon |].
  exact (validators_agree sample_parse (Py.PFloat 30) (Py.PStr "-95")
           Hlat Hlon).
Defined.

Lemma format_direction_of_number_witness :
  Py.float sample_parse (Py.PFloat (-100)) = Py.Returns (-100)
  /\ Py.in_double_range (-100)
  /\ exists d, In d HurricaneRows.directions
       /\ HurricaneRows._format_direction sample_parse (Py.PFloat (-100))
          = Py.Returns (Some d).
Proof.
  assert (H : Py.in_double_range (-100)) by (vm_compute; discriminate).
  split; [reflexivity |]. split; [exact H |].
  exact (format_direction_of_number sample_parse (Py.PFloat (-100)) (-100)
           eq_refl H).
Defined.

Lemma format_direction_periodic_witness :
  Qabs 350 <= 1000000
  /\ HurricaneRows._format_direction sample_parse (Py.PFloat (350 + 360))
     = HurricaneRows._format_direction sample_parse (Py.PFloat 350).
Proof.
  assert (H : Qabs 350 <= 1000000) by (vm_compute; discriminate).
  split; [exact H | exact (format_direction_periodic sample_parse 350 H)].
Defined.

Lemma format_direction_sector_witness :
  Qabs 100 <= 1000000
  /\ Qabs (100 - (45 # 2) * inject_Z 4) < 45 # 4
  /\ HurricaneRows._format_direction sample_parse (Py.PFloat 100)
     = Py.Returns (nth_error HurricaneRows.directions (Z.to_nat (4 mod 16))).
Proof.
  assert (B : Qabs 100 <= 1000000) by (vm_compute; discriminate).
  assert (H : Qabs (100 - (45 # 2) * inject_Z 4) < 45 # 4) by reflexivity.
  split; [exact B |]. split; [exact H |].
  exact (format_direction_sector sample_parse 100 4 B H).
Defined.

Lemma format_direction_boundary_witness :
  (135 # 4) == (45 # 2) * inject_Z 1 + (45 # 4)
  /\ HurricaneRows._format_direction sample_parse (Py.PFloat (135 # 4))
     = Py.Returns
         (nth_error HurricaneRows.directions
            (Z.to_nat ((if Z.even 1 then 1 else 1 + 1) mod 16))).
Proof.
  assert (H : (135 # 4) == (45 # 2) * inject_Z 1 + (45 # 4)) by reflexivity.
  split; [exact H |].
  exact (format_direction_boundary sample_parse (135 # 4) 1 H).
Defined.

Lemma results_within_radius_witness :
  0 <= 100
  /\ (forall r,
        In r (@Wildfires.get_wildfires_near_location approx_math 30 (-95) 100
                [fire_holed; fire_origin_only]) ->
        miles_le (Wildfires.distance_miles r) (Finite 100) = true)
  /\ Forall (fun cone => Hurricanes.geometry cone <> None) [cone_square]
  /\ (forall r,
        In r (@Hurricanes.get_hurricanes_near_location approx_math
                (fun _ => true) 30 (-95) 100 [cone_square]) ->
        miles_le (Hurricanes.distance_miles r) (Finite 100) = true).
Proof.
  assert (H : 0 <= 100) by lra.
  assert (Hg : Forall (fun cone => Hurricanes.geometry cone <> None)
                 [cone_square])
    by (repeat constructor; discriminate).
  destruct (@results_within_radius approx_math 30 (-95) 100 H)
    as (Hw & Hh & _).
  split; [exact H |]. split; [apply Hw |]. split; [exact Hg |].
  intro r. apply Hh. exact Hg.
Defined.

Lemma storm_positions_lowest_tau_witness :
  Forall HurricaneRows.complete sample_positions
  /\ lowest_tau_held (HurricaneRows.storm_positions sample_positions)
       sample_positions.
Proof.
  assert (H : Forall HurricaneRows.complete sample_positions)
    by (repeat constructor; discriminate).
  split; [exact H | exact (storm_positions_lowest_tau sample_positions H)].
Defined.

Lemma loaded_locations_valid_witness :
  Validation.load_locations_from_csv sample_parse sample_strip sample_csv
  = Py.Returns [houston]
  /\ Forall valid_location [houston]
  /\ exists fieldnames rows, sample_csv = Some (fieldnames, rows)
       /\ (List.length [houston] <= List.length rows)%nat.
Proof.
  split; [reflexivity |].
  apply (loaded_locations_valid sample_parse sample_strip sample_csv).
  reflexivity.
Defined.

Lemma short_row_raises_type_error_witness :
  Validation.load_locations_from_csv sample_parse sample_strip
    (Some (sample_header, [row_houston])) = Py.Returns [houston]
  /\ Py.get row_short "latitude" = Some None
  /\ Validation.load_locations_from_csv sample_parse sample_strip
       (Some (sample_header, [row_houston] ++ row_short :: [row_houston]))
     = Py.Raises Py.TypeError.
Proof.
  split; [reflexivity |]. split; [reflexivity |].
  apply (short_row_raises_type_error sample_parse sample_strip sample_header
           [row_houston] [row_houston] row_short [houston]);
    reflexivity.
Defined.

Lemma nearby_disasters_policy_witness :
  0 <= 100
  /\ Py.in_double_range 30 /\ Py.in_double_range (-95)
  /\ Forall (fun cone => Hurricanes.geometry cone <> None)
       (Package.cone_df sample_fetched_rings)
  /\ match @Package.get_nearby_disasters approx_math sample_parse
             sample_fetched_rings 30 (-95) 100 None "Houston" with
     | Py.Raises e =>
         e = Py.ValueError
         /\ ~ ((-90 <= 30 /\ 30 <= 90) /\ (-180 <= -95 /\ -95 <= 180))
     | Py.Returns r =>
         ((-90 <= 30 /\ 30 <= 90) /\ (-180 <= -95 /\ -95 <= 180))
         /\ Forall (fun h => miles_le (Hurricanes.distance_miles h)
                               (Finite 100) = true) (Package.hurricanes r)
         /\ Forall (fun t => miles_le (Tornadoes.distance_miles t)
                               (Finite 100) = true) (Package.tornadoes r)
         /\ Forall (fun w => miles_le (Wildfires.distance_miles w)
                               (Finite 100) = true) (Package.wildfires r)
     end.
Proof.
  assert (H : 0 <= 100) by lra.
  assert (Hlat : Py.in_double_range 30) by (vm_compute; discriminate).
  assert (Hlon : Py.in_double_range (-95)) by (vm_compute; discriminate).
  assert (Hg : Forall (fun cone => Hurricanes.geometry cone <> None)
                 (Package.cone_df sample_fetched_rings))
    by (repeat constructor; discriminate).
  split; [exact H |]. split; [exact Hlat |]. split; [exact Hlon |].
  split; [exact Hg |].
  exact (@nearby_disasters_policy approx_math sample_parse sample_fetched_rings
           30 (-95) 100 None "Houston" H Hlat Hlon Hg).
Defined.

Lemma contained_means_zero_witness :
  snd (@Hurricanes._calculate_distance_to_cone approx_math 30 (-95)
         cone_square) = true
  /\ @Hurricanes._calculate_distance_to_cone approx_math 30 (-95) cone_square
     = (Finite 0, true).
Proof.
  split; [reflexivity |].
  destruct (@contained_means_zero approx_math 30 (-95) cone_square fire_holed)
    as [Hcone _].
  apply Hcone. reflexivity.
Defined.

Lemma degenerate_outer_never_contains_witness :
  Wildfires.geometry_rings fire_sliver = [(0, 0); (1, 1)] :: [square]
  /\ lt (List.length [(0, 0); (1, 1)]) 3
  /\ snd (@Wildfires._calculate_distance_to_fire approx_math (1 # 2) (1 # 2)
            fire_sliver) = false.
Proof.
  assert (H : lt (List.length [(0, 0); (1, 1)]) 3) by (cbn; lia).
  split; [reflexivity |]. split; [exact H |].
  exact (@degenerate_outer_never_contains approx_math (1 # 2) (1 # 2)
           fire_sliver [(0, 0); (1, 1)] [square] eq_refl H).
Defined.

Lemma no_usable_ring_is_infinity_witness :
  Forall (fun ring : Utils.polygon_t => lt (List.length ring) 3)
    (Wildfires.geometry_rings fire_points)
  /\ @Wildfires._calculate_distance_to_fire approx_math 0 0 fire_points
     = (Infinity, false).
Proof.
  assert (H : Forall (fun ring : Utils.polygon_t => lt (List.length ring) 3)
                (Wildfires.geometry_rings fire_points))
    by (repeat constructor).
  split; [exact H |].
  exact (@no_usable_ring_is_infinity approx_math 0 0 fire_points H).
Defined.

Lemma cone_without_outer_ring_witness :
  Hurricanes.geometry cone_no_rings = Some []
  /\ (@nil Utils.polygon_t = [] \/ exists rest, @nil Utils.polygon_t = [] :: rest)
  /\ @Hurricanes._calculate_distance_to_cone approx_math 30 (-95) cone_no_rings
     = (Infinity, false).
Proof.
  assert (H : @nil Utils.polygon_t = []
              \/ exists rest, @nil Utils.polygon_t = [] :: rest)
    by (now left).
  split; [reflexivity |]. split; [exact H |].
  exact (@cone_without_outer_ring approx_math 30 (-95) cone_no_rings []
           eq_refl H).
Defined.

Lemma loaded_location_query_returns_witness :
  Validation.load_locations_from_csv sample_parse sample_strip sample_csv
  = Py.Returns [houston]
  /\ In houston [houston]
  /\ exists r,
       @Package.get_nearby_disasters approx_math sample_parse sample_fetched
         (Validation.loc_latitude houston) (Validation.loc_longitude houston)
         100 None (Validation.loc_name houston)
       = Py.Returns r.
Proof.
  assert (Hin : In houston [houston]) by (now left).
  split; [reflexivity |]. split; [exact Hin |].
  exact (@loaded_location_query_returns approx_math sample_parse sample_strip
           sample_csv [houston] sample_fetched 100 None houston eq_refl Hin).
Defined.
